(** * Snapshot container codec and resolver (runtime/bin/snapshot_utils.cc)

    A shallow embedding of the snapshot loading layer of the standalone
    embedder: the blob container reader and writer, the appended-trailer
    and Mach-O probes, the dynamic-library strategy, the resolver, and the
    ELF signature test.  The C++ code talks to the operating system and to
    the ELF loader; here the file system is an explicit finite map that is
    threaded through every call together with a trace of the calls made to
    the outside, and abrupt termination (FATAL, ErrorExit, a failed ASSERT)
    is a result of its own. *)

From stdpp Require Import gmap strings list.
From Stdlib Require Import ZArith Lia.
From Stdlib.Strings Require Import Byte.

Open Scope Z_scope.

(** ** Bytes and fixed-width integers *)

#[global] Instance byte_eq_dec : EqDecision byte := Byte.byte_eq_dec.

Definition byte_of_Z (z : Z) : byte :=
  match Byte.of_N (Z.to_N (z mod 256)) with
  | Some b => b
  | None => x00
  end.

Definition Z_of_byte (b : byte) : Z := Z.of_N (Byte.to_N b).

(** Little-endian value of a run of bytes (every supported host is
    little-endian, so this is also how an integer lies in memory). *)
Fixpoint le_decode (bs : list byte) : Z :=
  match bs with
  | [] => 0
  | b :: rest => Z_of_byte b + 256 * le_decode rest
  end.

Fixpoint le_encode (n : nat) (z : Z) : list byte :=
  match n with
  | O => []
  | S n' => byte_of_Z z :: le_encode n' (z / 256)
  end.

(** Two's complement wrap-around of the C++ integer types involved. *)
Definition int64 (z : Z) : Z := (z + 2 ^ 63) mod 2 ^ 64 - 2 ^ 63.
Definition uint64 (z : Z) : Z := z mod 2 ^ 64.
Definition uint32 (z : Z) : Z := z mod 2 ^ 32.

(** Reading an [int64_t], a [uint32_t] out of memory. *)
Definition load_int64 (bs : list byte) : Z := int64 (le_decode (take 8 bs)).
Definition load_uint32 (bs : list byte) : Z := le_decode (take 4 bs).
Definition load_uint64 (bs : list byte) : Z := le_decode (take 8 bs).
(** The object representation of an [int64_t]. *)
Definition store_int64 (z : Z) : list byte := le_encode 8 z.

(** [bytes] from [position] on, [count] of them (fewer at the end). *)
Definition slice (position count : Z) (bytes : list byte) : list byte :=
  take (Z.to_nat count) (drop (Z.to_nat position) bytes).

(** The bytes of a mapping of [count] bytes from [position] on: a mapping
    has the length that was asked for, and what lies behind the end of the
    file reads as zeros. *)
Definition mapping_bytes (position count : Z) (bytes : list byte) : list byte :=
  let present := slice position count bytes in
  present ++ replicate (Z.to_nat count - length present) x00.

(** The bytes of a file after [data] was written at [position]: a write
    past the end leaves a hole that reads as zeros. *)
Definition write_at (position : Z) (data bytes : list byte) : list byte :=
  take (Z.to_nat position) bytes
    ++ replicate (Z.to_nat position - length bytes) x00
    ++ data
    ++ drop (Z.to_nat position + length data) bytes.

(** C string comparison over memory given as the bytes from the pointer on.
    The second argument is a literal and carries its terminating NUL. *)
Fixpoint strcmp (s1 s2 : list byte) : Z :=
  match s1, s2 with
  | c1 :: r1, c2 :: r2 =>
      if bool_decide (c1 = c2)
      then (if bool_decide (c1 = x00) then 0 else strcmp r1 r2)
      else Z_of_byte c1 - Z_of_byte c2
  | [], _ :: _ => -1
  | _ :: _, [] => 1
  | [], [] => 0
  end.

Fixpoint strncmp (s1 s2 : list byte) (n : nat) {struct n} : Z :=
  match n with
  | O => 0
  | S n' =>
      match s1, s2 with
      | c1 :: r1, c2 :: r2 =>
          if bool_decide (c1 = c2)
          then (if bool_decide (c1 = x00) then 0 else strncmp r1 r2 n')
          else Z_of_byte c1 - Z_of_byte c2
      | [], _ :: _ => -1
      | _ :: _, [] => 1
      | [], [] => 0
      end
  end.

Fixpoint strlen (s : list byte) : Z :=
  match s with
  | [] => 0
  | c :: rest => if bool_decide (c = x00) then 0 else 1 + strlen rest
  end.

Definition c_str (s : string) : list byte := String.list_byte_of_string s ++ [x00].

(** ** Constants *)

(** platform/globals.h *)
Definition kInt64Size : Z := 8.
Definition KB : Z := 1024.

Definition kAppSnapshotHeaderSize : Z := 5 * kInt64Size.
Definition kAppSnapshotPageSize : Z := 16 * KB.

Definition kMachOAppSnapshotSegmentName : list byte := c_str "__CUSTOM".
Definition kMachOAppSnapshotSectionName : list byte := c_str "__dart_app_snap".

(** bin/error_exit.h *)
Definition kErrorExitCode : Z := 255.

(** Modelled from the spec: [Utils::RoundUp] of platform/utils.h, which is
    not among the sources.  It "rounds byte offsets up to a fixed page
    size"; the arithmetic is that of [int64_t]. *)
Definition RoundUp (x alignment : Z) : Z :=
  int64 ((int64 (x + alignment - 1) / alignment) * alignment).

(** Modelled from the spec: [Utils::LittleEndianToHost64] of
    platform/utils.h; on a little-endian host the word is taken as it is,
    as the [uint64_t] the function returns. *)
Definition LittleEndianToHost64 (x : Z) : Z := uint64 x.

(** Modelled from the spec: platform/mach_o.h is not among the sources; the
    constants and the field offsets below are those of the Mach-O format
    that the header transcribes ("a 64-bit, non-byte-swapped executable
    header containing a segment-type load command whose section list
    includes an entry named with a fixed reserved (segment, section) name
    pair; that section's file offset/size delimit the embedded blob"). *)
Module mach_o.
Definition MH_MAGIC : Z := 0xfeedface.
Definition MH_CIGAM : Z := 0xcefaedfe.
Definition MH_MAGIC_64 : Z := 0xfeedfacf.
Definition MH_CIGAM_64 : Z := 0xcffaedfe.
Definition LC_SEGMENT : Z := 0x1.
Definition LC_SEGMENT_64 : Z := 0x19.

Definition sizeof_mach_header_64 : Z := 32.
Definition sizeof_load_command : Z := 8.
Definition sizeof_segment_command_64 : Z := 72.
Definition sizeof_section_64 : Z := 80.

(** [mach_header_64] *)
Definition ncmds (header : list byte) : Z := load_uint32 (drop 16 header).
(** [load_command], and the same two leading fields of a segment command *)
Definition cmd (command : list byte) : Z := load_uint32 command.
Definition cmdsize (command : list byte) : Z := load_uint32 (drop 4 command).
(** [segment_command_64] *)
Definition nsects (segment : list byte) : Z := load_uint32 (drop 64 segment).
(** [section_64]: the memory from the field on *)
Definition sectname (section : list byte) : list byte := section.
Definition segname (section : list byte) : list byte := drop 16 section.
Definition size (section : list byte) : Z := load_uint64 (drop 40 section).
Definition offset (section : list byte) : Z := load_uint32 (drop 48 section).
End mach_o.

(** ** The world outside the process *)

(** bin/file.h: [File::Type], [File::FileOpenMode], [File::MapType]. *)
Inductive FileType :=
  kIsFile | kIsDirectory | kIsLink | kIsSock | kIsPipe | kDoesNotExist.
Inductive FileOpenMode := kRead | kWriteTruncate.
Inductive MapType := kReadOnly | kReadExecute.

#[global] Instance FileType_eq_dec : EqDecision FileType.
Proof. solve_decision. Defined.

Record Node := { n_type : FileType; n_bytes : list byte }.

(** A pointer to bytes is null or designates the bytes found there. *)
Definition Ptr : Type := option (list byte).

Record MappedMemory := {
  mm_type : MapType;
  mm_position : Z;
  mm_size : Z;
  address : list byte;
}.

Definition Library : Type := Z.
Definition Dart_LoadedElf : Type := Z.

(** What the ELF loader hands back on success. *)
Record ElfImage := {
  elf_handle : Dart_LoadedElf;
  elf_vm_data : Ptr;
  elf_vm_instructions : Ptr;
  elf_isolate_data : Ptr;
  elf_isolate_instructions : Ptr;
}.

(** Calls that leave the process, in the order they are made. *)
Inductive Event :=
| EvOpen (path : string) (mode : FileOpenMode)
| EvRead (path : string) (position count : Z)
| EvMap (path : string) (type : MapType) (position length : Z)
| EvLoadDynamicLibrary (path : option string)
| EvResolveSymbol (library : Library) (symbol : string)
| EvLoadELF (path : string) (file_offset : Z)
| EvLoadELF_Memory (snapshot : list byte) (size : Z)
| EvPrintErr (message : string).

(** [fs] is the file system, [trace] the calls made so far (latest first),
    [faults] the fate of the coming non-empty [WriteFully] calls ([true]:
    the device refuses the write; once the list is used up writes succeed),
    [torn] how many bytes the device had taken of each write it refuses
    (none once the list is used up). *)
Record World := {
  fs : gmap string Node;
  trace : list Event;
  faults : list bool;
  torn : list nat;
}.

(** The collaborators that this file only calls: memory mapping, the
    allocator behind [new] for an array whose length comes out of a file,
    URI decoding, path resolution, the dynamic loader and the ELF loader. *)
Record Host := {
  MapGranted : MapType -> Z -> Z -> bool;
  NewGranted : Z -> bool;
  UriToPath : string -> option string;
  realpath : string -> option string;
  LoadDynamicLibrary : option string -> option Library;
  ResolveSymbolInDynamicLibrary : Library -> string -> Ptr;
  Dart_LoadELF : string -> Z -> string + ElfImage;
  Dart_LoadELF_Memory : list byte -> Z -> string + ElfImage;
}.

(** The preprocessor symbols the file branches on. *)
Record Build := {
  DART_PRECOMPILED_RUNTIME : bool;
  DART_TARGET_OS_MACOS : bool;
  DART_TARGET_OS_LINUX : bool;
  DART_HOST_OS_FUCHSIA : bool;
  DEBUG : bool;
}.

(** ** Results and the state monad *)

(** [BadAlloc]: [std::bad_alloc] leaves a [new] that the allocator cannot
    serve; nothing in the file catches it, and the program is terminated. *)
Inductive Diagnostic :=
| FATAL1 (format arg : string)
| ErrorExit (exit_code : Z) (format arg : string)
| AssertionFailed (condition : string)
| BadAlloc.

(** [Undefined]: the C++ program reads memory it never initialised or
    dereferences a null pointer; nothing is claimed about it then. *)
Inductive Result (A : Type) : Type :=
| Returns (a : A)
| Aborts (d : Diagnostic)
| Undefined.
Arguments Returns {A} a.
Arguments Aborts {A} d.
Arguments Undefined {A}.

Definition M (A : Type) : Type := World -> Result A * World.

Definition ret {A} (a : A) : M A := fun w => (Returns a, w).

Definition bind {A B} (c : M A) (k : A -> M B) : M B :=
  fun w =>
    match c w with
    | (Returns a, w') => k a w'
    | (Aborts d, w') => (Aborts d, w')
    | (Undefined, w') => (Undefined, w')
    end.

Notation "'let*' x := c 'in' k" := (bind c (fun x => k))
  (at level 10, x name, c at level 100, k at level 200).
Notation "'let*' ' pat := c 'in' k" :=
  (bind c (fun x => match x with pat => k end))
  (at level 10, pat pattern, c at level 100, k at level 200).
Notation "c ;;; k" := (bind c (fun _ => k))
  (at level 100, k at level 200, right associativity).

Definition abort {A} (d : Diagnostic) : M A := fun w => (Aborts d, w).
Definition undefined {A} : M A := fun w => (Undefined, w).

Definition record_event (e : Event) (w : World) : World :=
  {| fs := fs w; trace := e :: trace w; faults := faults w; torn := torn w |}.

Definition emit (e : Event) : M unit := fun w => (Returns tt, record_event e w).

Definition PrintErr (message : string) : M unit := emit (EvPrintErr message).

Definition get_fs : M (gmap string Node) := fun w => (Returns (fs w), w).

Definition put_node (path : string) (n : Node) : M unit :=
  fun w => (Returns tt,
            {| fs := <[path := n]> (fs w); trace := trace w; faults := faults w; torn := torn w |}).

(** Takes the fate of the next write off the list. *)
Definition next_fault : M bool :=
  fun w =>
    match faults w with
    | [] => (Returns false, w)
    | b :: rest =>
        (Returns b,
         {| fs := fs w; trace := trace w; faults := rest; torn := torn w |})
    end.

(** How many bytes of a write of [num_bytes] bytes the device had taken
    when it refused the rest: fewer than [num_bytes]. *)
Definition taken (num_bytes : Z) (w : World) : Z :=
  Z.min (Z.of_nat (hd O (torn w))) (num_bytes - 1).

Definition next_torn (num_bytes : Z) : M Z :=
  fun w =>
    (Returns (taken num_bytes w),
     {| fs := fs w; trace := trace w; faults := faults w; torn := tl (torn w) |}).

Section Program.

Variable build : Build.
Variable host : Host.

(** [ASSERT] is compiled out of release builds. *)
Definition ASSERT (condition : bool) (text : string) : M unit :=
  if DEBUG build && negb condition then abort (AssertionFailed text) else ret tt.

(** ** bin/file.h, as far as it is used

    Modelled from the spec: the [File] class is an external collaborator
    ("process/file/OS primitives ... their contracts"): a file object is a
    path and a cursor; reads and maps see the bytes of the regular file at
    that path, writes change them. *)

Record File := { f_path : string; f_position : Z }.

Definition file_bytes (m : gmap string Node) (path : string) : list byte :=
  match m !! path with
  | Some n => n_bytes n
  | None => []
  end.

Definition GetType (name : string) : M FileType :=
  let* m := get_fs in
  ret (match m !! name with
       | Some n => n_type n
       | None => kDoesNotExist
       end).

Definition Open (name : string) (mode : FileOpenMode) : M (option File) :=
  emit (EvOpen name mode) ;;;
  let* m := get_fs in
  match mode with
  | kRead =>
      match m !! name with
      | Some n =>
          if bool_decide (n_type n = kIsFile)
          then ret (Some {| f_path := name; f_position := 0 |})
          else ret None
      | None => ret None
      end
  | kWriteTruncate =>
      match m !! name with
      | Some n =>
          if bool_decide (n_type n = kIsFile)
          then put_node name {| n_type := kIsFile; n_bytes := [] |} ;;;
               ret (Some {| f_path := name; f_position := 0 |})
          else ret None
      | None =>
          put_node name {| n_type := kIsFile; n_bytes := [] |} ;;;
          ret (Some {| f_path := name; f_position := 0 |})
      end
  end.

Definition Length (file : File) : M Z :=
  let* m := get_fs in
  ret (Z.of_nat (length (file_bytes m (f_path file)))).

Definition Position (file : File) : Z := f_position file.

Definition SetPosition (file : File) (position : Z) : bool * File :=
  if position <? 0 then (false, file)
  else (true, {| f_path := f_path file; f_position := position |}).

(** One read: as many bytes as there are, at most [num_bytes]. *)
Definition Read (file : File) (num_bytes : Z) : M (list byte * File) :=
  emit (EvRead (f_path file) (f_position file) num_bytes) ;;;
  let* m := get_fs in
  let got := slice (f_position file) num_bytes (file_bytes m (f_path file)) in
  ret (got, {| f_path := f_path file;
               f_position := f_position file + Z.of_nat (length got) |}).

(** Reads until [num_bytes] are in or the file ends; [false] when short. *)
Definition ReadFully (file : File) (num_bytes : Z) : M (bool * list byte * File) :=
  let* '(got, file') := Read file num_bytes in
  ret (bool_decide (Z.of_nat (length got) = Z.max 0 num_bytes), got, file').

Definition Map (file : File) (type : MapType) (position length : Z)
  : M (option MappedMemory) :=
  emit (EvMap (f_path file) type position length) ;;;
  let* m := get_fs in
  if MapGranted host type position length
  then ret (Some {| mm_type := type; mm_position := position; mm_size := length;
                    address :=
                      mapping_bytes position length (file_bytes m (f_path file)) |})
  else ret None.

(** Writes the first [num_bytes] bytes of [buffer] at the cursor, [Write]
    after [Write] until all are out.  Nothing is asked of the device for an
    empty write.  When the device refuses to go on, what it had taken
    before stays in the file, with the cursor behind it ("no partial-file
    cleanup is attempted"). *)
Definition WriteFully (file : File) (buffer : list byte) (num_bytes : Z)
  : M (bool * File) :=
  if num_bytes <=? 0 then ret (true, file)
  else if Z.of_nat (length buffer) <? num_bytes then undefined
  else
    let* refused := next_fault in
    if (refused : bool) then
      let* taken := next_torn num_bytes in
      let* m := get_fs in
      (if 0 <? taken
       then put_node (f_path file)
              {| n_type := kIsFile;
                 n_bytes := write_at (f_position file)
                              (take (Z.to_nat taken) buffer)
                              (file_bytes m (f_path file)) |}
       else ret tt) ;;;
      ret (false, {| f_path := f_path file;
                     f_position := f_position file + taken |})
    else
      let* m := get_fs in
      put_node (f_path file)
        {| n_type := kIsFile;
           n_bytes := write_at (f_position file) (take (Z.to_nat num_bytes) buffer)
                        (file_bytes m (f_path file)) |} ;;;
      ret (true, {| f_path := f_path file;
                    f_position := f_position file + num_bytes |}).

(** [memcmp]: zero exactly when the first [n] bytes agree. *)
Fixpoint memcmp (a b : list byte) (n : nat) {struct n} : Z :=
  match n with
  | O => 0
  | S n' =>
      match a, b with
      | x :: a', y :: b' =>
          if bool_decide (x = y) then memcmp a' b' n'
          else Z_of_byte x - Z_of_byte y
      | [], _ :: _ => -1
      | _, [] => 1
      end
  end.

(** ** Values declared in headers that are not part of the sources

    bin/dartutils.h ([appjit_magic_number], a [MagicNumberData]) and
    include/dart_api.h (the four symbol names). *)
Record MagicNumberData := { magic_length : Z; magic_bytes : list byte }.

Record Headers := {
  appjit_magic_number : MagicNumberData;
  kVmSnapshotDataCSymbol : string;
  kVmSnapshotInstructionsCSymbol : string;
  kIsolateSnapshotDataCSymbol : string;
  kIsolateSnapshotInstructionsCSymbol : string;
}.

Variable headers : Headers.

(** ** The snapshot handles *)

Inductive AppSnapshot :=
| MappedAppSnapshot
    (vm_data_mapping_ vm_instructions_mapping_
     isolate_data_mapping_ isolate_instructions_mapping_ : option MappedMemory)
| ElfAppSnapshot
    (elf_ : Dart_LoadedElf)
    (vm_snapshot_data_ vm_snapshot_instructions_
     isolate_snapshot_data_ isolate_snapshot_instructions_ : Ptr)
| DylibAppSnapshot
    (library_ : Library)
    (vm_snapshot_data_ vm_snapshot_instructions_
     isolate_snapshot_data_ isolate_snapshot_instructions_ : Ptr).

(** The four variables of the caller that [SetBuffers] writes through. *)
Record Buffers := {
  vm_data_buffer : Ptr;
  vm_instructions_buffer : Ptr;
  isolate_data_buffer : Ptr;
  isolate_instructions_buffer : Ptr;
}.

Definition null_buffers : Buffers :=
  {| vm_data_buffer := None; vm_instructions_buffer := None;
     isolate_data_buffer := None; isolate_instructions_buffer := None |}.

(** [*buffer = mapping->address()] when the mapping is not null. *)
Definition set_if_mapped (mapping : option MappedMemory) (buffer : Ptr) : Ptr :=
  match mapping with
  | Some m => Some (address m)
  | None => buffer
  end.

Definition SetBuffers (snapshot : AppSnapshot) (out : Buffers) : Buffers :=
  match snapshot with
  | MappedAppSnapshot vm_data vm_instructions isolate_data isolate_instructions =>
      {| vm_data_buffer := set_if_mapped vm_data (vm_data_buffer out);
         vm_instructions_buffer :=
           set_if_mapped vm_instructions (vm_instructions_buffer out);
         isolate_data_buffer := set_if_mapped isolate_data (isolate_data_buffer out);
         isolate_instructions_buffer :=
           set_if_mapped isolate_instructions (isolate_instructions_buffer out) |}
  | ElfAppSnapshot _ vm_data vm_instructions isolate_data isolate_instructions
  | DylibAppSnapshot _ vm_data vm_instructions isolate_data isolate_instructions =>
      {| vm_data_buffer := vm_data;
         vm_instructions_buffer := vm_instructions;
         isolate_data_buffer := isolate_data;
         isolate_instructions_buffer := isolate_instructions |}
  end.

(** ** Blob container: reader *)

(** [header[i]] of an [int64_t header[5]] filled from the file. *)
Definition header_word (header : list byte) (i : Z) : Z :=
  load_int64 (drop (Z.to_nat (kInt64Size * i)) header).

(** The positions the reader derives from the cursor after the header and
    the four sizes. *)
Record SectionLayout := {
  vm_data_position : Z;
  vm_instructions_position : Z;
  isolate_data_position : Z;
  isolate_instructions_position : Z;
}.

Definition section_positions (position : Z)
    (vm_data_size vm_instructions_size isolate_data_size
     isolate_instructions_size : Z) : SectionLayout :=
  let vm_data_position := RoundUp position kAppSnapshotPageSize in
  let vm_instructions_position := int64 (vm_data_position + vm_data_size) in
  let vm_instructions_position :=
    if negb (vm_instructions_size =? 0)
    then RoundUp vm_instructions_position kAppSnapshotPageSize
    else vm_instructions_position in
  let isolate_data_position :=
    RoundUp (int64 (vm_instructions_position + vm_instructions_size))
      kAppSnapshotPageSize in
  let isolate_instructions_position :=
    int64 (isolate_data_position + isolate_data_size) in
  let isolate_instructions_position :=
    if negb (isolate_instructions_size =? 0)
    then RoundUp isolate_instructions_position kAppSnapshotPageSize
    else isolate_instructions_position in
  {| vm_data_position := vm_data_position;
     vm_instructions_position := vm_instructions_position;
     isolate_data_position := isolate_data_position;
     isolate_instructions_position := isolate_instructions_position |}.

(** One section: mapped when its size is not zero, and then a refusal is
    fatal. *)
Definition map_section (script_name : string) (file : File) (type : MapType)
    (position size : Z) : M (option MappedMemory) :=
  if negb (size =? 0) then
    let* mapping := Map file type position size in
    match mapping with
    | None => abort (FATAL1 "Failed to memory map snapshot: %s\n" script_name)
    | Some m => ret (Some m)
    end
  else ret None.

Definition TryReadAppSnapshotBlobs_file (script_name : string) (file : File)
  : M (option AppSnapshot) :=
  let* file_length := Length file in
  if int64 (file_length - Position file) <? kAppSnapshotHeaderSize then ret None
  else
    ASSERT (5 * kInt64Size =? kAppSnapshotHeaderSize)
      "sizeof(header) == kAppSnapshotHeaderSize" ;;;
    let* '(ok, header, file) := ReadFully file kAppSnapshotHeaderSize in
    if negb ok then ret None
    else
      ASSERT (kInt64Size =? magic_length (appjit_magic_number headers))
        "sizeof(header[0]) == appjit_magic_number.length" ;;;
      if negb (memcmp header (magic_bytes (appjit_magic_number headers))
                 (Z.to_nat (magic_length (appjit_magic_number headers))) =? 0)
      then ret None
      else
        let vm_data_size := header_word header 1 in
        let vm_instructions_size := header_word header 2 in
        let isolate_data_size := header_word header 3 in
        let isolate_instructions_size := header_word header 4 in
        let layout :=
          section_positions (Position file) vm_data_size vm_instructions_size
            isolate_data_size isolate_instructions_size in
        let* vm_data_mapping :=
          map_section script_name file kReadOnly
            (vm_data_position layout) vm_data_size in
        let* vm_instr_mapping :=
          map_section script_name file kReadExecute
            (vm_instructions_position layout) vm_instructions_size in
        let* isolate_data_mapping :=
          map_section script_name file kReadOnly
            (isolate_data_position layout) isolate_data_size in
        let* isolate_instr_mapping :=
          map_section script_name file kReadExecute
            (isolate_instructions_position layout) isolate_instructions_size in
        ret (Some (MappedAppSnapshot vm_data_mapping vm_instr_mapping
                     isolate_data_mapping isolate_instr_mapping)).

Definition TryReadAppSnapshotBlobs (script_name : string) : M (option AppSnapshot) :=
  let* file := Open script_name kRead in
  match file with
  | None => ret None
  | Some file => TryReadAppSnapshotBlobs_file script_name file
  end.

(** ** Generic ELF loader strategy (DART_PRECOMPILED_RUNTIME) *)

Definition elf_snapshot (image : ElfImage) : AppSnapshot :=
  ElfAppSnapshot (elf_handle image) (elf_vm_data image)
    (elf_vm_instructions image) (elf_isolate_data image)
    (elf_isolate_instructions image).

(** [script_name] is a C string and may be null (see the resolver); the
    loader and [File::Open] are not asked what they do with a null name.
    [file_offset] is a [uint64_t]; [address + file_offset] is a pointer into
    the mapping, or one past its end, only while the offset does not exceed
    the length of the mapping. *)
Definition TryReadAppSnapshotElf (script_name : option string) (file_offset : Z)
    (force_load_elf_from_memory : bool) : M (option AppSnapshot) :=
  match script_name with
  | None => undefined
  | Some script_name =>
      let* loaded :=
        if DART_HOST_OS_FUCHSIA build || force_load_elf_from_memory then
          let* file := Open script_name kRead in
          match file with
          | None => ret None
          | Some file =>
              let* file_length := Length file in
              let* memory := Map file kReadOnly 0 file_length in
              match memory with
              | None => ret None
              | Some memory =>
                  if (file_offset <? 0) || (file_length <? file_offset)
                  then undefined
                  else
                    let snapshot :=
                      drop (Z.to_nat file_offset) (address memory) in
                    emit (EvLoadELF_Memory snapshot file_length) ;;;
                    ret (Some (Dart_LoadELF_Memory host snapshot file_length))
              end
          end
        else
          emit (EvLoadELF script_name file_offset) ;;;
          ret (Some (Dart_LoadELF host script_name file_offset)) in
      match loaded with
      | None => ret None
      | Some (inl error) =>
          PrintErr ("Loading failed: " ++ error ++ "\n") ;;; ret None
      | Some (inr image) => ret (Some (elf_snapshot image))
      end
  end.

(** ** Mach-O probe (DART_TARGET_OS_MACOS) *)

(** [file->Read(&object, sizeof(object))] into a local object whose members
    are read right after: a short read leaves them indeterminate. *)
Definition read_object (file : File) (size : Z) : M (list byte * File) :=
  let* '(got, file) := Read file size in
  if Z.of_nat (length got) <? size then undefined else ret (got, file).

Definition IsMachOFormattedBinary (filename : string) : M bool :=
  let* file := Open filename kRead in
  match file with
  | None => ret false
  | Some file =>
      let* file_length := Length file in
      if file_length <? 4 then ret false
      else
        let '(_, file) := SetPosition file 0 in
        let* '(magic, file) := read_object file 4 in
        let magic := load_uint32 magic in
        ret ((magic =? mach_o.MH_MAGIC_64) || (magic =? mach_o.MH_CIGAM_64)
             || (magic =? mach_o.MH_MAGIC) || (magic =? mach_o.MH_CIGAM))
      end.

(** What an iteration of a loop with a [return] inside leaves behind. *)
Inductive Loop (A : Type) : Type := Return (a : A) | Continue.
Arguments Return {A} a.
Arguments Continue {A}.

(** [new uint8_t[size]]: an array of [size] bytes that hold nothing yet. *)
Definition operator_new (size : Z) : M unit :=
  if NewGranted host size then ret tt else abort BadAlloc.

(** [for (uint32_t j = 0; j < segment.nsects; ++j)], [remaining] sections
    to go.  The snapshot is read with one [Read] into an array of
    [section.size] bytes, and the loader is given the whole array: after a
    short read its tail is indeterminate. *)
Fixpoint scan_sections (remaining : nat) (segment_cmd : Z) (file : File)
  : M (Loop (option AppSnapshot) * File) :=
  match remaining with
  | O => ret (Continue, file)
  | S remaining' =>
      let* '(section, file) := read_object file mach_o.sizeof_section_64 in
      if (segment_cmd =? mach_o.LC_SEGMENT_64)
         && (strcmp (mach_o.segname section) kMachOAppSnapshotSegmentName =? 0)
         && (strcmp (mach_o.sectname section) kMachOAppSnapshotSectionName =? 0)
      then
        operator_new (mach_o.size section) ;;;
        let '(_, file) := SetPosition file (mach_o.offset section) in
        let* '(snapshot, file) := Read file (int64 (mach_o.size section)) in
        if Z.of_nat (length snapshot) <? mach_o.size section then undefined
        else
          emit (EvLoadELF_Memory snapshot (mach_o.size section)) ;;;
          match Dart_LoadELF_Memory host snapshot (mach_o.size section) with
          | inl error =>
              PrintErr ("Loading failed: " ++ error ++ "\n") ;;;
              ret (Return None, file)
          | inr image => ret (Return (Some (elf_snapshot image)), file)
          end
      else scan_sections remaining' segment_cmd file
  end.

(** [for (uint32_t i = 0; i < header.ncmds; ++i)], [remaining] commands to
    go. *)
Fixpoint scan_commands (remaining : nat) (file : File) : M (option AppSnapshot) :=
  match remaining with
  | O => ret None
  | S remaining' =>
      let* '(command, file) := read_object file mach_o.sizeof_load_command in
      let '(_, file) :=
        SetPosition file (int64 (Position file - mach_o.sizeof_load_command)) in
      if negb (mach_o.cmd command =? mach_o.LC_SEGMENT)
         && negb (mach_o.cmd command =? mach_o.LC_SEGMENT_64)
      then
        let '(_, file) :=
          SetPosition file (int64 (Position file + mach_o.cmdsize command)) in
        scan_commands remaining' file
      else
        let* '(segment, file) := read_object file mach_o.sizeof_segment_command_64 in
        let* '(found, file) :=
          scan_sections (Z.to_nat (mach_o.nsects segment)) (mach_o.cmd segment)
            file in
        match found with
        | Return snapshot => ret snapshot
        | Continue => scan_commands remaining' file
        end
  end.

Definition TryReadAppendedAppSnapshotElfFromMachO (container_path : string)
  : M (option AppSnapshot) :=
  let* file := Open container_path kRead in
  match file with
  | None => ret None
  | Some file =>
      let* is_mach_o := IsMachOFormattedBinary container_path in
      if negb is_mach_o then
        PrintErr "Attempted load target was not formatted as expected: expected Mach-O binary.\n" ;;;
        ret None
      else
        let '(_, file) := SetPosition file 0 in
        let* '(magic, file) := read_object file 4 in
        let magic := load_uint32 magic in
        let is64Bit :=
          (magic =? mach_o.MH_MAGIC_64) || (magic =? mach_o.MH_CIGAM_64) in
        let isByteSwapped :=
          (magic =? mach_o.MH_CIGAM) || (magic =? mach_o.MH_CIGAM_64) in
        if isByteSwapped then
          PrintErr "Dart snapshot contained an unexpected binary file layout. Expected non-byte swapped header but found a byte-swapped header.\n" ;;;
          ret None
        else
          let '(_, file) := SetPosition file 0 in
          if negb is64Bit then
            PrintErr "Dart snapshot compiled with 32bit architecture. Currently only 64bit architectures are supported.\n" ;;;
            ret None
          else
            let* '(header, file) := read_object file mach_o.sizeof_mach_header_64 in
            scan_commands (Z.to_nat (mach_o.ncmds header)) file
  end.

(** ** Appended trailer probe *)

Definition sizeof_appended_header : Z := 2 * kInt64Size.

Definition TryReadAppendedAppSnapshotElf (container_path : string)
  : M (option AppSnapshot) :=
  let* is_mach_o :=
    if DART_TARGET_OS_MACOS build then IsMachOFormattedBinary container_path
    else ret false in
  if (is_mach_o : bool) then TryReadAppendedAppSnapshotElfFromMachO container_path
  else
    let* file := Open container_path kRead in
    match file with
    | None => ret None
    | Some file =>
        let* file_length := Length file in
        match SetPosition file (int64 (uint64 (file_length - sizeof_appended_header))) with
        | (false, _) => ret None
        | (true, file) =>
            let* '(ok, appended_header, file) :=
              ReadFully file sizeof_appended_header in
            if negb ok then ret None
            else
              let appended_offset :=
                LittleEndianToHost64 (header_word appended_header 0) in
              if negb (memcmp (drop 8 appended_header)
                         (magic_bytes (appjit_magic_number headers))
                         (Z.to_nat (magic_length (appjit_magic_number headers)))
                       =? 0)
                 || (appended_offset <=? 0)
              then ret None
              else TryReadAppSnapshotElf (Some container_path) appended_offset false
        end
    end.

(** ** Dynamic library strategy *)

Definition resolve (library : Library) (symbol : string) : M Ptr :=
  emit (EvResolveSymbol library symbol) ;;;
  ret (ResolveSymbolInDynamicLibrary host library symbol).

Definition TryReadAppSnapshotDynamicLibrary (script_name : option string)
  : M (option AppSnapshot) :=
  emit (EvLoadDynamicLibrary script_name) ;;;
  match LoadDynamicLibrary host script_name with
  | None => ret None
  | Some library =>
      let* vm_data_buffer := resolve library (kVmSnapshotDataCSymbol headers) in
      let* vm_instructions_buffer :=
        resolve library (kVmSnapshotInstructionsCSymbol headers) in
      let* isolate_data_buffer :=
        resolve library (kIsolateSnapshotDataCSymbol headers) in
      match isolate_data_buffer with
      | None =>
          abort (FATAL1 "Failed to resolve symbol '%s'\n"
                   (kIsolateSnapshotDataCSymbol headers))
      | Some _ =>
          let* isolate_instructions_buffer :=
            resolve library (kIsolateSnapshotInstructionsCSymbol headers) in
          match isolate_instructions_buffer with
          | None =>
              abort (FATAL1 "Failed to resolve symbol '%s'\n"
                       (kIsolateSnapshotInstructionsCSymbol headers))
          | Some _ =>
              ret (Some (DylibAppSnapshot library vm_data_buffer
                           vm_instructions_buffer isolate_data_buffer
                           isolate_instructions_buffer))
          end
      end
  end.

(** ** The resolver *)

Definition TryReadAppSnapshot (script_uri : string)
    (force_load_elf_from_memory decode_uri : bool) : M (option AppSnapshot) :=
  match (if decode_uri then UriToPath host script_uri else Some script_uri) with
  | None => ret None
  | Some script_name =>
      let* type := GetType script_name in
      if negb (bool_decide (type = kIsFile)) then ret None
      else
        let* snapshot := TryReadAppSnapshotBlobs script_name in
        match snapshot with
        | Some snapshot => ret (Some snapshot)
        | None =>
            if DART_PRECOMPILED_RUNTIME build then
              let script_name :=
                if DART_TARGET_OS_LINUX build || DART_TARGET_OS_MACOS build
                then realpath host script_name
                else Some script_name in
              let* snapshot :=
                if negb force_load_elf_from_memory
                then TryReadAppSnapshotDynamicLibrary script_name
                else ret None in
              match snapshot with
              | Some snapshot => ret (Some snapshot)
              | None =>
                  TryReadAppSnapshotElf script_name 0 force_load_elf_from_memory
              end
            else ret None
        end
  end.

(** ** Blob container: writer *)

Definition WriteInt64 (file : File) (size : Z) : M (bool * File) :=
  WriteFully file (store_int64 size) kInt64Size.

Definition unable_to_write {A} (filename : string) : M A :=
  abort (ErrorExit kErrorExitCode "Unable to write snapshot file '%s'\n" filename).

(** [file->SetPosition(Utils::RoundUp(file->Position(), kAppSnapshotPageSize))] *)
Definition align (file : File) : File :=
  snd (SetPosition file (RoundUp (Position file) kAppSnapshotPageSize)).

(** A section whose write is checked. *)
Definition write_section (filename : string) (file : File)
    (buffer : list byte) (size : Z) : M File :=
  let* '(ok, file) := WriteFully file buffer size in
  if negb ok then unable_to_write filename else ret file.

Definition WriteAppSnapshot (filename : string)
    (vm_data_buffer : list byte) (vm_data_size : Z)
    (vm_instructions_buffer : list byte) (vm_instructions_size : Z)
    (isolate_data_buffer : list byte) (isolate_data_size : Z)
    (isolate_instructions_buffer : list byte) (isolate_instructions_size : Z)
  : M unit :=
  let* file := Open filename kWriteTruncate in
  match file with
  | None => unable_to_write filename
  | Some file =>
      let* '(_, file) :=
        WriteFully file (magic_bytes (appjit_magic_number headers))
          (magic_length (appjit_magic_number headers)) in
      let* '(_, file) := WriteInt64 file vm_data_size in
      let* '(_, file) := WriteInt64 file vm_instructions_size in
      let* '(_, file) := WriteInt64 file isolate_data_size in
      let* '(_, file) := WriteInt64 file isolate_instructions_size in
      ASSERT (Position file =? kAppSnapshotHeaderSize)
        "file->Position() == kAppSnapshotHeaderSize" ;;;
      let file := align file in
      let* file := write_section filename file vm_data_buffer vm_data_size in
      let* file :=
        if negb (vm_instructions_size =? 0)
        then write_section filename (align file)
               vm_instructions_buffer vm_instructions_size
        else ret file in
      let file := align file in
      let* file := write_section filename file isolate_data_buffer isolate_data_size in
      let* file :=
        if negb (isolate_instructions_size =? 0)
        then write_section filename (align file)
               isolate_instructions_buffer isolate_instructions_size
        else ret file in
      (* file->Flush(); file->Release(); *)
      ret tt
  end.

(** ** ELF signature test *)

Definition elf_header : list byte := [x7f; x45; x4c; x46; x00].

Definition IsAOTSnapshot (snapshot_filename : string) : M bool :=
  let elf_header_len := strlen elf_header in
  let* file := Open snapshot_filename kRead in
  match file with
  | None => ret false
  | Some file =>
      let* file_length := Length file in
      if file_length <? elf_header_len then ret false
      else
        let* '(success, buf, file) := ReadFully file elf_header_len in
        ASSERT success "success" ;;;
        ret (strncmp elf_header buf (Z.to_nat elf_header_len) =? 0)
  end.

End Program.

Arguments Return {A} a.
Arguments Continue {A}.

(** ** Generating snapshot files

    Modelled from the spec: the engine and the front end are external
    collaborators ("engine image-producing API (produces up to 4
    (buffer,size) pairs or an assembly byte stream via a push-style write
    callback); script/kernel compiler (path, package-config -> kernel
    buffer+size, or textual error)").  Each call is an answer the record
    holds; the assembly stream is the list of the chunks the engine pushes
    through the callback, in order, and the error it reports at the end. *)

(** bin/error_exit.h *)
Definition kCompilationErrorExitCode : Z := 254.

Record Dart_KernelCompilationResult := {
  status_is_ok : bool;
  kernel : list byte;
  kernel_size : Z;
  error : string;
}.

Record Engine := {
  Dart_CurrentIsolate : option Z;
  ReadScript : string -> option (list byte * Z);
  sanitized_uri : string -> string;
  original_working_directory : string;
  Dart_DetectNullSafety : string -> string -> string -> bool;
  CompileScriptWithGivenNullsafety :
    string -> string -> bool -> bool -> Dart_KernelCompilationResult;
  Dart_CreateSnapshot : string + (list byte * Z);
  Dart_CreateAppJITSnapshotAsBlobs : string + (list byte * Z * list byte * Z);
  Dart_CreateAppAOTSnapshotAsAssembly : list (list byte * Z) * option string;
}.

(** The preprocessor symbols the generators branch on. *)
Record Tooling := {
  EXCLUDE_CFE_AND_KERNEL_PLATFORM : bool;
  TESTING : bool;
  TARGET_ARCH_IA32 : bool;
}.

Section Generators.

Variable build : Build.
Variable tooling : Tooling.
Variable engine : Engine.
Variable headers : Headers.

(** [Platform::Exit(exit_code)]: the process ends with the code; the call
    prints nothing itself. *)
Definition Exit {A} (exit_code : Z) : M A := abort (ErrorExit exit_code "" "").

(** [UNREACHABLE()] *)
Definition UNREACHABLE {A} : M A := abort (FATAL1 "unreachable code" "").

Definition WriteSnapshotFile (filename : string) (buffer : list byte) (size : Z)
  : M unit :=
  let* file := Open filename kWriteTruncate in
  match file with
  | None =>
      abort (ErrorExit kErrorExitCode
               "Unable to open file %s for writing snapshot\n" filename)
  | Some file =>
      let* '(ok, file) := WriteFully file buffer size in
      if negb ok then
        abort (ErrorExit kErrorExitCode
                 "Unable to write file %s for writing snapshot\n" filename)
      else
        (* file->Release(); *)
        ret tt
  end.

Definition GenerateKernel (snapshot_filename script_name package_config : string)
  : M unit :=
  if negb (EXCLUDE_CFE_AND_KERNEL_PLATFORM tooling) && negb (TESTING tooling) then
    ASSERT build (bool_decide (Dart_CurrentIsolate engine = None))
      "Dart_CurrentIsolate() == nullptr" ;;;
    match ReadScript engine script_name with
    | Some (kernel_buffer, kernel_buffer_size) =>
        WriteSnapshotFile snapshot_filename kernel_buffer kernel_buffer_size
    | None =>
        let null_safety :=
          Dart_DetectNullSafety engine (sanitized_uri engine script_name)
            (sanitized_uri engine package_config)
            (original_working_directory engine) in
        let result :=
          CompileScriptWithGivenNullsafety engine script_name package_config
            true null_safety in
        (if negb (status_is_ok result)
         then PrintErr (error result ++ "\n") ;;; Exit kCompilationErrorExitCode
         else ret tt) ;;;
        WriteSnapshotFile snapshot_filename (kernel result) (kernel_size result)
    end
  else UNREACHABLE.

Definition GenerateAppJIT (snapshot_filename : string) : M unit :=
  if TARGET_ARCH_IA32 tooling then
    match Dart_CreateSnapshot engine with
    | inl message => abort (ErrorExit kErrorExitCode "%s\n" message)
    | inr (isolate_buffer, isolate_size) =>
        WriteAppSnapshot build headers snapshot_filename [] 0 [] 0
          isolate_buffer isolate_size [] 0
    end
  else
    match Dart_CreateAppJITSnapshotAsBlobs engine with
    | inl message => abort (ErrorExit kErrorExitCode "%s\n" message)
    | inr (isolate_data_buffer, isolate_data_size,
           isolate_instructions_buffer, isolate_instructions_size) =>
        WriteAppSnapshot build headers snapshot_filename [] 0 [] 0
          isolate_data_buffer isolate_data_size
          isolate_instructions_buffer isolate_instructions_size
    end.

(** [callback_data] is the file. *)
Definition StreamingWriteCallback (file : File) (buffer : list byte) (size : Z)
  : M File :=
  let* '(ok, file) := WriteFully file buffer size in
  if negb ok then
    abort (ErrorExit kErrorExitCode "Unable to write snapshot file\n" "")
  else ret file.

(** The engine pushing its chunks through the callback. *)
Fixpoint stream (chunks : list (list byte * Z)) (file : File) : M File :=
  match chunks with
  | [] => ret file
  | (buffer, size) :: rest =>
      let* file := StreamingWriteCallback file buffer size in
      stream rest file
  end.

(** [RefCntReleaseScope<File> rs(file)].

    Modelled from the spec: bin/reference_counting.h is not among the
    sources.  The scope object releases the file when the scope is left
    ("File and memory-mapping handles are scoped: opened, used, and
    explicitly released on every exit path"), which changes nothing that
    is modelled here.  What its constructor makes of a null pointer is not
    known: nothing is claimed of a run that builds one on null.  The other
    scope objects of the file are built behind the null test. *)
Definition RefCntReleaseScope (file : option File) : M unit :=
  match file with
  | Some _ => ret tt
  | None => undefined
  end.

Definition GenerateAppAOTAsAssembly (snapshot_filename : string) : M unit :=
  let* file := Open snapshot_filename kWriteTruncate in
  RefCntReleaseScope file ;;;
  match file with
  | None =>
      abort (ErrorExit kErrorExitCode
               "Unable to open file %s for writing snapshot\n" snapshot_filename)
  | Some file =>
      let '(chunks, result) := Dart_CreateAppAOTSnapshotAsAssembly engine in
      stream chunks file ;;;
      match result with
      | Some message => abort (ErrorExit kErrorExitCode "%s\n" message)
      | None => ret tt
      end
  end.

End Generators.

(** * The vocabulary of the properties

    Predicates and functions that the statements below are written in,
    the statements of the specification that turn out false, and sample
    values. *)

Definition offsets_non_decreasing (l : SectionLayout) : Prop :=
  vm_data_position l <= vm_instructions_position l
  /\ vm_instructions_position l <= isolate_data_position l
  /\ isolate_data_position l <= isolate_instructions_position l.

Definition offsets_page_aligned (l : SectionLayout) : Prop :=
  vm_data_position l mod 16384 = 0
  /\ vm_instructions_position l mod 16384 = 0
  /\ isolate_data_position l mod 16384 = 0
  /\ isolate_instructions_position l mod 16384 = 0.

(** The statement of the specification, for a header with the four sizes
    given, read with the cursor at [position] behind it. *)
Definition offsets_claim (position s1 s2 s3 s4 : Z) : Prop :=
  0 <= s1 -> 0 <= s2 -> 0 <= s3 -> 0 <= s4 ->
  offsets_non_decreasing (section_positions position s1 s2 s3 s4)
  /\ offsets_page_aligned (section_positions position s1 s2 s3 s4).

(** The file system is as it was, and the events that were added all
    satisfy [allowed]. *)
Definition adds_only (allowed : Event -> Prop) (w w' : World) : Prop :=
  fs w' = fs w
  /\ exists events, trace w' = events ++ trace w /\ Forall allowed events.

(** The mapping the reader holds for a section of [size] bytes at
    [position] of a file with the given bytes. *)
Definition mapped (bytes : list byte) (type : MapType) (position size : Z)
  : option MappedMemory :=
  if size =? 0 then None
  else Some {| mm_type := type; mm_position := position; mm_size := size;
               address := mapping_bytes position size bytes |}.

Section ReaderTerms.

Variable build : Build.
Variable host : Host.
Variable headers : Headers.

(** The header checks of the reader: enough bytes behind the cursor, and
    the first of them equal to the magic number. *)
Definition header_accepted (bytes : list byte) (position : Z) : Prop :=
  kAppSnapshotHeaderSize <= Z.of_nat (length bytes) - position
  /\ memcmp (slice position kAppSnapshotHeaderSize bytes)
       (magic_bytes (appjit_magic_number headers))
       (Z.to_nat (magic_length (appjit_magic_number headers))) = 0.

(** What is left to do once the header is accepted. *)
Definition map_sections (script_name : string) (file : File) (header : list byte)
  : M (option AppSnapshot) :=
  let layout :=
    section_positions (Position file) (header_word header 1)
      (header_word header 2) (header_word header 3) (header_word header 4) in
  let* m1 := map_section host script_name file kReadOnly
               (vm_data_position layout) (header_word header 1) in
  let* m2 := map_section host script_name file kReadExecute
               (vm_instructions_position layout) (header_word header 2) in
  let* m3 := map_section host script_name file kReadOnly
               (isolate_data_position layout) (header_word header 3) in
  let* m4 := map_section host script_name file kReadExecute
               (isolate_instructions_position layout) (header_word header 4) in
  ret (Some (MappedAppSnapshot m1 m2 m3 m4)).

(** A section needs no mapping, or the platform grants the one it needs. *)
Definition granted (type : MapType) (position size : Z) : bool :=
  (size =? 0) || MapGranted host type position size.

Definition all_granted (position : Z) (header : list byte) : bool :=
  let layout :=
    section_positions position (header_word header 1) (header_word header 2)
      (header_word header 3) (header_word header 4) in
  granted kReadOnly (vm_data_position layout) (header_word header 1)
  && granted kReadExecute (vm_instructions_position layout) (header_word header 2)
  && granted kReadOnly (isolate_data_position layout) (header_word header 3)
  && granted kReadExecute (isolate_instructions_position layout)
       (header_word header 4).

(** The handle the reader builds from a file with the given bytes. *)
Definition mapped_snapshot (bytes : list byte) (position : Z) (header : list byte)
  : AppSnapshot :=
  let layout :=
    section_positions position (header_word header 1) (header_word header 2)
      (header_word header 3) (header_word header 4) in
  MappedAppSnapshot
    (mapped bytes kReadOnly (vm_data_position layout) (header_word header 1))
    (mapped bytes kReadExecute (vm_instructions_position layout)
       (header_word header 2))
    (mapped bytes kReadOnly (isolate_data_position layout) (header_word header 3))
    (mapped bytes kReadExecute (isolate_instructions_position layout)
       (header_word header 4)).

(** Only events are added by the reader, and every mapping it asks for has
    a length that is not zero. *)
Definition asks_no_empty_mapping (e : Event) : Prop :=
  match e with
  | EvMap _ _ _ length => length <> 0
  | _ => True
  end.

Definition reads_on : World -> World -> Prop :=
  adds_only asks_no_empty_mapping.

End ReaderTerms.

(** ** Sample values

    The magic number and the symbol names as the embedder declares them,
    some builds and hosts, and small files. *)
Module Samples.

Definition magic : MagicNumberData :=
  {| magic_length := 8;
     magic_bytes := [xdc; xdc; xf6; xf6; x00; x00; x00; x00] |}.

Definition headers : Headers :=
  {| appjit_magic_number := magic;
     kVmSnapshotDataCSymbol := "_kDartVmSnapshotData";
     kVmSnapshotInstructionsCSymbol := "_kDartVmSnapshotInstructions";
     kIsolateSnapshotDataCSymbol := "_kDartIsolateSnapshotData";
     kIsolateSnapshotInstructionsCSymbol := "_kDartIsolateSnapshotInstructions" |}.

Definition jit : Build :=
  {| DART_PRECOMPILED_RUNTIME := false; DART_TARGET_OS_MACOS := false;
     DART_TARGET_OS_LINUX := true; DART_HOST_OS_FUCHSIA := false;
     DEBUG := false |}.

Definition jit_debug : Build :=
  {| DART_PRECOMPILED_RUNTIME := false; DART_TARGET_OS_MACOS := false;
     DART_TARGET_OS_LINUX := true; DART_HOST_OS_FUCHSIA := false;
     DEBUG := true |}.

Definition aot : Build :=
  {| DART_PRECOMPILED_RUNTIME := true; DART_TARGET_OS_MACOS := false;
     DART_TARGET_OS_LINUX := true; DART_HOST_OS_FUCHSIA := false;
     DEBUG := false |}.

Definition aot_macos : Build :=
  {| DART_PRECOMPILED_RUNTIME := true; DART_TARGET_OS_MACOS := true;
     DART_TARGET_OS_LINUX := false; DART_HOST_OS_FUCHSIA := false;
     DEBUG := false |}.

(** Grants every mapping, knows no library and no ELF image. *)
Definition host : Host :=
  {| MapGranted := fun _ _ _ => true;
     NewGranted := fun _ => true;
     UriToPath := fun uri => Some uri;
     realpath := fun path => Some path;
     LoadDynamicLibrary := fun _ => None;
     ResolveSymbolInDynamicLibrary := fun _ _ => None;
     Dart_LoadELF := fun _ _ => inl "not an ELF image"%string;
     Dart_LoadELF_Memory := fun _ _ => inl "not an ELF image"%string |}.

(** Grants the mapping of a positive number of bytes only below 1 MiB,
    and an array only below 1 MiB. *)
Definition small_host : Host :=
  {| MapGranted := fun _ _ length => (0 <? length) && (length <? 2 ^ 20);
     NewGranted := fun size => size <? 2 ^ 20;
     UriToPath := fun uri => Some uri;
     realpath := fun path => Some path;
     LoadDynamicLibrary := fun _ => None;
     ResolveSymbolInDynamicLibrary := fun _ _ => None;
     Dart_LoadELF := fun _ _ => inl "not an ELF image"%string;
     Dart_LoadELF_Memory := fun _ _ => inl "not an ELF image"%string |}.

Definition blob_header (s1 s2 s3 s4 : Z) : list byte :=
  magic_bytes magic ++ store_int64 s1 ++ store_int64 s2
    ++ store_int64 s3 ++ store_int64 s4.

Definition regular (bytes : list byte) : Node :=
  {| n_type := kIsFile; n_bytes := bytes |}.

Definition world_with (path : string) (node : Node) : World :=
  {| fs := {[ path := node ]}; trace := []; faults := []; torn := [] |}.

Definition at_start (path : string) : File :=
  {| f_path := path; f_position := 0 |}.

End Samples.

(** The statement of the specification: the sizes of an accepted header are
    not negative. *)
Definition sizes_claim (headers : Headers) (bytes : list byte) (position : Z)
  : Prop :=
  header_accepted headers bytes position ->
  let header := slice position kAppSnapshotHeaderSize bytes in
  0 <= header_word header 1 /\ 0 <= header_word header 2
  /\ 0 <= header_word header 3 /\ 0 <= header_word header 4.

(** How a section shows in the handle and in the caller's variable:
    absent and untouched for size 0, else mapped with the declared size. *)
Definition section_as_declared (size : Z) (mapping : option MappedMemory)
    (before after : Ptr) : Prop :=
  (size = 0 -> mapping = None /\ after = before)
  /\ (size <> 0 ->
      exists m, mapping = Some m /\ mm_size m = size /\ after = Some (address m)).

(** The world after the regular file at [path] got the given bytes. *)
Definition put (path : string) (bytes : list byte) (w : World) : World :=
  {| fs := <[path := {| n_type := kIsFile; n_bytes := bytes |}]> (fs w);
     trace := trace w; faults := faults w; torn := torn w |}.

Definition advance (file : File) (count : Z) : File :=
  {| f_path := f_path file; f_position := f_position file + count |}.

(** The bytes of a file after a buffer went through [WriteFully] at
    [position]: an empty buffer leaves the file alone. *)
Definition place (position : Z) (buffer bytes : list byte) : list byte :=
  match buffer with
  | [] => bytes
  | _ :: _ => write_at position buffer bytes
  end.

Definition stored (path : string) (position : Z) (buffer : list byte) (w : World)
  : World :=
  match buffer with
  | [] => w
  | _ :: _ => put path (write_at position buffer (file_bytes (fs w) path)) w
  end.

(** The 40 bytes at the start of a container. *)
Definition container_header (magic : list byte) (s1 s2 s3 s4 : Z) : list byte :=
  ((((magic ++ store_int64 s1) ++ store_int64 s2) ++ store_int64 s3)
     ++ store_int64 s4).

(** The bytes of the container that holds the four buffers. *)
Definition blob_image (magic b1 b2 b3 b4 : list byte) : list byte :=
  let s1 := Z.of_nat (length b1) in
  let s2 := Z.of_nat (length b2) in
  let s3 := Z.of_nat (length b3) in
  let s4 := Z.of_nat (length b4) in
  let layout := section_positions kAppSnapshotHeaderSize s1 s2 s3 s4 in
  place (isolate_instructions_position layout) b4
    (place (isolate_data_position layout) b3
       (place (vm_instructions_position layout) b2
          (place (vm_data_position layout) b1
             (container_header magic s1 s2 s3 s4)))).

(** The file can be created or truncated. *)
Definition writable (m : gmap string Node) (path : string) : Prop :=
  match m !! path with
  | Some n => n_type n = kIsFile
  | None => True
  end.

(** The section offsets without the wrap-around, as the writer reaches
    them. *)
Definition instructions_offset (size data_end : Z) : Z :=
  if negb (size =? 0) then RoundUp data_end kAppSnapshotPageSize else data_end.

(** The pointer the reader hands out for a section that was written from
    [buffer]: null for an empty section, else the bytes themselves. *)
Definition section_pointer (buffer : list byte) : Ptr :=
  match buffer with
  | [] => None
  | _ :: _ => Some buffer
  end.

Definition sections_read_back (b1 b2 b3 b4 : list byte) : Buffers :=
  {| vm_data_buffer := section_pointer b1;
     vm_instructions_buffer := section_pointer b2;
     isolate_data_buffer := section_pointer b3;
     isolate_instructions_buffer := section_pointer b4 |}.

(** The section sizes of the specification's round trip. *)
Definition round_trip_sizes : list Z := [0; 1; 16383; 16384; 16385].

(** The world after the device refused a write of [n] bytes of [buffer] at
    the cursor of [file]: what it had taken is in the file. *)
Definition torn_write (file : File) (buffer : list byte) (n : Z) (w : World)
  : World :=
  {| fs := if 0 <? taken n w
           then <[f_path file :=
                    {| n_type := kIsFile;
                       n_bytes := write_at (f_position file)
                                    (take (Z.to_nat (taken n w)) buffer)
                                    (file_bytes (fs w) (f_path file)) |}]> (fs w)
           else fs w;
     trace := trace w; faults := tl (faults w); torn := tl (torn w) |}.

Definition refusing_once : World :=
  {| fs := ∅; trace := []; faults := [true]; torn := [] |}.

Section DynamicLibraryTerms.

Variable host : Host.
Variable headers : Headers.

Definition symbol (library : Library) (name : string) : Ptr :=
  ResolveSymbolInDynamicLibrary host library name.

End DynamicLibraryTerms.

(** A library that exports the two isolate symbols only. *)
Definition isolate_only_host : Host :=
  {| MapGranted := fun _ _ _ => true;
     NewGranted := fun _ => true;
     UriToPath := fun uri => Some uri;
     realpath := fun path => Some path;
     LoadDynamicLibrary := fun _ => Some 1;
     ResolveSymbolInDynamicLibrary := fun _ name =>
       if bool_decide (name = "_kDartIsolateSnapshotData"%string)
       then Some [x01]
       else if bool_decide (name = "_kDartIsolateSnapshotInstructions"%string)
            then Some [x02]
            else None;
     Dart_LoadELF := fun _ _ => inl "not an ELF image"%string;
     Dart_LoadELF_Memory := fun _ _ => inl "not an ELF image"%string |}.

(** The strategies are tried in the order of the list; the first handle
    that is not null is the result. *)
Fixpoint first_non_null (strategies : list (M (option AppSnapshot)))
  : M (option AppSnapshot) :=
  match strategies with
  | [] => ret None
  | strategy :: rest =>
      let* snapshot := strategy in
      match snapshot with
      | Some snapshot => ret (Some snapshot)
      | None => first_non_null rest
      end
  end.

(** Every strategy of the list returns null, one after the other. *)
Fixpoint all_null (strategies : list (M (option AppSnapshot))) (w w' : World)
  : Prop :=
  match strategies with
  | [] => w' = w
  | strategy :: rest =>
      exists w1, strategy w = (Returns None, w1) /\ all_null rest w1 w'
  end.

Definition file_type (m : gmap string Node) (name : string) : FileType :=
  match m !! name with
  | Some n => n_type n
  | None => kDoesNotExist
  end.

Section ResolverTerms.

Variable build : Build.
Variable host : Host.
Variable headers : Headers.

(** The name the library and the ELF strategies are given. *)
Definition resolved_name (script_name : string) : option string :=
  if DART_TARGET_OS_LINUX build || DART_TARGET_OS_MACOS build
  then realpath host script_name
  else Some script_name.

(** The strategies as the specification lists them. *)
Definition claimed_strategies (script_name : string)
    (force_load_elf_from_memory : bool) : list (M (option AppSnapshot)) :=
  [TryReadAppSnapshotBlobs build host headers script_name]
    ++ (if force_load_elf_from_memory then []
        else [TryReadAppSnapshotDynamicLibrary host headers
                (resolved_name script_name)])
    ++ [TryReadAppSnapshotElf build host (resolved_name script_name) 0
          force_load_elf_from_memory].

(** The strategies the build has: the library and the ELF strategies exist
    in the precompiled runtime only. *)
Definition strategies (script_name : string) (force_load_elf_from_memory : bool)
  : list (M (option AppSnapshot)) :=
  if DART_PRECOMPILED_RUNTIME build
  then claimed_strategies script_name force_load_elf_from_memory
  else [TryReadAppSnapshotBlobs build host headers script_name].

Definition script_path (script_uri : string) (decode_uri : bool) : option string :=
  if decode_uri then UriToPath host script_uri else Some script_uri.

(** The resolver of the specification, over a given list of strategies. *)
Definition resolve_with (strategies : string -> list (M (option AppSnapshot)))
    (script_uri : string) (decode_uri : bool) : M (option AppSnapshot) :=
  fun w =>
    match script_path script_uri decode_uri with
    | None => (Returns None, w)
    | Some script_name =>
        if bool_decide (file_type (fs w) script_name = kIsFile)
        then first_non_null (strategies script_name) w
        else (Returns None, w)
    end.

(** The statement of the specification. *)
Definition resolver_claim (script_uri : string)
    (force_load_elf_from_memory decode_uri : bool) (w : World) : Prop :=
  TryReadAppSnapshot build host headers script_uri force_load_elf_from_memory
    decode_uri w
  = resolve_with (fun name => claimed_strategies name force_load_elf_from_memory)
      script_uri decode_uri w.

End ResolverTerms.

(** A file that the library strategy would load, in a build that has no
    library strategy. *)
Definition elf_bytes : list byte := [x7f; x45; x4c; x46; x02; x01; x01; x00].

(** A blob container with a trailer behind it. *)
Definition blob_with_trailer : list byte :=
  Samples.blob_header 0 0 0 0 ++ store_int64 16 ++ magic_bytes Samples.magic.

(** A host whose ELF loader accepts whatever it is given. *)
Definition elf_host : Host :=
  {| MapGranted := fun _ _ _ => true;
     NewGranted := fun _ => true;
     UriToPath := fun uri => Some uri;
     realpath := fun path => Some path;
     LoadDynamicLibrary := fun _ => None;
     ResolveSymbolInDynamicLibrary := fun _ _ => None;
     Dart_LoadELF := fun _ _ =>
       inr {| elf_handle := 7; elf_vm_data := None; elf_vm_instructions := None;
              elf_isolate_data := Some [x01];
              elf_isolate_instructions := Some [x02] |};
     Dart_LoadELF_Memory := fun _ _ =>
       inr {| elf_handle := 7; elf_vm_data := None; elf_vm_instructions := None;
              elf_isolate_data := Some [x01];
              elf_isolate_instructions := Some [x02] |} |}.

Module MachOFile.

Definition uint32_bytes (z : Z) : list byte := le_encode 4 z.
Definition uint64_bytes (z : Z) : list byte := le_encode 8 z.

(** A name in a 16 byte field, padded with NUL. *)
Definition name16 (name : string) : list byte :=
  take 16 (String.list_byte_of_string name ++ replicate 16 x00).

(** [mach_header_64]: magic, cputype, cpusubtype, filetype, ncmds,
    sizeofcmds, flags, reserved. *)
Definition mach_header_64 (magic ncmds : Z) : list byte :=
  uint32_bytes magic ++ replicate 12 x00 ++ uint32_bytes ncmds
    ++ replicate 12 x00.

(** [segment_command_64]: cmd, cmdsize, segname, vmaddr, vmsize, fileoff,
    filesize, maxprot, initprot, nsects, flags. *)
Definition segment_command_64 (cmd : Z) (segname : string) (nsects : Z)
  : list byte :=
  uint32_bytes cmd ++ uint32_bytes (72 + 80 * nsects) ++ name16 segname
    ++ replicate 40 x00 ++ uint32_bytes nsects ++ replicate 4 x00.

(** [section_64]: sectname, segname, addr, size, offset, align, reloff,
    nreloc, flags, reserved1, reserved2, reserved3. *)
Definition section_64 (sectname segname : string) (size offset : Z) : list byte :=
  name16 sectname ++ name16 segname ++ replicate 8 x00 ++ uint64_bytes size
    ++ uint32_bytes offset ++ replicate 28 x00.

(** Any other load command: cmd, cmdsize, payload. *)
Definition load_command (cmd : Z) (payload : list byte) : list byte :=
  uint32_bytes cmd ++ uint32_bytes (8 + Z.of_nat (length payload)) ++ payload.

(** One [LC_UUID] command, then one segment command with the snapshot
    section, then the four bytes of the section at offset 208. *)
Definition with_snapshot (magic segment_cmd : Z) : list byte :=
  mach_header_64 magic 2
    ++ load_command 0x1b (replicate 16 x11)
    ++ segment_command_64 segment_cmd "__CUSTOM" 1
    ++ section_64 "__dart_app_snap" "__CUSTOM" 4 208
    ++ [x7f; x45; x4c; x46].

(** A file of the same shape with a snapshot section that declares [size]
    bytes at [offset]. *)
Definition with_section (size offset : Z) : list byte :=
  mach_header_64 mach_o.MH_MAGIC_64 2
    ++ load_command 0x1b (replicate 16 x11)
    ++ segment_command_64 mach_o.LC_SEGMENT_64 "__CUSTOM" 1
    ++ section_64 "__dart_app_snap" "__CUSTOM" size offset
    ++ [x7f; x45; x4c; x46].

End MachOFile.

Definition not_a_load (e : Event) : Prop :=
  match e with
  | EvLoadELF _ _ | EvLoadELF_Memory _ _ => False
  | _ => True
  end.

(** The run leaves the file system alone and calls no ELF loader. *)
Definition loads_nothing : World -> World -> Prop := adds_only not_a_load.

Section TrailerTerms.

Variable build : Build.
Variable host : Host.
Variable headers : Headers.

(** The last 16 bytes of the container and the offset word in them. *)
Definition trailer (bytes : list byte) : list byte :=
  slice (Z.of_nat (length bytes) - sizeof_appended_header)
    sizeof_appended_header bytes.

Definition appended_offset (bytes : list byte) : Z :=
  LittleEndianToHost64 (header_word (trailer bytes) 0).

(** The trailer is not a valid one: wrong magic, or an offset that is not
    strictly positive. *)
Definition trailer_absent (bytes : list byte) : Prop :=
  drop 8 (trailer bytes) <> magic_bytes (appjit_magic_number headers)
  \/ appended_offset bytes <= 0.

(** The statement of the specification. *)
Definition trailer_claim (container_path : string) (w : World) : Prop :=
  trailer_absent (file_bytes (fs w) container_path) ->
  fst (TryReadAppendedAppSnapshotElf build host headers container_path w)
  = Returns None.

End TrailerTerms.

(** A container that ends in an offset word of 0 and the magic number. *)
Definition zero_offset_trailer : list byte :=
  elf_bytes ++ store_int64 0 ++ magic_bytes Samples.magic.











Definition is_mach_o_magic (magic : Z) : bool :=
  (magic =? mach_o.MH_MAGIC_64) || (magic =? mach_o.MH_CIGAM_64)
  || (magic =? mach_o.MH_MAGIC) || (magic =? mach_o.MH_CIGAM).

(** The world after a rejection: the file was opened (twice: by the probe
    and by the format test), its first four bytes were read (twice), a
    diagnostic was printed; nothing else was read and no loader called. *)
Definition rejected (path message : string) (w : World) : World :=
  record_event (EvPrintErr message)
    (record_event (EvRead path 0 4)
       (record_event (EvRead path 0 4)
          (record_event (EvOpen path kRead)
             (record_event (EvOpen path kRead) w)))).



(** ** Further vocabulary *)

(** The run looked and logged only: the file system and the pending write
    fates are as they were, and the trace grew at its front. *)
Definition observes (w w' : World) : Prop :=
  fs w' = fs w /\ faults w' = faults w /\ torn w' = torn w
  /\ exists events, trace w' = events ++ trace w.

(** The four byte sequences a file must start with to pass for Mach-O: the
    64-bit and the 32-bit magic number, each in both byte orders. *)
Definition mach_o_signatures : list (list byte) :=
  [[xcf; xfa; xed; xfe]; [xfe; xed; xfa; xcf];
   [xce; xfa; xed; xfe]; [xfe; xed; xfa; xce]].

(** What the ELF strategy makes of the loader's answer. *)
Definition loader_result (answer : string + ElfImage) : option AppSnapshot :=
  match answer with
  | inl _ => None
  | inr image => Some (elf_snapshot image)
  end.

(** The events the ELF strategy adds once the loader was called. *)
Definition loader_events (call : Event) (answer : string + ElfImage) : list Event :=
  match answer with
  | inl message => [EvPrintErr ("Loading failed: " ++ message ++ "\n"); call]
  | inr _ => [call]
  end.

(** The device refuses one of the five writes of the container header
    (the magic number and the four sizes), whose results are not looked
    at. *)
Definition header_refused (fates : list bool) : bool :=
  existsb (fun refused => refused) (take 5 fates).

(** The device refuses one of the checked writes of the given buffers:
    they are written in order, an empty one asks nothing of the device,
    and every other one meets the next fate. *)
Fixpoint write_refused (buffers : list (list byte)) (fates : list bool) : bool :=
  match buffers with
  | [] => false
  | [] :: rest => write_refused rest fates
  | (_ :: _) :: rest => hd false fates || write_refused rest (tl fates)
  end.

(** The engine hands out the two isolate sections of an app-jit snapshot;
    on IA32, where snapshots hold no code, the data section alone. *)
Definition jit_sections (tooling : Tooling) (engine : Engine)
    (data instructions : list byte) : Prop :=
  (TARGET_ARCH_IA32 tooling = false
   /\ Dart_CreateAppJITSnapshotAsBlobs engine
      = inr (data, Z.of_nat (length data),
             instructions, Z.of_nat (length instructions)))
  \/ (TARGET_ARCH_IA32 tooling = true
      /\ Dart_CreateSnapshot engine = inr (data, Z.of_nat (length data))
      /\ instructions = []).

(** An engine that hands out a small isolate snapshot, finds no kernel in
    the script and compiles nothing. *)
Definition jit_engine : Engine :=
  {| Dart_CurrentIsolate := None;
     ReadScript := fun _ => None;
     sanitized_uri := fun path => path;
     original_working_directory := "/";
     Dart_DetectNullSafety := fun _ _ _ => true;
     CompileScriptWithGivenNullsafety := fun _ _ _ _ =>
       {| status_is_ok := false; kernel := []; kernel_size := 0;
          error := "no front end" |};
     Dart_CreateSnapshot := inr ([x01; x02], 2);
     Dart_CreateAppJITSnapshotAsBlobs := inr ([x01; x02], 2, [x03], 1);
     Dart_CreateAppAOTSnapshotAsAssembly := ([], None) |}.

(** Every chunk the engine pushes comes with its own length. *)
Definition chunks_sized (chunks : list (list byte * Z)) : Prop :=
  Forall (fun chunk => snd chunk = Z.of_nat (length (fst chunk))) chunks.

(** An engine whose assembly comes in three chunks, the second one empty,
    and which reports an error at the end. *)
Definition aot_engine : Engine :=
  {| Dart_CurrentIsolate := None;
     ReadScript := fun _ => Some ([x90; xab; xcd; xef], 4);
     sanitized_uri := fun path => path;
     original_working_directory := "/";
     Dart_DetectNullSafety := fun _ _ _ => true;
     CompileScriptWithGivenNullsafety := fun _ _ _ _ =>
       {| status_is_ok := false; kernel := []; kernel_size := 0;
          error := "no front end" |};
     Dart_CreateSnapshot := inl "no snapshot"%string;
     Dart_CreateAppJITSnapshotAsBlobs := inl "no snapshot"%string;
     Dart_CreateAppAOTSnapshotAsAssembly :=
       ([([x2e; x74], 2); ([], 0); ([x0a], 1)], Some "out of memory"%string) |}.

(** A byte-swapped 64-bit Mach-O header with a valid trailer behind it. *)
Definition swapped_mach_o_with_trailer : list byte :=
  MachOFile.mach_header_64 mach_o.MH_CIGAM_64 0
    ++ store_int64 16 ++ magic_bytes Samples.magic.

(** * Properties *)

(** ** Integer facts *)

Lemma int64_small (z : Z) : - 2 ^ 63 <= z < 2 ^ 63 -> int64 z = z.
Proof.
  intros H. unfold int64. rewrite Z.mod_small; lia.
Qed.

Lemma int64_range (z : Z) : - 2 ^ 63 <= int64 z < 2 ^ 63.
Proof.
  unfold int64. pose proof (Z.mod_pos_bound (z + 2 ^ 63) (2 ^ 64)). lia.
Qed.

Lemma page_size_value : kAppSnapshotPageSize = 16384.
Proof. reflexivity. Qed.

Lemma header_size_value : kAppSnapshotHeaderSize = 40.
Proof. reflexivity. Qed.

(** Below the wrap-around, [RoundUp] is the least multiple of the page size
    that is not below its argument. *)
Lemma RoundUp_page (x : Z) :
  0 <= x < 2 ^ 62 ->
  RoundUp x kAppSnapshotPageSize = (x + 16383) / 16384 * 16384.
Proof.
  intros H. unfold RoundUp. rewrite page_size_value.
  rewrite (int64_small (x + 16384 - 1)) by lia.
  replace (x + 16384 - 1) with (x + 16383) by lia.
  apply int64_small.
  pose proof (Z.mul_div_le (x + 16383) 16384). 
  pose proof (Z.div_pos (x + 16383) 16384). lia.
Qed.

Lemma RoundUp_page_bounds (x : Z) :
  0 <= x < 2 ^ 62 ->
  x <= RoundUp x kAppSnapshotPageSize < x + 16384
  /\ RoundUp x kAppSnapshotPageSize mod 16384 = 0.
Proof.
  intros H. rewrite RoundUp_page by assumption.
  pose proof (Z.mul_div_le (x + 16383) 16384).
  pose proof (Z.mul_succ_div_gt (x + 16383) 16384).
  split; [lia | apply Z.mod_mul; lia].
Qed.

Lemma RoundUp_page_aligned (x : Z) :
  0 <= x < 2 ^ 62 -> x mod 16384 = 0 -> RoundUp x kAppSnapshotPageSize = x.
Proof.
  intros H Hx. rewrite RoundUp_page by assumption.
  apply Z.mod_divide in Hx; [| lia]. destruct Hx as [k ->].
  replace (k * 16384 + 16383) with (16383 + k * 16384) by lia.
  rewrite Z.div_add by lia. reflexivity.
Qed.

(** ** C3: the offsets the reader computes *)

(** C3, as stated, fails: with one byte of vm data and no vm instructions
    the position kept for the (absent) vm instructions is 16385; and sizes
    near the top of [int64_t] wrap the sums around. *)
Lemma offsets_claim_fails :
  ~ offsets_claim 40 1 0 0 0 /\ ~ offsets_claim 40 (2 ^ 63 - 1) 1 0 0.
Proof.
  split; intros H; unfold offsets_claim in H.
  - specialize (H ltac:(lia) ltac:(lia) ltac:(lia) ltac:(lia)).
    destruct H as [_ (_ & Hbad & _)].
    vm_compute in Hbad. discriminate.
  - specialize (H ltac:(lia) ltac:(lia) ltac:(lia) ltac:(lia)).
    destruct H as [(Hbad & _) _].
    vm_compute in Hbad. apply Hbad. reflexivity.
Qed.

(** C3 (amended): while the layout stays below the wrap-around, the four
    offsets are non-decreasing, the two data offsets are multiples of
    16384, and so is the offset of each instructions section that is
    present; the offset kept for an absent instructions section is the end
    of the data section before it. *)
Theorem section_positions_layout (position s1 s2 s3 s4 : Z) :
  0 <= position -> 0 <= s1 -> 0 <= s2 -> 0 <= s3 -> 0 <= s4 ->
  position + s1 + s2 + s3 + s4 + 4 * 16384 < 2 ^ 62 ->
  let l := section_positions position s1 s2 s3 s4 in
  offsets_non_decreasing l
  /\ vm_data_position l mod 16384 = 0
  /\ isolate_data_position l mod 16384 = 0
  /\ (s2 <> 0 -> vm_instructions_position l mod 16384 = 0)
  /\ (s4 <> 0 -> isolate_instructions_position l mod 16384 = 0)
  /\ (s2 = 0 -> vm_instructions_position l = vm_data_position l + s1)
  /\ (s4 = 0 -> isolate_instructions_position l = isolate_data_position l + s3).
Proof.
  intros Hp H1 H2 H3 H4 Hfit l. subst l.
  unfold section_positions, offsets_non_decreasing. cbn [vm_data_position
    vm_instructions_position isolate_data_position isolate_instructions_position].
  destruct (RoundUp_page_bounds position) as [Ha Ha']; [lia |].
  set (p1 := RoundUp position kAppSnapshotPageSize) in *.
  rewrite (int64_small (p1 + s1)) by lia.
  destruct (RoundUp_page_bounds (p1 + s1)) as [Hb Hb']; [lia |].
  set (p2 := if negb (s2 =? 0) then RoundUp (p1 + s1) kAppSnapshotPageSize
             else p1 + s1).
  assert (Hp2 : p1 + s1 <= p2 < p1 + s1 + 16384).
  { subst p2. destruct (s2 =? 0); simpl; lia. }
  rewrite (int64_small (p2 + s2)) by lia.
  destruct (RoundUp_page_bounds (p2 + s2)) as [Hc Hc']; [lia |].
  set (p3 := RoundUp (p2 + s2) kAppSnapshotPageSize) in *.
  rewrite (int64_small (p3 + s3)) by lia.
  destruct (RoundUp_page_bounds (p3 + s3)) as [Hd Hd']; [lia |].
  set (p4 := if negb (s4 =? 0) then RoundUp (p3 + s3) kAppSnapshotPageSize
             else p3 + s3).
  assert (Hp4 : p3 + s3 <= p4 < p3 + s3 + 16384).
  { subst p4. destruct (s4 =? 0); simpl; lia. }
  repeat split; try lia; try assumption.
  - intros Hne. subst p2. destruct (Z.eqb_spec s2 0); [lia | exact Hb'].
  - intros Hne. subst p4. destruct (Z.eqb_spec s4 0); [lia | exact Hd'].
  - intros ->. reflexivity.
  - intros ->. reflexivity.
Qed.

Lemma section_positions_layout_witness :
  let l := section_positions 40 1 0 100 50 in
  offsets_non_decreasing l
  /\ vm_data_position l mod 16384 = 0
  /\ isolate_data_position l mod 16384 = 0
  /\ ((0 : Z) <> 0 -> vm_instructions_position l mod 16384 = 0)
  /\ ((50 : Z) <> 0 -> isolate_instructions_position l mod 16384 = 0)
  /\ ((0 : Z) = 0 -> vm_instructions_position l = vm_data_position l + 1)
  /\ ((50 : Z) = 0 -> isolate_instructions_position l = isolate_data_position l + 100).
Proof.
  apply (section_positions_layout 40 1 0 100 50); lia.
Defined.

(** ** Bytes, slices and comparisons *)

Lemma Z_of_byte_range (b : byte) : 0 <= Z_of_byte b < 256.
Proof.
  unfold Z_of_byte. pose proof (Byte.to_N_bounded b). lia.
Qed.

Lemma Z_of_byte_of_Z (z : Z) : Z_of_byte (byte_of_Z z) = z mod 256.
Proof.
  unfold byte_of_Z, Z_of_byte.
  pose proof (Z.mod_pos_bound z 256 ltac:(lia)) as Hr.
  destruct (Byte.of_N (Z.to_N (z mod 256))) as [b|] eqn:Hb.
  - apply Byte.to_of_N in Hb. rewrite Hb. lia.
  - apply Byte.of_N_None_iff in Hb. lia.
Qed.

Lemma length_le_encode (n : nat) (z : Z) : length (le_encode n z) = n.
Proof.
  revert z. induction n as [| n IH]; intros z; simpl; [reflexivity |].
  now rewrite IH.
Qed.

Lemma le_decode_encode (n : nat) (z : Z) :
  le_decode (le_encode n z) = z mod 256 ^ Z.of_nat n.
Proof.
  revert z. induction n as [| n IH]; intros z.
  - simpl. now rewrite Z.mod_1_r.
  - cbn [le_encode le_decode]. rewrite IH, Z_of_byte_of_Z.
    rewrite Nat2Z.inj_succ, Z.pow_succ_r by lia.
    rewrite (Z.rem_mul_r z 256 (256 ^ Z.of_nat n)) by lia. lia.
Qed.

Lemma int64_mod (z : Z) : int64 (z mod 2 ^ 64) = int64 z.
Proof.
  unfold int64. now rewrite Z.add_mod_idemp_l by lia.
Qed.

Lemma load_store_int64 (z : Z) (rest : list byte) :
  load_int64 (store_int64 z ++ rest) = int64 z.
Proof.
  unfold load_int64, store_int64.
  rewrite take_app_le by (rewrite length_le_encode; lia).
  rewrite firstn_all2 by (rewrite length_le_encode; lia).
  rewrite le_decode_encode.
  change (256 ^ Z.of_nat 8) with (2 ^ 64). apply int64_mod.
Qed.

Lemma memcmp_refl (a rest : list byte) (n : nat) :
  length a = n -> memcmp (a ++ rest) a n = 0.
Proof.
  revert n. induction a as [| x a IH]; intros n Hn; subst n; simpl.
  - reflexivity.
  - rewrite bool_decide_eq_true_2 by reflexivity. now apply IH.
Qed.

Lemma memcmp_zero (a b : list byte) (n : nat) :
  (n <= length a)%nat -> (n <= length b)%nat ->
  memcmp a b n = 0 <-> take n a = take n b.
Proof.
  revert a b. induction n as [| n IH]; intros a b Ha Hb.
  - simpl. split; reflexivity.
  - destruct a as [| x a]; [simpl in Ha; lia |].
    destruct b as [| y b]; [simpl in Hb; lia |].
    simpl in Ha, Hb. cbn [memcmp take].
    destruct (bool_decide_reflect (x = y)) as [-> | Hne].
    + rewrite IH by lia. split; [intros -> | intros [= ->]]; reflexivity.
    + pose proof (Z_of_byte_range x). pose proof (Z_of_byte_range y).
      split.
      * intros Hz. exfalso. apply Hne.
        assert (Hxy : Byte.to_N x = Byte.to_N y) by (unfold Z_of_byte in *; lia).
        pose proof (Byte.of_to_N x) as Hx. rewrite Hxy, Byte.of_to_N in Hx.
        congruence.
      * intros [= Hxy _]. contradiction.
Qed.

Lemma slice_zero (position : Z) (bytes : list byte) : slice position 0 bytes = [].
Proof. reflexivity. Qed.

Lemma length_slice (position count : Z) (bytes : list byte) :
  0 <= position -> 0 <= count ->
  position + count <= Z.of_nat (length bytes) ->
  Z.of_nat (length (slice position count bytes)) = count.
Proof.
  intros Hp Hc Hfit. unfold slice. rewrite length_take, length_drop. lia.
Qed.

Lemma length_write_prefix (position : nat) (bytes : list byte) :
  length (take position bytes ++ replicate (position - length bytes) x00) = position.
Proof.
  rewrite length_app, length_take, length_replicate. lia.
Qed.

Lemma length_write_at (position : Z) (data bytes : list byte) :
  0 <= position ->
  Z.of_nat (length (write_at position data bytes))
  = Z.max (Z.of_nat (length bytes)) (position + Z.of_nat (length data)).
Proof.
  intros Hp. unfold write_at.
  rewrite app_assoc, length_app, length_write_prefix, length_app, length_drop. lia.
Qed.

(** What was written is what is read back from there. *)
Lemma slice_write_at_same (position : Z) (data bytes : list byte) :
  0 <= position ->
  slice position (Z.of_nat (length data)) (write_at position data bytes) = data.
Proof.
  intros Hp. unfold slice, write_at. rewrite Nat2Z.id, app_assoc.
  rewrite drop_app_ge by (rewrite length_write_prefix; lia).
  rewrite length_write_prefix, Nat.sub_diag. simpl.
  apply take_app_length.
Qed.

(** A write further on leaves what lies before it. *)
Lemma slice_write_at_before (q n position : Z) (data bytes : list byte) :
  0 <= q -> 0 <= n -> q + n <= position ->
  q + n <= Z.of_nat (length bytes) ->
  slice q n (write_at position data bytes) = slice q n bytes.
Proof.
  intros Hq Hn Hbefore Hin. unfold slice, write_at.
  assert (Hlen : (Z.to_nat q + Z.to_nat n
                  <= length (take (Z.to_nat position) bytes))%nat).
  { rewrite length_take. lia. }
  rewrite drop_app_le by lia.
  rewrite take_app_le by (rewrite length_drop; lia).
  rewrite <- (take_drop (Z.to_nat position) bytes) at 2.
  rewrite drop_app_le by lia.
  rewrite take_app_le by (rewrite length_drop; lia).
  reflexivity.
Qed.

Lemma write_at_end (data bytes : list byte) :
  write_at (Z.of_nat (length bytes)) data bytes = bytes ++ data.
Proof.
  unfold write_at. rewrite Nat2Z.id, firstn_all, Nat.sub_diag.
  rewrite drop_ge by lia. simpl. now rewrite app_nil_r.
Qed.

(** ** Running the monad *)

Lemma bind_returns {A B} (c : M A) (k : A -> M B) (w w' : World) (a : A) :
  c w = (Returns a, w') -> bind c k w = k a w'.
Proof. intros H. unfold bind. now rewrite H. Qed.

Lemma bind_aborts {A B} (c : M A) (k : A -> M B) (w w' : World) (d : Diagnostic) :
  c w = (Aborts d, w') -> bind c k w = (Aborts d, w').
Proof. intros H. unfold bind. now rewrite H. Qed.

Lemma fs_record_event (e : Event) (w : World) : fs (record_event e w) = fs w.
Proof. reflexivity. Qed.

Lemma faults_record_event (e : Event) (w : World) :
  faults (record_event e w) = faults w.
Proof. reflexivity. Qed.

Lemma ASSERT_holds (build : Build) (text : string) (w : World) :
  ASSERT build true text w = (Returns tt, w).
Proof. unfold ASSERT. now rewrite andb_false_r. Qed.

Lemma ASSERT_release (build : Build) (condition : bool) (text : string) (w : World) :
  DEBUG build = false -> ASSERT build condition text w = (Returns tt, w).
Proof. intros H. unfold ASSERT. now rewrite H. Qed.

(** ** What a run adds to the trace *)

Lemma adds_only_refl (allowed : Event -> Prop) (w : World) : adds_only allowed w w.
Proof. split; [reflexivity |]. exists []. split; [reflexivity | constructor]. Qed.

Lemma adds_only_trans (allowed : Event -> Prop) (w1 w2 w3 : World) :
  adds_only allowed w1 w2 -> adds_only allowed w2 w3 -> adds_only allowed w1 w3.
Proof.
  intros [Hfs1 (ev1 & Ht1 & Hall1)] [Hfs2 (ev2 & Ht2 & Hall2)].
  split; [congruence |]. exists (ev2 ++ ev1). split.
  - rewrite Ht2, Ht1. now rewrite app_assoc.
  - apply Forall_app. now split.
Qed.

Lemma adds_only_event (allowed : Event -> Prop) (e : Event) (w : World) :
  allowed e -> adds_only allowed w (record_event e w).
Proof.
  intros He. split; [reflexivity |]. exists [e]. split; [reflexivity |].
  now constructor.
Qed.

Lemma bind_adds_only {A B} (allowed : Event -> Prop) (c : M A) (k : A -> M B)
    (w : World) :
  adds_only allowed w (snd (c w)) ->
  (forall a w1, adds_only allowed w1 (snd (k a w1))) ->
  adds_only allowed w (snd (bind c k w)).
Proof.
  intros Hc Hk. unfold bind. destruct (c w) as [[a | d |] w1]; cbn in *.
  - eapply adds_only_trans; [exact Hc | apply Hk].
  - exact Hc.
  - exact Hc.
Qed.

(** ** The blob reader, step by step *)

Section Reader.

Variable build : Build.
Variable host : Host.
Variable headers : Headers.

Lemma map_section_eq (script_name : string) (file : File) (type : MapType)
    (position size : Z) (w : World) :
  map_section host script_name file type position size w
  = if size =? 0 then (Returns None, w)
    else if MapGranted host type position size
         then (Returns (mapped (file_bytes (fs w) (f_path file)) type position size),
               record_event (EvMap (f_path file) type position size) w)
         else (Aborts (FATAL1 "Failed to memory map snapshot: %s\n" script_name),
               record_event (EvMap (f_path file) type position size) w).
Proof.
  unfold map_section, mapped. destruct (size =? 0); [reflexivity |].
  cbn. unfold Map, bind, emit, get_fs. cbn.
  destruct (MapGranted host type position size); reflexivity.
Qed.

Lemma reader_too_short (script_name : string) (file : File) (w : World) :
  let bytes := file_bytes (fs w) (f_path file) in
  0 <= Position file < 2 ^ 62 ->
  Z.of_nat (length bytes) < 2 ^ 62 ->
  Z.of_nat (length bytes) - Position file < kAppSnapshotHeaderSize ->
  TryReadAppSnapshotBlobs_file build host headers script_name file w
  = (Returns None, w).
Proof.
  intros bytes Hpos Hlen Hshort.
  unfold TryReadAppSnapshotBlobs_file.
  rewrite (bind_returns _ _ w w (Z.of_nat (length bytes))) by reflexivity.
  rewrite int64_small by lia.
  destruct (Z.ltb_spec (Z.of_nat (length bytes) - Position file)
              kAppSnapshotHeaderSize) as [_ | Hge]; [reflexivity | lia].
Qed.

Lemma reader_after_header (script_name : string) (file : File) (w : World) :
  let bytes := file_bytes (fs w) (f_path file) in
  let header := slice (Position file) kAppSnapshotHeaderSize bytes in
  0 <= Position file ->
  Z.of_nat (length bytes) < 2 ^ 62 ->
  magic_length (appjit_magic_number headers) = 8 ->
  kAppSnapshotHeaderSize <= Z.of_nat (length bytes) - Position file ->
  TryReadAppSnapshotBlobs_file build host headers script_name file w
  = (if negb (memcmp header (magic_bytes (appjit_magic_number headers)) 8 =? 0)
     then ret None
     else map_sections host script_name
            {| f_path := f_path file;
               f_position := Position file + kAppSnapshotHeaderSize |} header)
      (record_event (EvRead (f_path file) (Position file) kAppSnapshotHeaderSize) w).
Proof.
  intros bytes header Hpos Hlen Hmagic Hroom. subst header.
  unfold TryReadAppSnapshotBlobs_file.
  rewrite (bind_returns _ _ w w (Z.of_nat (length bytes))) by reflexivity.
  rewrite int64_small by (rewrite header_size_value in Hroom; lia).
  destruct (Z.ltb_spec (Z.of_nat (length bytes) - Position file)
              kAppSnapshotHeaderSize) as [Hlt | _]; [lia |].
  rewrite (bind_returns _ _ w w tt) by apply ASSERT_holds.
  assert (Hgot : Z.of_nat (length (slice (Position file) kAppSnapshotHeaderSize bytes))
                 = kAppSnapshotHeaderSize).
  { apply length_slice; [assumption | rewrite header_size_value; lia | lia]. }
  erewrite bind_returns; cycle 1.
  { unfold ReadFully, Read, bind, emit, get_fs, ret. cbn. reflexivity. }
  fold bytes. unfold Position in *. rewrite Hgot.
  rewrite bool_decide_eq_true_2 by reflexivity. cbn [negb].
  erewrite bind_returns; cycle 1.
  { rewrite Hmagic. apply ASSERT_holds. }
  rewrite Hmagic. change (Z.to_nat 8) with 8%nat.
  destruct (negb _); reflexivity.
Qed.

Lemma reader_accepted (script_name : string) (file : File) (w : World) :
  let bytes := file_bytes (fs w) (f_path file) in
  0 <= Position file ->
  Z.of_nat (length bytes) < 2 ^ 62 ->
  magic_length (appjit_magic_number headers) = 8 ->
  header_accepted headers bytes (Position file) ->
  TryReadAppSnapshotBlobs_file build host headers script_name file w
  = map_sections host script_name
      {| f_path := f_path file; f_position := Position file + kAppSnapshotHeaderSize |}
      (slice (Position file) kAppSnapshotHeaderSize bytes)
      (record_event (EvRead (f_path file) (Position file) kAppSnapshotHeaderSize) w).
Proof.
  intros bytes Hpos Hlen Hmagic [Hroom Hcmp].
  rewrite reader_after_header by assumption.
  rewrite Hmagic in Hcmp. change (Z.to_nat 8) with 8%nat in Hcmp.
  fold bytes. now rewrite Hcmp.
Qed.

Lemma reader_rejects_magic (script_name : string) (file : File) (w : World) :
  let bytes := file_bytes (fs w) (f_path file) in
  0 <= Position file ->
  Z.of_nat (length bytes) < 2 ^ 62 ->
  magic_length (appjit_magic_number headers) = 8 ->
  length (magic_bytes (appjit_magic_number headers)) = 8%nat ->
  kAppSnapshotHeaderSize <= Z.of_nat (length bytes) - Position file ->
  slice (Position file) 8 bytes <> magic_bytes (appjit_magic_number headers) ->
  TryReadAppSnapshotBlobs_file build host headers script_name file w
  = (Returns None,
     record_event (EvRead (f_path file) (Position file) kAppSnapshotHeaderSize) w).
Proof.
  intros bytes Hpos Hlen Hmagic Hmlen Hroom Hdiff.
  rewrite reader_after_header by assumption. fold bytes.
  set (header := slice (Position file) kAppSnapshotHeaderSize bytes).
  assert (Hgot : Z.of_nat (length header) = kAppSnapshotHeaderSize).
  { apply length_slice; [assumption | rewrite header_size_value; lia | lia]. }
  rewrite header_size_value in Hgot.
  destruct (Z.eqb_spec (memcmp header (magic_bytes (appjit_magic_number headers)) 8) 0)
    as [Hz | Hnz]; [| reflexivity].
  exfalso. apply Hdiff.
  apply memcmp_zero in Hz; [| lia | lia].
  rewrite (firstn_all2 (magic_bytes _)) in Hz by lia.
  rewrite <- Hz. unfold header, slice. rewrite take_take. reflexivity.
Qed.

Ltac step_map_section :=
  rewrite map_section_eq; cbn [fs record_event];
  match goal with
  | |- context [?s =? 0] =>
      destruct (s =? 0) eqn:?; cbn [orb andb fst snd];
      [| match goal with
         | |- context [MapGranted host ?t ?p ?z] =>
             destruct (MapGranted host t p z) eqn:?; cbn [orb andb fst snd]
         end ]
  end.

Lemma map_sections_result (script_name : string) (file : File)
    (header : list byte) (w : World) :
  fst (map_sections host script_name file header w)
  = if all_granted host (Position file) header
    then Returns (Some (mapped_snapshot (file_bytes (fs w) (f_path file))
                          (Position file) header))
    else Aborts (FATAL1 "Failed to memory map snapshot: %s\n" script_name).
Proof.
  unfold map_sections, all_granted, mapped_snapshot, granted, bind.
  set (layout := section_positions _ _ _ _ _).
  step_map_section; try reflexivity;
  step_map_section; try reflexivity;
  step_map_section; try reflexivity;
  step_map_section; try reflexivity;
  unfold ret, mapped; cbn;
  repeat match goal with H : (_ =? 0) = _ |- _ => rewrite H end;
  reflexivity.
Qed.

Lemma reads_on_refl (w : World) : reads_on w w.
Proof. apply adds_only_refl. Qed.

Lemma reads_on_trans (w1 w2 w3 : World) :
  reads_on w1 w2 -> reads_on w2 w3 -> reads_on w1 w3.
Proof. apply adds_only_trans. Qed.

Lemma reads_on_event (e : Event) (w : World) :
  asks_no_empty_mapping e -> reads_on w (record_event e w).
Proof. apply adds_only_event. Qed.

Lemma bind_reads_on {A B} (c : M A) (k : A -> M B) (w : World) :
  reads_on w (snd (c w)) ->
  (forall a w1, reads_on w1 (snd (k a w1))) ->
  reads_on w (snd (bind c k w)).
Proof. apply bind_adds_only. Qed.

Lemma map_section_reads_on (script_name : string) (file : File) (type : MapType)
    (position size : Z) (w : World) :
  reads_on w (snd (map_section host script_name file type position size w)).
Proof.
  rewrite map_section_eq. destruct (Z.eqb_spec size 0) as [-> | Hne].
  - apply reads_on_refl.
  - destruct (MapGranted host type position size); cbn;
      now apply reads_on_event.
Qed.

Lemma map_sections_reads_on (script_name : string) (file : File)
    (header : list byte) (w : World) :
  reads_on w (snd (map_sections host script_name file header w)).
Proof.
  unfold map_sections.
  repeat (apply bind_reads_on; [apply map_section_reads_on | intros ? ?]).
  apply reads_on_refl.
Qed.

End Reader.

(** ** C4: soft misses and fatal mapping failures of the blob reader *)

Lemma all_granted_false (host : Host) (position : Z) (header : list byte) :
  let layout :=
    section_positions position (header_word header 1) (header_word header 2)
      (header_word header 3) (header_word header 4) in
  (header_word header 1 <> 0
   /\ MapGranted host kReadOnly (vm_data_position layout) (header_word header 1)
      = false)
  \/ (header_word header 2 <> 0
      /\ MapGranted host kReadExecute (vm_instructions_position layout)
           (header_word header 2) = false)
  \/ (header_word header 3 <> 0
      /\ MapGranted host kReadOnly (isolate_data_position layout)
           (header_word header 3) = false)
  \/ (header_word header 4 <> 0
      /\ MapGranted host kReadExecute (isolate_instructions_position layout)
           (header_word header 4) = false) ->
  all_granted host position header = false.
Proof.
  intros layout H. unfold all_granted, granted. fold layout.
  destruct H as [[Hne Hno] | [[Hne Hno] | [[Hne Hno] | [Hne Hno]]]];
    rewrite Hno; apply Z.eqb_neq in Hne; rewrite Hne; cbn;
    repeat rewrite ?andb_false_r, ?andb_false_l; reflexivity.
Qed.

(** C4: the blob reader returns null, and nothing worse, when fewer than 40
    bytes are left behind the cursor or when the first 8 of them differ
    from the magic number; once the header is accepted, a refused mapping
    of any section whose declared size is not zero ends the run with the
    fatal diagnostic. *)
Theorem blob_reader_miss_or_fatal (build : Build) (host : Host)
    (headers : Headers) (script_name : string) (file : File) (w : World) :
  let bytes := file_bytes (fs w) (f_path file) in
  let header := slice (Position file) kAppSnapshotHeaderSize bytes in
  let layout :=
    section_positions (Position file + kAppSnapshotHeaderSize)
      (header_word header 1) (header_word header 2)
      (header_word header 3) (header_word header 4) in
  let run := TryReadAppSnapshotBlobs_file build host headers script_name file w in
  0 <= Position file < 2 ^ 62 ->
  Z.of_nat (length bytes) < 2 ^ 62 ->
  magic_length (appjit_magic_number headers) = 8 ->
  length (magic_bytes (appjit_magic_number headers)) = 8%nat ->
  (Z.of_nat (length bytes) - Position file < 40 -> fst run = Returns None)
  /\ (slice (Position file) 8 bytes <> magic_bytes (appjit_magic_number headers) ->
      fst run = Returns None)
  /\ (header_accepted headers bytes (Position file) ->
      (header_word header 1 <> 0
       /\ MapGranted host kReadOnly (vm_data_position layout)
            (header_word header 1) = false)
      \/ (header_word header 2 <> 0
          /\ MapGranted host kReadExecute (vm_instructions_position layout)
               (header_word header 2) = false)
      \/ (header_word header 3 <> 0
          /\ MapGranted host kReadOnly (isolate_data_position layout)
               (header_word header 3) = false)
      \/ (header_word header 4 <> 0
          /\ MapGranted host kReadExecute (isolate_instructions_position layout)
               (header_word header 4) = false) ->
      fst run
      = Aborts (FATAL1 "Failed to memory map snapshot: %s\n" script_name)).
Proof.
  intros bytes header layout run Hpos Hlen Hmagic Hmlen.
  assert (Hshort : Z.of_nat (length bytes) - Position file < 40 ->
                   fst run = Returns None).
  { intros H. subst run. now rewrite reader_too_short by (try assumption; lia). }
  split; [exact Hshort |]. split.
  - intros Hdiff.
    destruct (Z_lt_le_dec (Z.of_nat (length bytes) - Position file) 40)
      as [Hlt | Hge]; [now apply Hshort |].
    subst run. now rewrite reader_rejects_magic by (try assumption; lia).
  - intros Hacc Hrefused. subst run.
    rewrite reader_accepted by (try assumption; lia).
    rewrite map_sections_result. cbn [Position f_position].
    fold bytes. fold header.
    now rewrite (all_granted_false host _ header Hrefused).
Qed.

Lemma blob_reader_miss_or_fatal_witness :
  fst (TryReadAppSnapshotBlobs_file Samples.jit Samples.small_host Samples.headers
         "app.snapshot" (Samples.at_start "app.snapshot")
         (Samples.world_with "app.snapshot"
            (Samples.regular (Samples.blob_header (2 ^ 20) 0 0 0))))
  = Aborts (FATAL1 "Failed to memory map snapshot: %s\n" "app.snapshot").
Proof.
  pose proof (blob_reader_miss_or_fatal Samples.jit Samples.small_host
                Samples.headers "app.snapshot" (Samples.at_start "app.snapshot")
                (Samples.world_with "app.snapshot"
                   (Samples.regular (Samples.blob_header (2 ^ 20) 0 0 0)))) as H.
  cbv zeta in H.
  destruct H as (_ & _ & H).
  - vm_compute. split; [discriminate | reflexivity].
  - vm_compute. reflexivity.
  - reflexivity.
  - reflexivity.
  - apply H.
    + split; [vm_compute; discriminate | vm_compute; reflexivity].
    + left. split; [vm_compute; discriminate | vm_compute; reflexivity].
Defined.

(** ** C8: what the accepted header says about the sections *)

(** C8, as stated, fails: the header checks look at the length and at the
    magic number only, so a header whose vm-data size is -1 passes them. *)
Lemma sizes_claim_fails :
  ~ sizes_claim Samples.headers (Samples.blob_header (-1) 0 0 0) 0.
Proof.
  intros H. unfold sizes_claim in H.
  destruct H as (Hneg & _).
  - split; [vm_compute; discriminate | vm_compute; reflexivity].
  - vm_compute in Hneg. apply Hneg. reflexivity.
Qed.

Lemma mapped_as_declared (bytes : list byte) (type : MapType)
    (position size : Z) (before : Ptr) :
  section_as_declared size (mapped bytes type position size) before
    (set_if_mapped (mapped bytes type position size) before).
Proof.
  unfold section_as_declared, mapped. split.
  - intros ->. cbn. split; reflexivity.
  - intros Hne. apply Z.eqb_neq in Hne. rewrite Hne. cbn. eauto.
Qed.

Lemma granted_positive (host : Host) (type : MapType) (position size : Z) :
  (forall t p l, MapGranted host t p l = true -> 0 < l) ->
  granted host type position size = true -> 0 <= size.
Proof.
  intros Hhost H. unfold granted in H. apply orb_true_iff in H.
  destruct H as [H | H]; [apply Z.eqb_eq in H; lia |].
  apply Hhost in H. lia.
Qed.

(** C8 (amended): for a file that passes the header checks, the reader
    changes nothing but the trace and asks for no mapping of length 0; it
    either ends with the fatal diagnostic or returns a handle in which a
    section of size 0 has no mapping and leaves the caller's pointer as it
    was (null when it was null), and a section of any other size is mapped
    with exactly that size.  The sizes themselves are whatever the header
    holds; they are not negative when a handle is returned by a platform
    that maps positive lengths only. *)
Theorem blob_reader_sections (build : Build) (host : Host) (headers : Headers)
    (script_name : string) (file : File) (w : World) (out : Buffers) :
  let bytes := file_bytes (fs w) (f_path file) in
  let header := slice (Position file) kAppSnapshotHeaderSize bytes in
  let run := TryReadAppSnapshotBlobs_file build host headers script_name file w in
  0 <= Position file ->
  Z.of_nat (length bytes) < 2 ^ 62 ->
  magic_length (appjit_magic_number headers) = 8 ->
  header_accepted headers bytes (Position file) ->
  reads_on w (snd run)
  /\ (fst run = Aborts (FATAL1 "Failed to memory map snapshot: %s\n" script_name)
      \/ exists m1 m2 m3 m4,
           fst run = Returns (Some (MappedAppSnapshot m1 m2 m3 m4))
           /\ let set := SetBuffers (MappedAppSnapshot m1 m2 m3 m4) out in
              section_as_declared (header_word header 1) m1
                (vm_data_buffer out) (vm_data_buffer set)
              /\ section_as_declared (header_word header 2) m2
                   (vm_instructions_buffer out) (vm_instructions_buffer set)
              /\ section_as_declared (header_word header 3) m3
                   (isolate_data_buffer out) (isolate_data_buffer set)
              /\ section_as_declared (header_word header 4) m4
                   (isolate_instructions_buffer out)
                   (isolate_instructions_buffer set)
              /\ ((forall t p l, MapGranted host t p l = true -> 0 < l) ->
                  0 <= header_word header 1 /\ 0 <= header_word header 2
                  /\ 0 <= header_word header 3 /\ 0 <= header_word header 4)).
Proof.
  intros bytes header run Hpos Hlen Hmagic Hacc. subst run.
  rewrite reader_accepted by assumption. fold bytes. fold header. split.
  - eapply reads_on_trans; [| apply map_sections_reads_on].
    now apply reads_on_event.
  - rewrite map_sections_result. cbn [Position f_position f_path fs record_event].
    fold bytes.
    destruct (all_granted host _ header) eqn:Hall; [right | now left].
    unfold mapped_snapshot. do 4 eexists. split; [reflexivity |].
    cbn zeta. cbn [SetBuffers vm_data_buffer vm_instructions_buffer
                     isolate_data_buffer isolate_instructions_buffer].
    do 4 (split; [apply mapped_as_declared |]).
    intros Hhost. unfold all_granted in Hall.
    apply andb_true_iff in Hall. destruct Hall as [Hall H4].
    apply andb_true_iff in Hall. destruct Hall as [Hall H3].
    apply andb_true_iff in Hall. destruct Hall as [H1 H2].
    repeat split; eapply granted_positive; eassumption.
Qed.

Lemma blob_reader_sections_witness :
  exists m3 m4,
    fst (TryReadAppSnapshotBlobs_file Samples.jit Samples.small_host
           Samples.headers "app.snapshot" (Samples.at_start "app.snapshot")
           (Samples.world_with "app.snapshot"
              (Samples.regular (Samples.blob_header 0 0 0 0))))
    = Returns (Some (MappedAppSnapshot None None m3 m4)).
Proof.
  pose proof (blob_reader_sections Samples.jit Samples.small_host
                Samples.headers "app.snapshot" (Samples.at_start "app.snapshot")
                (Samples.world_with "app.snapshot"
                   (Samples.regular (Samples.blob_header 0 0 0 0)))
                null_buffers) as H.
  cbv zeta in H.
  destruct H as (_ & [Hfatal | (m1 & m2 & m3 & m4 & Hrun & S1 & S2 & _)]).
  - vm_compute. discriminate.
  - vm_compute. reflexivity.
  - reflexivity.
  - split; [vm_compute; discriminate | vm_compute; reflexivity].
  - vm_compute in Hfatal. discriminate.
  - destruct S1 as [S1 _]. destruct (S1 eq_refl) as [-> _].
    destruct S2 as [S2 _]. destruct (S2 eq_refl) as [-> _].
    exists m3, m4. exact Hrun.
Defined.

(** ** The blob writer, step by step *)

Lemma file_bytes_put (path : string) (bytes : list byte) (w : World) :
  file_bytes (fs (put path bytes w)) path = bytes.
Proof. unfold file_bytes, put. cbn. now rewrite lookup_insert_eq. Qed.

Lemma lookup_put (path : string) (bytes : list byte) (w : World) :
  fs (put path bytes w) !! path = Some {| n_type := kIsFile; n_bytes := bytes |}.
Proof. unfold put. cbn. now rewrite lookup_insert_eq. Qed.

Lemma file_bytes_lookup (m : gmap string Node) (path : string) (n : Node) :
  m !! path = Some n -> file_bytes m path = n_bytes n.
Proof. intros H. unfold file_bytes. now rewrite H. Qed.

Lemma lookup_stored (path : string) (position : Z) (buffer bytes : list byte)
    (w : World) :
  fs w !! path = Some {| n_type := kIsFile; n_bytes := bytes |} ->
  fs (stored path position buffer w) !! path
  = Some {| n_type := kIsFile; n_bytes := place position buffer bytes |}.
Proof.
  intros H. destruct buffer as [| b buffer]; [exact H |].
  cbn [stored place]. rewrite lookup_put.
  now rewrite (file_bytes_lookup _ _ _ H).
Qed.

Lemma faults_stored (path : string) (position : Z) (buffer : list byte) (w : World) :
  faults (stored path position buffer w) = faults w.
Proof. destruct buffer; reflexivity. Qed.

Section Writer.

Variable build : Build.
Variable headers : Headers.

(** A write of the whole buffer that the device accepts. *)
Lemma WriteFully_accepted (file : File) (buffer : list byte) (w : World) :
  faults w = [] ->
  WriteFully file buffer (Z.of_nat (length buffer)) w
  = (Returns (true, advance file (Z.of_nat (length buffer))),
     stored (f_path file) (f_position file) buffer w).
Proof.
  intros Hfaults. unfold WriteFully.
  destruct buffer as [| b buffer]; [cbn; unfold advance; cbn |].
  - rewrite Z.add_0_r. now destruct file.
  - destruct (Z.leb_spec (Z.of_nat (length (b :: buffer))) 0) as [Hle | _];
      [cbn [length] in Hle; lia |].
    rewrite Z.ltb_irrefl.
    unfold bind, next_fault, get_fs, put_node. rewrite Hfaults.
    rewrite Nat2Z.id, firstn_all. cbn [stored]. unfold put, ret, advance.
    now rewrite Hfaults.
Qed.

Lemma write_section_accepted (filename : string) (file : File)
    (buffer : list byte) (w : World) :
  faults w = [] ->
  write_section filename file buffer (Z.of_nat (length buffer)) w
  = (Returns (advance file (Z.of_nat (length buffer))),
     stored (f_path file) (f_position file) buffer w).
Proof.
  intros Hfaults. unfold write_section.
  now rewrite (bind_returns _ _ _ _ _ (WriteFully_accepted file buffer w Hfaults)).
Qed.

End Writer.

(** ** The container image *)

Lemma Open_for_writing (path : string) (w : World) :
  writable (fs w) path ->
  Open path kWriteTruncate w
  = (Returns (Some {| f_path := path; f_position := 0 |}),
     put path [] (record_event (EvOpen path kWriteTruncate) w)).
Proof.
  intros H. unfold writable in H. unfold Open, bind, emit, get_fs. cbn.
  destruct (fs w !! path) as [n |] eqn:Hn.
  - rewrite bool_decide_eq_true_2 by assumption. reflexivity.
  - reflexivity.
Qed.

Lemma Open_for_reading (path : string) (bytes : list byte) (w : World) :
  fs w !! path = Some {| n_type := kIsFile; n_bytes := bytes |} ->
  Open path kRead w
  = (Returns (Some {| f_path := path; f_position := 0 |}),
     record_event (EvOpen path kRead) w).
Proof.
  intros H. unfold Open, bind, emit, get_fs. cbn. rewrite H. cbn.
  reflexivity.
Qed.

Lemma length_store_int64 (z : Z) : length (store_int64 z) = 8%nat.
Proof. apply length_le_encode. Qed.

Lemma place_at_end (buffer bytes : list byte) :
  place (Z.of_nat (length bytes)) buffer bytes = bytes ++ buffer.
Proof.
  destruct buffer as [| b buffer]; cbn [place].
  - now rewrite app_nil_r.
  - apply write_at_end.
Qed.

Lemma length_container_header (magic : list byte) (s1 s2 s3 s4 : Z) :
  length magic = 8%nat -> length (container_header magic s1 s2 s3 s4) = 40%nat.
Proof.
  intros H. unfold container_header.
  rewrite !length_app, !length_store_int64, H. reflexivity.
Qed.

Lemma align_small (file : File) :
  0 <= f_position file < 2 ^ 62 ->
  align file
  = {| f_path := f_path file;
       f_position := RoundUp (f_position file) kAppSnapshotPageSize |}.
Proof.
  intros H. unfold align, SetPosition, Position.
  destruct (RoundUp_page_bounds (f_position file) H) as [Hb _].
  destruct (Z.ltb_spec (RoundUp (f_position file) kAppSnapshotPageSize) 0);
    [lia | reflexivity].
Qed.

Lemma instructions_offset_bounds (size data_end : Z) :
  0 <= data_end < 2 ^ 62 ->
  data_end <= instructions_offset size data_end < data_end + 16384.
Proof.
  intros H. unfold instructions_offset.
  destruct (RoundUp_page_bounds data_end H) as [Hb _].
  destruct (negb (size =? 0)); lia.
Qed.

Lemma section_positions_small (position s1 s2 s3 s4 : Z) :
  0 <= position -> 0 <= s1 -> 0 <= s2 -> 0 <= s3 -> 0 <= s4 ->
  position + s1 + s2 + s3 + s4 + 4 * 16384 < 2 ^ 62 ->
  let p1 := RoundUp position kAppSnapshotPageSize in
  let p2 := instructions_offset s2 (p1 + s1) in
  let p3 := RoundUp (p2 + s2) kAppSnapshotPageSize in
  let p4 := instructions_offset s4 (p3 + s3) in
  section_positions position s1 s2 s3 s4
  = {| vm_data_position := p1; vm_instructions_position := p2;
       isolate_data_position := p3; isolate_instructions_position := p4 |}
  /\ position <= p1 /\ p1 + s1 <= p2 /\ p2 + s2 <= p3 /\ p3 + s3 <= p4
  /\ p4 + s4 < 2 ^ 62.
Proof.
  intros Hp H1 H2 H3 H4 Hfit p1 p2 p3 p4.
  destruct (RoundUp_page_bounds position) as [Ha _]; [lia |]. fold p1 in Ha.
  destruct (instructions_offset_bounds s2 (p1 + s1)) as [Hb Hb']; [lia |].
  fold p2 in Hb, Hb'.
  destruct (RoundUp_page_bounds (p2 + s2)) as [Hc _]; [lia |]. fold p3 in Hc.
  destruct (instructions_offset_bounds s4 (p3 + s3)) as [Hd Hd']; [lia |].
  fold p4 in Hd, Hd'.
  split; [| lia].
  unfold section_positions. fold p1.
  rewrite (int64_small (p1 + s1)) by lia.
  change (if negb (s2 =? 0) then RoundUp (p1 + s1) kAppSnapshotPageSize
          else p1 + s1) with p2.
  rewrite (int64_small (p2 + s2)) by lia. fold p3.
  rewrite (int64_small (p3 + s3)) by lia.
  reflexivity.
Qed.

Lemma place_append (position : Z) (buffer bytes : list byte) :
  position = Z.of_nat (length bytes) ->
  place position buffer bytes = bytes ++ buffer.
Proof. intros ->. apply place_at_end. Qed.

Ltac write_step lemma :=
  erewrite bind_returns;
  [| apply lemma; rewrite ?faults_stored; try assumption; try reflexivity ];
  cbv beta iota; cbn [advance f_path f_position].

Section WriterImage.

Variable build : Build.
Variable headers : Headers.

Lemma WriteFully_whole (file : File) (buffer : list byte) (n : Z) (w : World) :
  faults w = [] ->
  n = Z.of_nat (length buffer) ->
  WriteFully file buffer n w
  = (Returns (true, advance file n), stored (f_path file) (f_position file) buffer w).
Proof. intros Hf ->. now apply WriteFully_accepted. Qed.

Lemma WriteInt64_accepted (file : File) (size : Z) (w : World) :
  faults w = [] ->
  WriteInt64 file size w
  = (Returns (true, advance file 8),
     stored (f_path file) (f_position file) (store_int64 size) w).
Proof.
  intros Hf. unfold WriteInt64. apply WriteFully_whole; [assumption |].
  now rewrite length_store_int64.
Qed.

(** A data section: aligned, then written. *)
Lemma data_section_accepted (filename : string) (file : File)
    (buffer : list byte) (w : World) :
  faults w = [] ->
  0 <= f_position file < 2 ^ 62 ->
  write_section filename (align file) buffer (Z.of_nat (length buffer)) w
  = (Returns {| f_path := f_path file;
                f_position := RoundUp (f_position file) kAppSnapshotPageSize
                              + Z.of_nat (length buffer) |},
     stored (f_path file) (RoundUp (f_position file) kAppSnapshotPageSize)
       buffer w).
Proof.
  intros Hf Hpos. rewrite align_small by assumption.
  now rewrite write_section_accepted.
Qed.

(** An instructions section: aligned and written when it is not empty. *)
Lemma instructions_section_accepted (filename : string) (file : File)
    (buffer : list byte) (w : World) :
  faults w = [] ->
  0 <= f_position file < 2 ^ 62 ->
  (if negb (Z.of_nat (length buffer) =? 0)
   then write_section filename (align file) buffer (Z.of_nat (length buffer))
   else ret file) w
  = (Returns {| f_path := f_path file;
                f_position :=
                  instructions_offset (Z.of_nat (length buffer)) (f_position file)
                  + Z.of_nat (length buffer) |},
     stored (f_path file)
       (instructions_offset (Z.of_nat (length buffer)) (f_position file))
       buffer w).
Proof.
  intros Hf Hpos. unfold instructions_offset.
  destruct buffer as [| b buffer].
  - cbn. rewrite Z.add_0_r. now destruct file.
  - destruct (Z.eqb_spec (Z.of_nat (length (b :: buffer))) 0) as [H0 | _];
      [cbn [length] in H0; lia |].
    cbn [negb]. now apply data_section_accepted.
Qed.

Lemma WriteAppSnapshot_writes_image (filename : string)
    (b1 b2 b3 b4 : list byte) (w : World) :
  let magic := magic_bytes (appjit_magic_number headers) in
  writable (fs w) filename ->
  faults w = [] ->
  magic_length (appjit_magic_number headers) = 8 ->
  length magic = 8%nat ->
  Z.of_nat (length b1) + Z.of_nat (length b2) + Z.of_nat (length b3)
    + Z.of_nat (length b4) < 2 ^ 61 ->
  exists w',
    WriteAppSnapshot build headers filename
      b1 (Z.of_nat (length b1)) b2 (Z.of_nat (length b2))
      b3 (Z.of_nat (length b3)) b4 (Z.of_nat (length b4)) w
    = (Returns tt, w')
    /\ fs w' !! filename
       = Some {| n_type := kIsFile; n_bytes := blob_image magic b1 b2 b3 b4 |}.
Proof.
  intros magic Hw Hfaults Hmagic Hmlen Hfit.
  unfold WriteAppSnapshot.
  rewrite (bind_returns _ _ _ _ _ (Open_for_writing filename w Hw)).
  set (w0 := put filename [] (record_event (EvOpen filename kWriteTruncate) w)).
  assert (Hf0 : faults w0 = []) by exact Hfaults.
  assert (Hl0 : fs w0 !! filename = Some {| n_type := kIsFile; n_bytes := [] |})
    by apply lookup_put.
  cbv beta iota. rewrite Hmagic. fold magic.
  write_step WriteFully_whole; [| now rewrite Hmlen].
  write_step WriteInt64_accepted.
  write_step WriteInt64_accepted.
  write_step WriteInt64_accepted.
  write_step WriteInt64_accepted.
  cbn [advance f_path f_position Position].
  change (0 + 8 + 8 + 8 + 8 + 8) with kAppSnapshotHeaderSize.
  rewrite Z.eqb_refl.
  rewrite (bind_returns _ _ _ _ _ (ASSERT_holds build _ _)).
  destruct (section_positions_small kAppSnapshotHeaderSize
              (Z.of_nat (length b1)) (Z.of_nat (length b2))
              (Z.of_nat (length b3)) (Z.of_nat (length b4)))
    as (Hlayout & Hp1 & Hp2 & Hp3 & Hp4 & Hend);
    [rewrite header_size_value; lia | lia | lia | lia | lia
     | rewrite header_size_value; lia |].
  pose proof header_size_value as Hhs.
  write_step data_section_accepted; [| cbn [advance f_position]; lia].
  change (0 + 8 + 8 + 8 + 8 + 8) with kAppSnapshotHeaderSize.
  write_step instructions_section_accepted; [| cbn [f_position]; lia].
  write_step data_section_accepted; [| cbn [f_position]; lia].
  write_step instructions_section_accepted; [| cbn [f_position]; lia].
  cbn [f_path f_position]. unfold ret.
  eexists. split; [reflexivity |].
  pose proof Hl0 as L.
  apply (lookup_stored filename 0 magic) in L.
  apply (lookup_stored filename (0 + 8) (store_int64 (Z.of_nat (length b1)))) in L.
  apply (lookup_stored filename (0 + 8 + 8)
           (store_int64 (Z.of_nat (length b2)))) in L.
  apply (lookup_stored filename (0 + 8 + 8 + 8)
           (store_int64 (Z.of_nat (length b3)))) in L.
  apply (lookup_stored filename (0 + 8 + 8 + 8 + 8)
           (store_int64 (Z.of_nat (length b4)))) in L.
  eapply lookup_stored in L. eapply lookup_stored in L.
  eapply lookup_stored in L. eapply lookup_stored in L.
  rewrite L. clear L.
  unfold blob_image. rewrite Hlayout.
  cbn [vm_data_position vm_instructions_position isolate_data_position
         isolate_instructions_position].
  do 2 f_equal. do 4 f_equal.
  unfold container_header.
  rewrite (place_append 0 magic []) by reflexivity. cbn [app].
  rewrite (place_append (0 + 8)) by (now rewrite Hmlen).
  rewrite (place_append (0 + 8 + 8))
    by (now rewrite ?length_app, ?length_store_int64, Hmlen).
  rewrite (place_append (0 + 8 + 8 + 8))
    by (now rewrite ?length_app, ?length_store_int64, Hmlen).
  rewrite (place_append (0 + 8 + 8 + 8 + 8))
    by (now rewrite ?length_app, ?length_store_int64, Hmlen).
  reflexivity.
Qed.

End WriterImage.

(** ** Reading the image back *)

Lemma length_place (position : Z) (buffer bytes : list byte) :
  0 <= position ->
  Z.of_nat (length bytes) <= Z.of_nat (length (place position buffer bytes))
  /\ Z.of_nat (length (place position buffer bytes))
     <= Z.max (Z.of_nat (length bytes)) (position + Z.of_nat (length buffer))
  /\ (buffer <> [] ->
      position + Z.of_nat (length buffer)
      <= Z.of_nat (length (place position buffer bytes))).
Proof.
  intros Hp. destruct buffer as [| b buffer]; cbn [place].
  - repeat split; [lia | lia | congruence].
  - rewrite length_write_at by assumption. repeat split; lia.
Qed.

Lemma slice_place_before (q n position : Z) (buffer bytes : list byte) :
  0 <= q -> 0 <= n -> q + n <= position ->
  q + n <= Z.of_nat (length bytes) ->
  slice q n (place position buffer bytes) = slice q n bytes.
Proof.
  intros. destruct buffer; cbn [place]; [reflexivity |].
  now apply slice_write_at_before.
Qed.

Lemma slice_place_same (position : Z) (buffer bytes : list byte) :
  0 <= position ->
  slice position (Z.of_nat (length buffer)) (place position buffer bytes) = buffer.
Proof.
  intros Hp. destruct buffer as [| b buffer]; cbn [place]; [reflexivity |].
  now apply slice_write_at_same.
Qed.

Lemma slice_all (bytes : list byte) :
  slice 0 (Z.of_nat (length bytes)) bytes = bytes.
Proof. unfold slice. cbn. rewrite Nat2Z.id. apply firstn_all. Qed.

Lemma header_words (magic : list byte) (s1 s2 s3 s4 : Z) :
  length magic = 8%nat ->
  let header := container_header magic s1 s2 s3 s4 in
  header_word header 1 = int64 s1 /\ header_word header 2 = int64 s2
  /\ header_word header 3 = int64 s3 /\ header_word header 4 = int64 s4.
Proof.
  intros Hm header. subst header. unfold container_header, header_word.
  change (Z.to_nat (kInt64Size * 1)) with 8%nat.
  change (Z.to_nat (kInt64Size * 2)) with 16%nat.
  change (Z.to_nat (kInt64Size * 3)) with 24%nat.
  change (Z.to_nat (kInt64Size * 4)) with 32%nat.
  rewrite <- !app_assoc.
  repeat split.
  - rewrite drop_app_length' by (now rewrite Hm). apply load_store_int64.
  - rewrite app_assoc.
    rewrite drop_app_length' by (now rewrite length_app, length_store_int64, Hm).
    apply load_store_int64.
  - rewrite 2 app_assoc.
    rewrite drop_app_length'
      by (now rewrite !length_app, !length_store_int64, Hm).
    apply load_store_int64.
  - rewrite 3 app_assoc.
    rewrite drop_app_length'
      by (now rewrite !length_app, !length_store_int64, Hm).
    rewrite <- (app_nil_r (store_int64 s4)). apply load_store_int64.
Qed.

Lemma header_magic (magic : list byte) (s1 s2 s3 s4 : Z) :
  length magic = 8%nat ->
  memcmp (container_header magic s1 s2 s3 s4) magic 8 = 0.
Proof.
  intros Hm. unfold container_header. rewrite <- !app_assoc.
  now apply memcmp_refl.
Qed.

(** The parts of the image: the header at the start, and each buffer at the
    position the reader computes for it. *)
Lemma blob_image_parts (magic b1 b2 b3 b4 : list byte) :
  length magic = 8%nat ->
  Z.of_nat (length b1) + Z.of_nat (length b2) + Z.of_nat (length b3)
    + Z.of_nat (length b4) < 2 ^ 61 ->
  let s1 := Z.of_nat (length b1) in
  let s2 := Z.of_nat (length b2) in
  let s3 := Z.of_nat (length b3) in
  let s4 := Z.of_nat (length b4) in
  let layout := section_positions kAppSnapshotHeaderSize s1 s2 s3 s4 in
  let image := blob_image magic b1 b2 b3 b4 in
  kAppSnapshotHeaderSize <= Z.of_nat (length image) < 2 ^ 62
  /\ slice 0 kAppSnapshotHeaderSize image = container_header magic s1 s2 s3 s4
  /\ (b1 <> [] -> slice (vm_data_position layout) s1 image = b1)
  /\ (b2 <> [] -> slice (vm_instructions_position layout) s2 image = b2)
  /\ (b3 <> [] -> slice (isolate_data_position layout) s3 image = b3)
  /\ (b4 <> [] -> slice (isolate_instructions_position layout) s4 image = b4).
Proof.
  intros Hm Hfit s1 s2 s3 s4 layout image.
  pose proof header_size_value as Hhs.
  destruct (section_positions_small kAppSnapshotHeaderSize s1 s2 s3 s4)
    as (Hlayout & Hp1 & Hp2 & Hp3 & Hp4 & Hend); [subst s1 s2 s3 s4; lia ..|].
  subst image layout. unfold blob_image. fold s1 s2 s3 s4. rewrite Hlayout.
  cbn [vm_data_position vm_instructions_position isolate_data_position
         isolate_instructions_position].
  set (p1 := RoundUp kAppSnapshotHeaderSize kAppSnapshotPageSize) in *.
  set (p2 := instructions_offset s2 (p1 + s1)) in *.
  set (p3 := RoundUp (p2 + s2) kAppSnapshotPageSize) in *.
  set (p4 := instructions_offset s4 (p3 + s3)) in *.
  set (B0 := container_header magic s1 s2 s3 s4).
  assert (HB0 : Z.of_nat (length B0) = 40).
  { subst B0. now rewrite length_container_header. }
  set (B1 := place p1 b1 B0). set (B2 := place p2 b2 B1).
  set (B3 := place p3 b3 B2). set (B4 := place p4 b4 B3).
  assert (Hs : 0 <= s1 /\ 0 <= s2 /\ 0 <= s3 /\ 0 <= s4) by (subst s1 s2 s3 s4; lia).
  destruct (length_place p1 b1 B0) as (L1a & L1b & L1c); [lia |].
  destruct (length_place p2 b2 B1) as (L2a & L2b & L2c); [lia |].
  destruct (length_place p3 b3 B2) as (L3a & L3b & L3c); [lia |].
  destruct (length_place p4 b4 B3) as (L4a & L4b & L4c); [lia |].
  fold B1 in L1a, L1b, L1c, L2a, L2b, L2c. fold B2 in L2a, L2b, L2c, L3a, L3b, L3c.
  fold B3 in L3a, L3b, L3c, L4a, L4b, L4c. fold B4 in L4a, L4b, L4c.
  fold s1 in L1b, L1c. fold s2 in L2b, L2c. fold s3 in L3b, L3c.
  fold s4 in L4b, L4c.
  split; [lia |]. split; [| repeat split].
  - subst B4 B3 B2 B1.
    rewrite !slice_place_before by lia.
    rewrite Hhs, <- HB0. apply slice_all.
  - intros Hne. specialize (L1c Hne). subst B4 B3 B2.
    rewrite !slice_place_before by lia.
    subst B1 s1. now apply slice_place_same; lia.
  - intros Hne. specialize (L2c Hne). subst B4 B3.
    rewrite !slice_place_before by lia.
    subst B2 s2. apply slice_place_same; lia.
  - intros Hne. specialize (L3c Hne). subst B4.
    rewrite !slice_place_before by lia.
    subst B3 s3. apply slice_place_same; lia.
  - intros Hne. subst B4 s4. apply slice_place_same; lia.
Qed.

(** ** C1: writing a container and reading it back *)

Lemma mapping_bytes_present (position count : Z) (bytes : list byte) :
  Z.of_nat (length (slice position count bytes)) = count ->
  mapping_bytes position count bytes = slice position count bytes.
Proof.
  intros H. unfold mapping_bytes. cbv zeta.
  replace (Z.to_nat count - length (slice position count bytes))%nat with 0%nat
    by lia.
  apply app_nil_r.
Qed.

Lemma mapped_pointer (image buffer : list byte) (type : MapType) (position : Z) :
  (buffer <> [] -> slice position (Z.of_nat (length buffer)) image = buffer) ->
  set_if_mapped (mapped image type position (Z.of_nat (length buffer))) None
  = section_pointer buffer.
Proof.
  intros H. destruct buffer as [| b buffer]; [reflexivity |].
  unfold mapped.
  destruct (Z.eqb_spec (Z.of_nat (length (b :: buffer))) 0) as [H0 | _];
    [cbn [length] in H0; lia |].
  cbn [set_if_mapped address].
  rewrite mapping_bytes_present; now rewrite H.
Qed.

Lemma granted_when_mapping_positive (host : Host) (type : MapType)
    (position size : Z) :
  (forall t p l, 0 < l -> MapGranted host t p l = true) ->
  0 <= size -> granted host type position size = true.
Proof.
  intros Hhost Hs. unfold granted.
  destruct (Z.eqb_spec size 0); [reflexivity |]. cbn. apply Hhost. lia.
Qed.

Section RoundTrip.

Variable build : Build.
Variable host : Host.
Variable headers : Headers.

(** Any four buffers, as long as the layout stays below the wrap-around. *)
Lemma round_trip (filename : string) (b1 b2 b3 b4 : list byte) (w : World) :
  magic_length (appjit_magic_number headers) = 8 ->
  length (magic_bytes (appjit_magic_number headers)) = 8%nat ->
  writable (fs w) filename ->
  faults w = [] ->
  (forall t p l, 0 < l -> MapGranted host t p l = true) ->
  Z.of_nat (length b1) + Z.of_nat (length b2) + Z.of_nat (length b3)
    + Z.of_nat (length b4) < 2 ^ 61 ->
  exists w1 snapshot w2,
    WriteAppSnapshot build headers filename
      b1 (Z.of_nat (length b1)) b2 (Z.of_nat (length b2))
      b3 (Z.of_nat (length b3)) b4 (Z.of_nat (length b4)) w
    = (Returns tt, w1)
    /\ TryReadAppSnapshotBlobs build host headers filename w1
       = (Returns (Some snapshot), w2)
    /\ SetBuffers snapshot null_buffers = sections_read_back b1 b2 b3 b4.
Proof.
  intros Hmagic Hmlen Hw Hfaults Hhost Hfit.
  destruct (WriteAppSnapshot_writes_image build headers filename b1 b2 b3 b4 w
              Hw Hfaults Hmagic Hmlen Hfit) as (w1 & Hwrite & Hlook).
  set (magic := magic_bytes (appjit_magic_number headers)) in *.
  set (image := blob_image magic b1 b2 b3 b4) in *.
  destruct (blob_image_parts magic b1 b2 b3 b4 Hmlen Hfit)
    as (Hlen & Hheader & S1 & S2 & S3 & S4).
  fold image in Hlen, Hheader, S1, S2, S3, S4.
  destruct (header_words magic (Z.of_nat (length b1)) (Z.of_nat (length b2))
              (Z.of_nat (length b3)) (Z.of_nat (length b4)) Hmlen)
    as (W1 & W2 & W3 & W4).
  rewrite int64_small in W1, W2, W3, W4 by lia.
  exists w1.
  unfold TryReadAppSnapshotBlobs.
  rewrite (bind_returns _ _ _ _ _ (Open_for_reading filename image w1 Hlook)).
  set (w1' := record_event (EvOpen filename kRead) w1).
  assert (Hbytes : file_bytes (fs w1') filename = image).
  { unfold w1'. rewrite fs_record_event.
    now rewrite (file_bytes_lookup _ _ _ Hlook). }
  set (file := {| f_path := filename; f_position := 0 |}).
  destruct (TryReadAppSnapshotBlobs_file build host headers filename file w1')
    as [result w2] eqn:Hread.
  assert (Hresult : result = fst (TryReadAppSnapshotBlobs_file build host headers
                                    filename file w1')) by now rewrite Hread.
  rewrite reader_accepted in Hresult; cycle 1.
  { cbn. lia. }
  { cbn [f_path file]. rewrite Hbytes. lia. }
  { assumption. }
  { cbn [f_path file Position f_position]. rewrite Hbytes. split; [lia |].
    rewrite Hheader, Hmagic. now apply header_magic. }
  rewrite map_sections_result in Hresult.
  cbn [f_path file Position f_position fs record_event] in Hresult.
  fold w1' in Hresult. rewrite Hbytes, Hheader in Hresult.
  change (0 + kAppSnapshotHeaderSize) with kAppSnapshotHeaderSize in Hresult.
  assert (Hall : all_granted host kAppSnapshotHeaderSize
                   (container_header magic (Z.of_nat (length b1))
                      (Z.of_nat (length b2)) (Z.of_nat (length b3))
                      (Z.of_nat (length b4))) = true).
  { unfold all_granted. rewrite W1, W2, W3, W4.
    rewrite !granted_when_mapping_positive by (assumption || lia). reflexivity. }
  rewrite Hall in Hresult. subst result.
  eexists. exists w2. split; [exact Hwrite |]. split; [reflexivity |].
  unfold mapped_snapshot. rewrite W1, W2, W3, W4.
  unfold sections_read_back, null_buffers. cbn [SetBuffers vm_data_buffer
    vm_instructions_buffer isolate_data_buffer isolate_instructions_buffer].
  now rewrite !mapped_pointer by assumption.
Qed.

End RoundTrip.

(** C1: for four sections with sizes among 0, 1, 16383, 16384 and 16385, in
    any combination, [WriteAppSnapshot] followed by
    [TryReadAppSnapshotBlobs] on the file it wrote returns a handle whose
    sections hold the very bytes that were written, and the pointer of
    every empty section is null (the device accepts the writes and the
    platform grants the mappings). *)
Theorem blob_round_trip (build : Build) (host : Host) (headers : Headers)
    (filename : string) (b1 b2 b3 b4 : list byte) (w : World) :
  magic_length (appjit_magic_number headers) = 8 ->
  length (magic_bytes (appjit_magic_number headers)) = 8%nat ->
  writable (fs w) filename ->
  faults w = [] ->
  (forall t p l, 0 < l -> MapGranted host t p l = true) ->
  In (Z.of_nat (length b1)) round_trip_sizes ->
  In (Z.of_nat (length b2)) round_trip_sizes ->
  In (Z.of_nat (length b3)) round_trip_sizes ->
  In (Z.of_nat (length b4)) round_trip_sizes ->
  exists w1 snapshot w2,
    WriteAppSnapshot build headers filename
      b1 (Z.of_nat (length b1)) b2 (Z.of_nat (length b2))
      b3 (Z.of_nat (length b3)) b4 (Z.of_nat (length b4)) w
    = (Returns tt, w1)
    /\ TryReadAppSnapshotBlobs build host headers filename w1
       = (Returns (Some snapshot), w2)
    /\ SetBuffers snapshot null_buffers = sections_read_back b1 b2 b3 b4.
Proof.
  intros Hmagic Hmlen Hw Hfaults Hhost H1 H2 H3 H4.
  apply round_trip; try assumption.
  assert (Hsmall : forall z, In z round_trip_sizes -> z <= 16385).
  { intros z Hz. unfold round_trip_sizes in Hz. cbn in Hz.
    intuition lia. }
  apply Hsmall in H1, H2, H3, H4. lia.
Qed.

Lemma blob_round_trip_witness :
  exists w1 snapshot w2,
    WriteAppSnapshot Samples.jit Samples.headers "app.snapshot"
      [] 0 [] 0 [xab] 1 [xcd] 1
      {| fs := ∅; trace := []; faults := []; torn := [] |}
    = (Returns tt, w1)
    /\ TryReadAppSnapshotBlobs Samples.jit Samples.host Samples.headers
         "app.snapshot" w1
       = (Returns (Some snapshot), w2)
    /\ SetBuffers snapshot null_buffers
       = {| vm_data_buffer := None; vm_instructions_buffer := None;
            isolate_data_buffer := Some [xab];
            isolate_instructions_buffer := Some [xcd] |}.
Proof.
  apply (blob_round_trip Samples.jit Samples.host Samples.headers "app.snapshot"
           [] [] [xab] [xcd] {| fs := ∅; trace := []; faults := []; torn := [] |}).
  - reflexivity.
  - reflexivity.
  - exact I.
  - reflexivity.
  - reflexivity.
  - cbn. tauto.
  - cbn. tauto.
  - cbn. tauto.
  - cbn. tauto.
Defined.

(** ** C9: write failures *)

(** A write that the device refuses. *)
Lemma WriteFully_refused (file : File) (buffer : list byte) (n : Z)
    (rest : list bool) (w : World) :
  faults w = true :: rest ->
  0 < n <= Z.of_nat (length buffer) ->
  WriteFully file buffer n w
  = (Returns (false, advance file (taken n w)), torn_write file buffer n w).
Proof.
  intros Hf Hn. unfold WriteFully.
  destruct (Z.leb_spec n 0); [lia |].
  destruct (Z.ltb_spec (Z.of_nat (length buffer)) n); [lia |].
  unfold bind, next_fault, next_torn, get_fs, put_node, ret, torn_write, taken.
  rewrite Hf. cbn [fs trace faults torn tl].
  destruct (0 <? _); reflexivity.
Qed.

Lemma taken_bounds (n : Z) (w : World) : 0 < n -> 0 <= taken n w < n.
Proof. intros H. unfold taken. lia. Qed.

(** A checked section write that the device refuses ends the run. *)
Lemma write_section_refused (filename : string) (file : File)
    (buffer : list byte) (n : Z) (rest : list bool) (w : World) :
  faults w = true :: rest ->
  0 < n <= Z.of_nat (length buffer) ->
  write_section filename file buffer n w
  = (Aborts (ErrorExit kErrorExitCode "Unable to write snapshot file '%s'\n"
               filename),
     torn_write file buffer n w).
Proof.
  intros Hf Hn. unfold write_section.
  now rewrite (bind_returns _ _ _ _ _ (WriteFully_refused file buffer n rest w Hf Hn)).
Qed.

(** C9 fails on the header: in a build without assertions, when the device
    refuses the very first write (the magic number) and accepts all later
    ones, [WriteAppSnapshot] returns normally. *)
Theorem header_write_failure_ignored (build : Build) (headers : Headers)
    (filename : string) (b1 b2 b3 b4 : list byte) (w : World) :
  DEBUG build = false ->
  magic_length (appjit_magic_number headers) = 8 ->
  length (magic_bytes (appjit_magic_number headers)) = 8%nat ->
  writable (fs w) filename ->
  faults w = [true] ->
  Z.of_nat (length b1) + Z.of_nat (length b2) + Z.of_nat (length b3)
    + Z.of_nat (length b4) < 2 ^ 61 ->
  exists w',
    WriteAppSnapshot build headers filename
      b1 (Z.of_nat (length b1)) b2 (Z.of_nat (length b2))
      b3 (Z.of_nat (length b3)) b4 (Z.of_nat (length b4)) w
    = (Returns tt, w')
    /\ faults w' = [].
Proof.
  intros Hrelease Hmagic Hmlen Hw Hfaults Hfit.
  unfold WriteAppSnapshot.
  rewrite (bind_returns _ _ _ _ _ (Open_for_writing filename w Hw)).
  set (w0 := put filename [] (record_event (EvOpen filename kWriteTruncate) w)).
  assert (Hf0 : faults w0 = [true]) by exact Hfaults.
  cbv beta iota. rewrite Hmagic.
  erewrite bind_returns;
    [| eapply WriteFully_refused; [exact Hf0 | rewrite Hmlen; lia]].
  cbv beta iota.
  pose proof (taken_bounds 8 w0 ltac:(lia)) as Htaken.
  set (p0 := taken 8 w0) in *.
  set (w1 := torn_write _ _ 8 w0).
  assert (Hf1 : faults w1 = []).
  { unfold w1, torn_write. cbn [faults]. now rewrite Hf0. }
  clearbody w1 p0.
  write_step WriteInt64_accepted.
  write_step WriteInt64_accepted.
  write_step WriteInt64_accepted.
  write_step WriteInt64_accepted.
  rewrite (bind_returns _ _ _ _ _ (ASSERT_release build _ _ _ Hrelease)).
  destruct (section_positions_small (0 + p0 + 8 + 8 + 8 + 8)
              (Z.of_nat (length b1)) (Z.of_nat (length b2))
              (Z.of_nat (length b3)) (Z.of_nat (length b4)))
    as (_ & Hp1 & Hp2 & Hp3 & Hp4 & Hend); [lia .. |].
  write_step data_section_accepted; [| cbn [f_position]; lia].
  write_step instructions_section_accepted; [| cbn [f_position]; lia].
  write_step data_section_accepted; [| cbn [f_position]; lia].
  write_step instructions_section_accepted; [| cbn [f_position]; lia].
  unfold ret. eexists. split; [reflexivity |].
  now rewrite !faults_stored.
Qed.

Lemma header_write_failure_ignored_witness :
  exists w',
    WriteAppSnapshot Samples.jit Samples.headers "app.snapshot"
      [] 0 [] 0 [xab] 1 [] 0 refusing_once
    = (Returns tt, w')
    /\ faults w' = [].
Proof.
  apply (header_write_failure_ignored Samples.jit Samples.headers "app.snapshot"
           [] [] [xab] [] refusing_once).
  - reflexivity.
  - reflexivity.
  - reflexivity.
  - exact I.
  - reflexivity.
  - cbn. lia.
Defined.

(** The file such a run leaves has no magic number and no fifth header
    word: it starts with the four sizes. *)
Lemma header_write_failure_leaves_no_magic :
  let run := WriteAppSnapshot Samples.jit Samples.headers "app.snapshot"
               [] 0 [] 0 [] 0 [] 0 refusing_once in
  fst run = Returns tt
  /\ file_bytes (fs (snd run)) "app.snapshot"
     = store_int64 0 ++ store_int64 0 ++ store_int64 0 ++ store_int64 0.
Proof. vm_compute. split; reflexivity. Qed.

(** With assertions compiled in, the same run stops at
    [ASSERT(file->Position() == kAppSnapshotHeaderSize)]. *)
Lemma header_write_failure_trips_assertion :
  fst (WriteAppSnapshot Samples.jit_debug Samples.headers "app.snapshot"
         [] 0 [] 0 [] 0 [] 0 refusing_once)
  = Aborts (AssertionFailed "file->Position() == kAppSnapshotHeaderSize").
Proof. vm_compute. reflexivity. Qed.

(** The section writes are checked: a refusal there ends the run with the
    error exit. *)
Lemma section_write_failure_is_fatal :
  fst (WriteAppSnapshot Samples.jit Samples.headers "app.snapshot"
         [] 0 [] 0 [xab] 1 [] 0
         {| fs := ∅; trace := [];
            faults := [false; false; false; false; false; true]; torn := [] |})
  = Aborts (ErrorExit kErrorExitCode "Unable to write snapshot file '%s'\n"
              "app.snapshot").
Proof. vm_compute. reflexivity. Qed.

(** ** C10: the ELF signature test *)

Lemma Z_of_byte_inj (x y : byte) : Z_of_byte x = Z_of_byte y -> x = y.
Proof.
  unfold Z_of_byte. intros H.
  assert (Hxy : Byte.to_N x = Byte.to_N y) by lia.
  pose proof (Byte.of_to_N x) as Hx. rewrite Hxy, Byte.of_to_N in Hx.
  congruence.
Qed.

(** Where the first string has no NUL among its first [n] bytes, [strncmp]
    is zero exactly when the first [n] bytes agree. *)
Lemma strncmp_zero (s1 s2 : list byte) (n : nat) :
  (n <= length s1)%nat -> (n <= length s2)%nat ->
  x00 ∉ take n s1 ->
  strncmp s1 s2 n = 0 <-> take n s1 = take n s2.
Proof.
  revert s1 s2. induction n as [| n IH]; intros s1 s2 H1 H2 Hnul.
  - cbn. split; reflexivity.
  - destruct s1 as [| c1 r1]; [cbn in H1; lia |].
    destruct s2 as [| c2 r2]; [cbn in H2; lia |].
    cbn in H1, H2. cbn [strncmp take]. cbn [take] in Hnul.
    apply not_elem_of_cons in Hnul. destruct Hnul as [Hc1 Hrest].
    destruct (bool_decide_reflect (c1 = c2)) as [<- | Hne].
    + rewrite bool_decide_eq_false_2 by congruence.
      rewrite IH by (assumption || lia).
      split; [intros -> | intros [= ->]]; reflexivity.
    + split.
      * intros Hz. exfalso. apply Hne. apply Z_of_byte_inj. lia.
      * intros [= Hc _]. contradiction.
Qed.

Lemma Open_read_eq (path : string) (w : World) :
  Open path kRead w
  = (Returns (match fs w !! path with
              | Some n =>
                  if bool_decide (n_type n = kIsFile)
                  then Some {| f_path := path; f_position := 0 |}
                  else None
              | None => None
              end),
     record_event (EvOpen path kRead) w).
Proof.
  unfold Open, bind, emit, get_fs. cbn [fs record_event].
  destruct (fs w !! path) as [n |]; [| reflexivity].
  destruct (bool_decide (n_type n = kIsFile)); reflexivity.
Qed.

Lemma Length_eq (file : File) (w : World) :
  Length file w = (Returns (Z.of_nat (length (file_bytes (fs w) (f_path file)))), w).
Proof. reflexivity. Qed.

Lemma Read_eq (file : File) (num_bytes : Z) (w : World) :
  Read file num_bytes w
  = (Returns (slice (f_position file) num_bytes (file_bytes (fs w) (f_path file)),
              advance file
                (Z.of_nat (length (slice (f_position file) num_bytes
                                     (file_bytes (fs w) (f_path file)))))),
     record_event (EvRead (f_path file) (f_position file) num_bytes) w).
Proof. reflexivity. Qed.

Lemma ReadFully_eq (file : File) (num_bytes : Z) (w : World) :
  ReadFully file num_bytes w
  = (let got := slice (f_position file) num_bytes
                  (file_bytes (fs w) (f_path file)) in
     (Returns (bool_decide (Z.of_nat (length got) = Z.max 0 num_bytes), got,
               advance file (Z.of_nat (length got))),
      record_event (EvRead (f_path file) (f_position file) num_bytes) w)).
Proof. reflexivity. Qed.

(** C10: [IsAOTSnapshot] always returns, and it returns true exactly when
    the file can be opened for reading, is at least 4 bytes long and
    starts with 0x7F 'E' 'L' 'F'. *)
Theorem IsAOTSnapshot_iff (build : Build) (snapshot_filename : string) (w : World) :
  exists result,
    fst (IsAOTSnapshot build snapshot_filename w) = Returns result
    /\ (result = true <->
        exists node,
          fs w !! snapshot_filename = Some node
          /\ n_type node = kIsFile
          /\ 4 <= Z.of_nat (length (n_bytes node))
          /\ take 4 (n_bytes node) = [x7f; x45; x4c; x46]).
Proof.
  unfold IsAOTSnapshot.
  change (strlen elf_header) with 4.
  rewrite (bind_returns _ _ _ _ _ (Open_read_eq snapshot_filename w)).
  destruct (fs w !! snapshot_filename) as [node |] eqn:Hnode.
  2: { exists false. split; [reflexivity |]. split; [discriminate |].
       intros (node & [=] & _). }
  destruct (bool_decide_reflect (n_type node = kIsFile)) as [Hfile | Hother].
  2: { exists false. split; [reflexivity |]. split; [discriminate |].
       intros (node' & [= <-] & Hfile & _). contradiction. }
  rewrite (bind_returns _ _ _ _ _ (Length_eq _ _)).
  cbn [fs record_event f_path].
  rewrite (file_bytes_lookup _ _ _ Hnode).
  destruct (Z.ltb_spec (Z.of_nat (length (n_bytes node))) 4) as [Hshort | Hlong].
  { exists false. split; [reflexivity |]. split; [discriminate |].
    intros (node' & [= <-] & _ & Hlen & _). lia. }
  rewrite (bind_returns _ _ _ _ _ (ReadFully_eq _ _ _)).
  cbn [fs record_event f_path f_position].
  rewrite (file_bytes_lookup _ _ _ Hnode).
  assert (Hgot : Z.of_nat (length (slice 0 4 (n_bytes node))) = 4).
  { apply length_slice; lia. }
  cbv zeta. rewrite Hgot. cbn [Z.max]. rewrite bool_decide_eq_true_2 by reflexivity.
  rewrite (bind_returns _ _ _ _ _ (ASSERT_holds _ _ _)).
  eexists. split; [reflexivity |].
  rewrite Z.eqb_eq.
  rewrite strncmp_zero.
  - change (take (Z.to_nat 4) elf_header) with [x7f; x45; x4c; x46].
    assert (Htake : take (Z.to_nat 4) (slice 0 4 (n_bytes node))
                    = take 4 (n_bytes node)).
    { unfold slice. cbn [Z.to_nat drop]. change (Z.to_nat 4) with 4%nat.
      now rewrite take_take. }
    rewrite Htake. split.
    + intros Heq. exists node. repeat split; try assumption. now symmetry.
    + intros (node' & [= <-] & _ & _ & Heq). now symmetry.
  - cbn. lia.
  - lia.
  - change (take (Z.to_nat 4) elf_header) with [x7f; x45; x4c; x46].
    intros Hin. repeat (apply elem_of_cons in Hin; destruct Hin as [Hin | Hin];
                        [discriminate |]).
    now apply elem_of_nil in Hin.
Qed.

(** Two runs of the test: an ELF image, a file that is too short. *)
Example IsAOTSnapshot_samples :
  fst (IsAOTSnapshot Samples.jit "app.so"
         (Samples.world_with "app.so"
            (Samples.regular [x7f; x45; x4c; x46; x02; x01; x01; x00])))
  = Returns true
  /\ fst (IsAOTSnapshot Samples.jit "app.so"
            (Samples.world_with "app.so" (Samples.regular [x7f; x45; x4c])))
     = Returns false
  /\ fst (IsAOTSnapshot Samples.jit "missing"
            (Samples.world_with "app.so" (Samples.regular [x7f; x45; x4c])))
     = Returns false.
Proof. vm_compute. repeat split. Qed.

(** ** C6: the dynamic library strategy *)

Section DynamicLibrary.

Variable host : Host.
Variable headers : Headers.

(** C6: when the library cannot be opened the strategy returns null; when
    it can, a missing isolate symbol is fatal, whichever of the two it is;
    and with both isolate symbols resolved the strategy returns a handle
    that carries the four symbols as they resolved, so that with both vm
    symbols missing the vm pointers are null and the isolate pointers are
    not. *)
Theorem dynamic_library_strategy (script_name : option string) (w : World) :
  let run := TryReadAppSnapshotDynamicLibrary host headers script_name w in
  (LoadDynamicLibrary host script_name = None -> fst run = Returns None)
  /\ (forall library,
        LoadDynamicLibrary host script_name = Some library ->
        (symbol host library (kIsolateSnapshotDataCSymbol headers) = None
         \/ symbol host library (kIsolateSnapshotInstructionsCSymbol headers)
            = None ->
         exists name,
           fst run = Aborts (FATAL1 "Failed to resolve symbol '%s'\n" name))
        /\ (forall data instructions,
              symbol host library (kIsolateSnapshotDataCSymbol headers) = Some data ->
              symbol host library (kIsolateSnapshotInstructionsCSymbol headers)
              = Some instructions ->
              exists snapshot,
                fst run = Returns (Some snapshot)
                /\ forall out,
                     SetBuffers snapshot out
                     = {| vm_data_buffer :=
                            symbol host library (kVmSnapshotDataCSymbol headers);
                          vm_instructions_buffer :=
                            symbol host library (kVmSnapshotInstructionsCSymbol headers);
                          isolate_data_buffer := Some data;
                          isolate_instructions_buffer := Some instructions |})).
Proof.
  intros run. subst run. unfold TryReadAppSnapshotDynamicLibrary, symbol.
  unfold bind at 1. unfold emit at 1.
  destruct (LoadDynamicLibrary host script_name) as [library |] eqn:Hlib.
  - split; [discriminate |]. intros library' [= <-].
    unfold bind, resolve, emit, ret. cbn.
    destruct (ResolveSymbolInDynamicLibrary host library
                (kIsolateSnapshotDataCSymbol headers)) as [data |] eqn:Hdata;
      destruct (ResolveSymbolInDynamicLibrary host library
                  (kIsolateSnapshotInstructionsCSymbol headers))
        as [instructions |] eqn:Hinstr; cbn.
    + split; [intros [H | H]; discriminate |].
      intros d i [= <-] [= <-]. eexists. split; [reflexivity |].
      intros out. reflexivity.
    + split; [intros _; eexists; reflexivity |]. intros d i _ [=].
    + split; [intros _; eexists; reflexivity |]. intros d i [=].
    + split; [intros _; eexists; reflexivity |]. intros d i [=].
  - split; [reflexivity |]. intros library [=].
Qed.

End DynamicLibrary.

Lemma dynamic_library_strategy_witness :
  exists snapshot,
    fst (TryReadAppSnapshotDynamicLibrary isolate_only_host Samples.headers
           (Some "libapp.so"%string) {| fs := ∅; trace := []; faults := []; torn := [] |})
    = Returns (Some snapshot)
    /\ forall out,
         SetBuffers snapshot out
         = {| vm_data_buffer := None; vm_instructions_buffer := None;
              isolate_data_buffer := Some [x01];
              isolate_instructions_buffer := Some [x02] |}.
Proof.
  destruct (dynamic_library_strategy isolate_only_host Samples.headers
              (Some "libapp.so"%string) {| fs := ∅; trace := []; faults := []; torn := [] |})
    as [_ H].
  destruct (H 1 eq_refl) as [_ H'].
  exact (H' [x01] [x02] eq_refl eq_refl).
Defined.

(** ** C2: the resolver *)

Lemma first_non_null_all_null (strategies : list (M (option AppSnapshot)))
    (w w' : World) :
  all_null strategies w w' -> first_non_null strategies w = (Returns None, w').
Proof.
  revert w. induction strategies as [| strategy rest IH]; intros w H.
  - cbn in H. now subst.
  - destruct H as (w1 & Hs & Hrest). cbn [first_non_null].
    rewrite (bind_returns _ _ _ _ _ Hs). now apply IH.
Qed.

Section Resolver.

Variable build : Build.
Variable host : Host.
Variable headers : Headers.

Lemma bind_ret_match (c : M (option AppSnapshot)) (w : World) :
  bind c (fun snapshot =>
            match snapshot with
            | Some snapshot => ret (Some snapshot)
            | None => ret None
            end) w
  = c w.
Proof.
  unfold bind. destruct (c w) as [[[? |] | ? |] ?]; reflexivity.
Qed.

Lemma TryReadAppSnapshot_resolves (script_uri : string)
    (force_load_elf_from_memory decode_uri : bool) (w : World) :
  TryReadAppSnapshot build host headers script_uri force_load_elf_from_memory
    decode_uri w
  = resolve_with host
      (fun name => strategies build host headers name force_load_elf_from_memory)
      script_uri decode_uri w.
Proof.
  unfold TryReadAppSnapshot, resolve_with, script_path.
  destruct (if decode_uri then UriToPath host script_uri else Some script_uri)
    as [script_name |]; [| reflexivity].
  unfold bind at 1. unfold GetType at 1. unfold bind at 1. unfold get_fs at 1.
  cbn [ret]. fold (file_type (fs w) script_name).
  destruct (bool_decide (file_type (fs w) script_name = kIsFile));
    [| reflexivity].
  cbn [negb]. unfold strategies, claimed_strategies.
  fold (resolved_name build host script_name).
  destruct (DART_PRECOMPILED_RUNTIME build), force_load_elf_from_memory;
    cbn [negb app first_non_null]; unfold bind, ret;
    repeat match goal with
           | |- context [let (_, _) := ?c ?w in _] =>
               destruct (c w) as [[[? |] | ? |] ?]
           end;
    reflexivity.
Qed.

End Resolver.

(** C2, as stated, fails: outside the precompiled runtime the resolver has
    the blob strategy only, and returns null for a library that the
    dynamic-library strategy loads. *)
Lemma resolver_claim_fails :
  ~ resolver_claim Samples.jit isolate_only_host Samples.headers "libapp.so"
      false false (Samples.world_with "libapp.so" (Samples.regular elf_bytes)).
Proof.
  unfold resolver_claim. vm_compute. discriminate.
Qed.

(** C2 (amended): the resolver returns null at once, leaving the world as
    it was, when the path cannot be decoded or is not a regular file;
    otherwise it tries the strategies its build has, in order - the blob
    container alone outside the precompiled runtime; in the precompiled
    runtime the blob container, the dynamic library unless loading from
    memory is forced, then the ELF loader at offset 0 - and returns the
    first handle that is not null: a file the blob reader accepts yields
    the blob handle and nothing else is probed, and when all of them return
    null the result is null. *)
Theorem resolver_order (build : Build) (host : Host) (headers : Headers)
    (script_uri : string) (force_load_elf_from_memory decode_uri : bool)
    (w : World) :
  let run := TryReadAppSnapshot build host headers script_uri
               force_load_elf_from_memory decode_uri w in
  (script_path host script_uri decode_uri = None -> run = (Returns None, w))
  /\ (forall script_name,
        script_path host script_uri decode_uri = Some script_name ->
        file_type (fs w) script_name <> kIsFile ->
        run = (Returns None, w))
  /\ (forall script_name,
        script_path host script_uri decode_uri = Some script_name ->
        file_type (fs w) script_name = kIsFile ->
        let tried := strategies build host headers script_name
                       force_load_elf_from_memory in
        run = first_non_null tried w
        /\ (forall snapshot w1,
              TryReadAppSnapshotBlobs build host headers script_name w
              = (Returns (Some snapshot), w1) ->
              run = (Returns (Some snapshot), w1))
        /\ (forall w', all_null tried w w' -> run = (Returns None, w'))).
Proof.
  intros run. subst run. rewrite TryReadAppSnapshot_resolves.
  unfold resolve_with. split; [| split].
  - intros ->. reflexivity.
  - intros script_name -> Htype.
    now rewrite bool_decide_eq_false_2 by assumption.
  - intros script_name -> Htype. cbv zeta.
    rewrite bool_decide_eq_true_2 by assumption. split; [reflexivity |]. split.
    + intros snapshot w1 Hblob. unfold strategies, claimed_strategies.
      destruct (DART_PRECOMPILED_RUNTIME build); cbn [app first_non_null];
        now rewrite (bind_returns _ _ _ _ _ Hblob).
    + intros w' Hnull. now apply first_non_null_all_null.
Qed.

Lemma resolver_order_witness :
  TryReadAppSnapshot Samples.aot elf_host Samples.headers "app" false false
    (Samples.world_with "app" (Samples.regular blob_with_trailer))
  = (Returns (Some (MappedAppSnapshot None None None None)),
     {| fs := {[ "app"%string := Samples.regular blob_with_trailer ]};
        trace := [EvRead "app" 0 40; EvOpen "app" kRead];
        faults := []; torn := [] |}).
Proof.
  destruct (resolver_order Samples.aot elf_host Samples.headers "app" false false
              (Samples.world_with "app" (Samples.regular blob_with_trailer)))
    as (_ & _ & H).
  destruct (H "app"%string eq_refl) as (_ & Hblob & _).
  - vm_compute. reflexivity.
  - apply Hblob. vm_compute. reflexivity.
Defined.

(** The trailer of that file is a valid one: the trailer probe, asked
    directly, loads an image from it. *)
Example trailer_probe_on_blob_with_trailer :
  fst (TryReadAppendedAppSnapshotElf Samples.aot elf_host Samples.headers "app"
         (Samples.world_with "app" (Samples.regular blob_with_trailer)))
  = Returns (Some (ElfAppSnapshot 7 None None (Some [x01]) (Some [x02]))).
Proof. vm_compute. reflexivity. Qed.

(** ** Mach-O files for the examples *)

(** ** C5: the appended trailer *)

Lemma int64_uint64 (z : Z) : int64 (uint64 z) = int64 z.
Proof. apply int64_mod. Qed.

Lemma IsMachOFormattedBinary_loads_nothing (filename : string) (w : World) :
  loads_nothing w (snd (IsMachOFormattedBinary filename w)).
Proof.
  unfold IsMachOFormattedBinary.
  apply bind_adds_only.
  { rewrite Open_read_eq. now apply adds_only_event. }
  intros [file |] w1; [| apply adds_only_refl].
  apply bind_adds_only; [apply adds_only_refl |].
  intros file_length w2. destruct (file_length <? 4); [apply adds_only_refl |].
  change (SetPosition file 0)
    with (true, {| f_path := f_path file; f_position := 0 |}).
  cbv beta iota.
  apply bind_adds_only.
  - unfold read_object. apply bind_adds_only.
    + rewrite Read_eq. now apply adds_only_event.
    + intros [got file'] w3. destruct (_ <? _); apply adds_only_refl.
  - intros [magic file'] w3. apply adds_only_refl.
Qed.

Section Trailer.

Variable build : Build.
Variable host : Host.
Variable headers : Headers.

(** The trailer probe proper, behind the Mach-O test. *)
Lemma trailer_probe_rejects (container_path : string) (w : World) :
  let bytes := file_bytes (fs w) container_path in
  magic_length (appjit_magic_number headers) = 8 ->
  length (magic_bytes (appjit_magic_number headers)) = 8%nat ->
  Z.of_nat (length bytes) < 2 ^ 62 ->
  trailer_absent headers bytes ->
  exists w',
    bind (Open container_path kRead)
      (fun file =>
         match file with
         | None => ret None
         | Some file =>
             let* file_length := Length file in
             match SetPosition file
                     (int64 (uint64 (file_length - sizeof_appended_header))) with
             | (false, _) => ret None
             | (true, file) =>
                 let* '(ok, appended_header, file) :=
                   ReadFully file sizeof_appended_header in
                 if negb ok then ret None
                 else
                   let appended_offset :=
                     LittleEndianToHost64 (header_word appended_header 0) in
                   if negb (memcmp (drop 8 appended_header)
                              (magic_bytes (appjit_magic_number headers))
                              (Z.to_nat (magic_length (appjit_magic_number headers)))
                            =? 0)
                      || (appended_offset <=? 0)
                   then ret None
                   else TryReadAppSnapshotElf build host (Some container_path)
                          appended_offset false
             end
         end) w
    = (Returns None, w')
    /\ loads_nothing w w'.
Proof.
  intros bytes Hmagic Hmlen Hlen Habsent.
  rewrite (bind_returns _ _ _ _ _ (Open_read_eq container_path w)).
  set (w1 := record_event (EvOpen container_path kRead) w).
  assert (H1 : loads_nothing w w1) by now apply adds_only_event.
  destruct (fs w !! container_path) as [node |] eqn:Hnode;
    [| now exists w1].
  destruct (bool_decide (n_type node = kIsFile)); [| now exists w1].
  rewrite (bind_returns _ _ _ _ _ (Length_eq _ _)).
  assert (Hb1 : file_bytes (fs w1) container_path = bytes) by reflexivity.
  cbn [f_path]. rewrite Hb1.
  rewrite int64_uint64.
  rewrite int64_small by (unfold sizeof_appended_header, kInt64Size; lia).
  unfold SetPosition.
  destruct (Z.ltb_spec (Z.of_nat (length bytes) - sizeof_appended_header) 0)
    as [Hshort | Hlong]; [now exists w1 |].
  rewrite (bind_returns _ _ _ _ _ (ReadFully_eq _ _ _)).
  cbn [f_path f_position]. rewrite !Hb1. fold (trailer bytes).
  set (w2 := record_event _ w1).
  assert (H2 : loads_nothing w w2).
  { eapply adds_only_trans; [exact H1 |]. now apply adds_only_event. }
  cbv zeta.
  assert (Hgot : Z.of_nat (length (trailer bytes)) = sizeof_appended_header).
  { unfold trailer. apply length_slice;
      unfold sizeof_appended_header, kInt64Size in *; lia. }
  rewrite Hgot. rewrite bool_decide_eq_true_2 by reflexivity. cbn [negb].
  rewrite Hmagic. change (Z.to_nat 8) with 8%nat.
  fold (appended_offset bytes).
  assert (Hcond : negb (memcmp (drop 8 (trailer bytes))
                          (magic_bytes (appjit_magic_number headers)) 8 =? 0)
                  || (appended_offset bytes <=? 0) = true).
  { destruct Habsent as [Hdiff | Hzero].
    - apply orb_true_iff. left. apply negb_true_iff, Z.eqb_neq.
      intros Hz. apply Hdiff.
      assert (Hd : length (drop 8 (trailer bytes)) = 8%nat).
      { rewrite length_drop.
        unfold sizeof_appended_header, kInt64Size in Hgot. lia. }
      apply memcmp_zero in Hz; [| lia | lia].
      now rewrite !firstn_all2 in Hz by lia.
    - apply orb_true_iff. right. now apply Z.leb_le. }
  rewrite Hcond. now exists w2.
Qed.

(** C5 (amended): unless the build targets macOS and the file starts with
    a Mach-O magic number - the section search decides then, and the
    trailer is not looked at - the probe returns null without calling the
    ELF loader whenever the last 8 bytes differ from the magic number or
    the offset word, the unsigned 64-bit value the code compares, is not
    strictly positive, that is 0. *)
Theorem trailer_absent_no_image (container_path : string) (w : World) :
  let bytes := file_bytes (fs w) container_path in
  let run := TryReadAppendedAppSnapshotElf build host headers container_path w in
  DART_TARGET_OS_MACOS build = false
  \/ fst (IsMachOFormattedBinary container_path w) = Returns false ->
  magic_length (appjit_magic_number headers) = 8 ->
  length (magic_bytes (appjit_magic_number headers)) = 8%nat ->
  Z.of_nat (length bytes) < 2 ^ 62 ->
  trailer_absent headers bytes ->
  fst run = Returns None /\ loads_nothing w (snd run).
Proof.
  intros bytes run Hgate Hmagic Hmlen Hlen Habsent. subst run.
  unfold TryReadAppendedAppSnapshotElf.
  assert (Hfirst : exists w0,
             (if DART_TARGET_OS_MACOS build
              then IsMachOFormattedBinary container_path
              else ret false) w = (Returns false, w0)
             /\ loads_nothing w w0).
  { destruct (DART_TARGET_OS_MACOS build) eqn:Hmac.
    - destruct Hgate as [[=] | Hno].
      pose proof (IsMachOFormattedBinary_loads_nothing container_path w) as Hq.
      destruct (IsMachOFormattedBinary container_path w) as [r w0].
      cbn in Hno, Hq. subst r. now exists w0.
    - exists w. split; [reflexivity | apply adds_only_refl]. }
  destruct Hfirst as (w0 & Hrun0 & Hq0).
  rewrite (bind_returns _ _ _ _ _ Hrun0). cbv beta iota.
  assert (Hfs : fs w0 = fs w) by apply Hq0.
  destruct (trailer_probe_rejects container_path w0) as (w' & Hrun & Hq);
    try assumption.
  - rewrite Hfs. exact Hlen.
  - rewrite Hfs. exact Habsent.
  - match goal with
    | |- fst ?run = _ /\ _ =>
        replace run with (Returns (@None AppSnapshot), w')
          by (symmetry; exact Hrun)
    end.
    cbn [fst snd]. split; [reflexivity |].
    eapply adds_only_trans; eassumption.
Qed.

End Trailer.

(** C5, as stated, fails on a macOS build: a Mach-O file that embeds the
    snapshot section is loaded although its last 16 bytes are no trailer. *)
Lemma trailer_claim_fails :
  ~ trailer_claim Samples.aot_macos elf_host Samples.headers "app"
      (Samples.world_with "app"
         (Samples.regular
            (MachOFile.with_snapshot mach_o.MH_MAGIC_64 mach_o.LC_SEGMENT_64))).
Proof.
  unfold trailer_claim. intros H.
  assert (Hrun : fst (TryReadAppendedAppSnapshotElf Samples.aot_macos elf_host
                        Samples.headers "app"
                        (Samples.world_with "app"
                           (Samples.regular
                              (MachOFile.with_snapshot mach_o.MH_MAGIC_64
                                 mach_o.LC_SEGMENT_64))))
                 = Returns (Some (ElfAppSnapshot 7 None None (Some [x01])
                                    (Some [x02])))).
  { vm_compute. reflexivity. }
  rewrite H in Hrun; [discriminate |].
  left. vm_compute. discriminate.
Qed.

Lemma trailer_absent_no_image_witness :
  fst (TryReadAppendedAppSnapshotElf Samples.aot elf_host Samples.headers "app"
         (Samples.world_with "app" (Samples.regular zero_offset_trailer)))
  = Returns None.
Proof.
  apply (trailer_absent_no_image Samples.aot elf_host Samples.headers "app"
           (Samples.world_with "app" (Samples.regular zero_offset_trailer))).
  - left. reflexivity.
  - reflexivity.
  - reflexivity.
  - vm_compute. reflexivity.
  - right. vm_compute. discriminate.
Defined.

(** The offset is compared as a [uint64_t]: an offset word that is negative
    when read as [int64_t] passes the test, and the loader is called. *)
Example negative_offset_word_reaches_the_loader :
  trace (snd (TryReadAppendedAppSnapshotElf Samples.aot Samples.host
                Samples.headers "app"
                (Samples.world_with "app"
                   (Samples.regular
                      (elf_bytes ++ store_int64 (-1) ++ magic_bytes Samples.magic)))))
  = [EvPrintErr "Loading failed: not an ELF image\n";
     EvLoadELF "app" (2 ^ 64 - 1);
     EvRead "app" 8 16; EvOpen "app" kRead].
Proof. vm_compute. reflexivity. Qed.

(** ** C7: the Mach-O section search *)


Lemma slice_middle (pre obj post : list byte) :
  slice (Z.of_nat (length pre)) (Z.of_nat (length obj)) (pre ++ obj ++ post) = obj.
Proof.
  unfold slice. rewrite !Nat2Z.id.
  rewrite drop_app_length. apply take_app_length.
Qed.

Lemma read_object_at (file : File) (size : Z) (pre obj post : list byte)
    (w : World) :
  file_bytes (fs w) (f_path file) = pre ++ obj ++ post ->
  f_position file = Z.of_nat (length pre) ->
  size = Z.of_nat (length obj) ->
  read_object file size w
  = (Returns (obj, advance file size),
     record_event (EvRead (f_path file) (f_position file) size) w).
Proof.
  intros Hbytes Hpos ->. unfold read_object.
  rewrite (bind_returns _ _ _ _ _ (Read_eq _ _ _)).
  rewrite Hbytes, Hpos, slice_middle. rewrite Z.ltb_irrefl. reflexivity.
Qed.

Lemma SetPosition_ok (file : File) (position : Z) :
  0 <= position ->
  SetPosition file position
  = (true, {| f_path := f_path file; f_position := position |}).
Proof.
  intros H. unfold SetPosition.
  destruct (Z.ltb_spec position 0); [lia | reflexivity].
Qed.

Section MachO.

Variable host : Host.





End MachO.

Lemma read_magic (file : File) (bytes : list byte) (w : World) :
  file_bytes (fs w) (f_path file) = bytes ->
  f_position file = 0 ->
  (4 <= length bytes)%nat ->
  read_object file 4 w
  = (Returns (take 4 bytes, advance file 4),
     record_event (EvRead (f_path file) 0 4) w).
Proof.
  intros Hbytes Hpos Hlen.
  rewrite (read_object_at file 4 [] (take 4 bytes) (drop 4 bytes) w).
  - now rewrite Hpos.
  - cbn [app]. now rewrite take_drop.
  - assumption.
  - rewrite length_take. lia.
Qed.

Lemma load_uint32_take (bytes : list byte) :
  load_uint32 (take 4 bytes) = load_uint32 bytes.
Proof. unfold load_uint32. now rewrite take_take. Qed.

Lemma IsMachOFormattedBinary_eq (filename : string) (bytes : list byte) (w : World) :
  fs w !! filename = Some {| n_type := kIsFile; n_bytes := bytes |} ->
  (4 <= length bytes)%nat ->
  IsMachOFormattedBinary filename w
  = (Returns (is_mach_o_magic (load_uint32 bytes)),
     record_event (EvRead filename 0 4) (record_event (EvOpen filename kRead) w)).
Proof.
  intros Hnode Hlen. unfold IsMachOFormattedBinary.
  rewrite (bind_returns _ _ _ _ _ (Open_for_reading filename bytes w Hnode)).
  rewrite (bind_returns _ _ _ _ _ (Length_eq _ _)).
  cbn [f_path fs record_event]. rewrite (file_bytes_lookup _ _ _ Hnode).
  cbn [n_bytes].
  destruct (Z.ltb_spec (Z.of_nat (length bytes)) 4); [lia |].
  rewrite SetPosition_ok by lia. cbn [f_path].
  erewrite bind_returns; cycle 1.
  { apply (read_magic _ bytes); [| reflexivity | assumption].
    cbn [f_path fs record_event]. now rewrite (file_bytes_lookup _ _ _ Hnode). }
  cbv beta iota. rewrite load_uint32_take. reflexivity.
Qed.

Section MachOProbe.

Variable host : Host.

Lemma macho_probe_after_magic (container_path : string) (bytes : list byte)
    (w : World) :
  fs w !! container_path = Some {| n_type := kIsFile; n_bytes := bytes |} ->
  (4 <= length bytes)%nat ->
  is_mach_o_magic (load_uint32 bytes) = true ->
  let magic := load_uint32 bytes in
  let w4 := record_event (EvRead container_path 0 4)
              (record_event (EvRead container_path 0 4)
                 (record_event (EvOpen container_path kRead)
                    (record_event (EvOpen container_path kRead) w))) in
  TryReadAppendedAppSnapshotElfFromMachO host container_path w
  = (if (magic =? mach_o.MH_CIGAM) || (magic =? mach_o.MH_CIGAM_64) then
       PrintErr "Dart snapshot contained an unexpected binary file layout. Expected non-byte swapped header but found a byte-swapped header.\n" ;;;
       ret None
     else if negb ((magic =? mach_o.MH_MAGIC_64) || (magic =? mach_o.MH_CIGAM_64))
     then
       PrintErr "Dart snapshot compiled with 32bit architecture. Currently only 64bit architectures are supported.\n" ;;;
       ret None
     else
       let* '(header, file) :=
         read_object {| f_path := container_path; f_position := 0 |}
           mach_o.sizeof_mach_header_64 in
       scan_commands host (Z.to_nat (mach_o.ncmds header)) file) w4.
Proof.
  intros Hnode Hlen Hmacho magic w4.
  unfold TryReadAppendedAppSnapshotElfFromMachO.
  rewrite (bind_returns _ _ _ _ _ (Open_for_reading container_path bytes w Hnode)).
  erewrite bind_returns; cycle 1.
  { apply (IsMachOFormattedBinary_eq container_path bytes); [| assumption].
    exact Hnode. }
  rewrite Hmacho. cbn [negb].
  rewrite SetPosition_ok by lia. cbn [f_path].
  erewrite bind_returns; cycle 1.
  { apply (read_magic _ bytes); [| reflexivity | assumption].
    cbn [f_path fs record_event]. now rewrite (file_bytes_lookup _ _ _ Hnode). }
  cbv beta iota. rewrite load_uint32_take. fold magic. cbn [f_path]. fold w4.
  destruct ((magic =? mach_o.MH_CIGAM) || (magic =? mach_o.MH_CIGAM_64));
    [reflexivity |].
  rewrite SetPosition_ok by lia. cbn [f_path advance].
  destruct (negb _); reflexivity.
Qed.


End MachOProbe.





(** A section that declares more bytes than the file holds behind its
    offset: the array is read short, and nothing is claimed of what the
    loader makes of its tail.  A section whose array the allocator refuses
    ends the run. *)
Example section_outside_the_file :
  fst (TryReadAppendedAppSnapshotElfFromMachO elf_host "app"
         (Samples.world_with "app"
            (Samples.regular (MachOFile.with_section 100 208))))
  = Undefined
  /\ fst (TryReadAppendedAppSnapshotElfFromMachO Samples.small_host "app"
            (Samples.world_with "app"
               (Samples.regular (MachOFile.with_section (2 ^ 63) 208))))
     = Aborts BadAlloc.
Proof. vm_compute. split; reflexivity. Qed.

(** A byte-swapped header in front of the same commands: rejected after
    the magic number, although the named section is there. *)
Example byte_swapped_header_rejected :
  TryReadAppendedAppSnapshotElfFromMachO elf_host "app"
    (Samples.world_with "app"
       (Samples.regular
          (MachOFile.with_snapshot mach_o.MH_CIGAM_64 mach_o.LC_SEGMENT_64)))
  = (Returns None,
     rejected "app"
       "Dart snapshot contained an unexpected binary file layout. Expected non-byte swapped header but found a byte-swapped header.\n"
       (Samples.world_with "app"
          (Samples.regular
             (MachOFile.with_snapshot mach_o.MH_CIGAM_64 mach_o.LC_SEGMENT_64)))).
Proof. vm_compute. reflexivity. Qed.

(** * Further properties of the code *)

(** ** Reading never writes *)

Lemma observes_refl (w : World) : observes w w.
Proof. repeat split. now exists []. Qed.

Lemma observes_trans (w1 w2 w3 : World) :
  observes w1 w2 -> observes w2 w3 -> observes w1 w3.
Proof.
  intros (Hfs1 & Hf1 & Hn1 & ev1 & Ht1) (Hfs2 & Hf2 & Hn2 & ev2 & Ht2).
  split; [congruence |]. split; [congruence |]. split; [congruence |].
  exists (ev2 ++ ev1). rewrite Ht2, Ht1. now rewrite app_assoc.
Qed.

Lemma observes_event (e : Event) (w : World) : observes w (record_event e w).
Proof. repeat split. now exists [e]. Qed.

Lemma bind_observes {A B} (c : M A) (k : A -> M B) (w : World) :
  observes w (snd (c w)) ->
  (forall a w1, observes w1 (snd (k a w1))) ->
  observes w (snd (bind c k w)).
Proof.
  intros Hc Hk. unfold bind. destruct (c w) as [[a | d |] w1]; cbn in *.
  - eapply observes_trans; [exact Hc | apply Hk].
  - exact Hc.
  - exact Hc.
Qed.

Ltac observe :=
  repeat first
    [ progress cbv beta iota
    | apply observes_refl
    | apply observes_event
    | apply bind_observes; [| intros ? ?]
    | match goal with
      | |- observes _ (snd ((match ?x with _ => _ end) _)) => destruct x
      end ].

Lemma Open_read_observes (name : string) (w : World) :
  observes w (snd (Open name kRead w)).
Proof. rewrite Open_read_eq. apply observes_event. Qed.

Lemma map_section_observes (host : Host) (script_name : string) (file : File)
    (type : MapType) (position size : Z) (w : World) :
  observes w (snd (map_section host script_name file type position size w)).
Proof.
  unfold map_section, Map, emit, get_fs, ret, abort. observe.
Qed.

Lemma TryReadAppSnapshotBlobs_observes (build : Build) (host : Host)
    (headers : Headers) (script_name : string) (w : World) :
  observes w (snd (TryReadAppSnapshotBlobs build host headers script_name w)).
Proof.
  unfold TryReadAppSnapshotBlobs.
  apply bind_observes; [apply Open_read_observes |].
  intros [file |] w1; [| apply observes_refl].
  unfold TryReadAppSnapshotBlobs_file, Length, ReadFully, Read, ASSERT, emit,
    get_fs, ret, abort.
  repeat first
    [ apply map_section_observes
    | progress cbv beta iota
    | apply observes_refl
    | apply observes_event
    | apply bind_observes; [| intros ? ?]
    | match goal with
      | |- observes _ (snd ((match ?x with _ => _ end) _)) => destruct x
      end ].
Qed.

Lemma TryReadAppSnapshotDynamicLibrary_observes (host : Host) (headers : Headers)
    (script_name : option string) (w : World) :
  observes w (snd (TryReadAppSnapshotDynamicLibrary host headers script_name w)).
Proof.
  unfold TryReadAppSnapshotDynamicLibrary, resolve, emit, ret, abort. observe.
Qed.

Lemma TryReadAppSnapshotElf_observes (build : Build) (host : Host)
    (script_name : option string) (file_offset : Z) (force : bool) (w : World) :
  observes w (snd (TryReadAppSnapshotElf build host script_name file_offset
                     force w)).
Proof.
  unfold TryReadAppSnapshotElf.
  destruct script_name as [script_name |]; [| apply observes_refl].
  apply bind_observes.
  - destruct (DART_HOST_OS_FUCHSIA build || force).
    + apply bind_observes; [apply Open_read_observes |].
      intros [file |] w1; [| apply observes_refl].
      unfold Length, Map, emit, get_fs, ret. observe.
    + unfold emit, ret. observe.
  - intros loaded w1. unfold PrintErr, emit, ret. observe.
Qed.

(** X1: The resolver never writes: whatever the build, the host and the
    path, a run of [TryReadAppSnapshot] leaves the file system and the
    pending write fates as they were and only adds events to the trace. *)
Theorem TryReadAppSnapshot_observes (build : Build) (host : Host)
    (headers : Headers) (script_uri : string) (force decode_uri : bool)
    (w : World) :
  observes w (snd (TryReadAppSnapshot build host headers script_uri force
                     decode_uri w)).
Proof.
  unfold TryReadAppSnapshot.
  destruct (if decode_uri then UriToPath host script_uri else Some script_uri)
    as [script_name |]; [| apply observes_refl].
  apply bind_observes; [unfold GetType, get_fs, ret; observe |].
  intros type w1. destruct (negb _); [apply observes_refl |].
  apply bind_observes; [apply TryReadAppSnapshotBlobs_observes |].
  intros [snapshot |] w2; [apply observes_refl |].
  destruct (DART_PRECOMPILED_RUNTIME build); [| apply observes_refl].
  cbv zeta.
  apply bind_observes.
  - destruct (negb force); [apply TryReadAppSnapshotDynamicLibrary_observes
                           | apply observes_refl].
  - intros [snapshot |] w3; [apply observes_refl |].
    apply TryReadAppSnapshotElf_observes.
Qed.

(** ** The Mach-O format test *)

Lemma byte_of_Z_of_byte (b : byte) (rest : Z) :
  byte_of_Z (Z_of_byte b + 256 * rest) = b.
Proof.
  unfold byte_of_Z. pose proof (Z_of_byte_range b) as Hb.
  replace ((Z_of_byte b + 256 * rest) mod 256) with (Z_of_byte b).
  - unfold Z_of_byte. rewrite N2Z.id. now rewrite Byte.of_to_N.
  - rewrite (Z.mul_comm 256), Z.mod_add by lia.
    now rewrite Z.mod_small by lia.
Qed.

Lemma le_encode_decode (bs : list byte) : le_encode (length bs) (le_decode bs) = bs.
Proof.
  induction bs as [| b bs IH]; [reflexivity |].
  cbn [length le_decode le_encode]. rewrite byte_of_Z_of_byte. f_equal.
  pose proof (Z_of_byte_range b).
  replace ((Z_of_byte b + 256 * le_decode bs) / 256) with (le_decode bs);
    [exact IH |].
  rewrite (Z.mul_comm 256), Z.div_add by lia.
  rewrite (Z.div_small (Z_of_byte b)) by lia. lia.
Qed.

(** The four bytes that hold a given [uint32_t]. *)
Lemma load_uint32_is (bytes : list byte) (value : Z) :
  (4 <= length bytes)%nat ->
  load_uint32 bytes = value -> take 4 bytes = le_encode 4 value.
Proof.
  intros Hlen <-. unfold load_uint32.
  rewrite <- (le_encode_decode (take 4 bytes)) at 1.
  rewrite length_take. now replace (4 `min` length bytes)%nat with 4%nat by lia.
Qed.

Lemma is_mach_o_magic_signature (bytes : list byte) :
  (4 <= length bytes)%nat ->
  is_mach_o_magic (load_uint32 bytes) = true <-> take 4 bytes ∈ mach_o_signatures.
Proof.
  intros Hlen. unfold is_mach_o_magic, mach_o_signatures.
  rewrite !orb_true_iff, !Z.eqb_eq, !elem_of_cons, elem_of_nil. split.
  - intros [[[H | H] | H] | H]; apply (load_uint32_is _ _ Hlen) in H;
      rewrite H; vm_compute; tauto.
  - assert (Hval : forall signature,
               take 4 bytes = signature ->
               load_uint32 bytes = le_decode signature).
    { intros signature <-. reflexivity. }
    intros [H | [H | [H | [H | []]]]]; apply Hval in H; rewrite H;
      vm_compute; tauto.
Qed.

(** X2: [IsMachOFormattedBinary] always returns, and it returns true exactly
    when the file can be opened for reading, has at least four bytes, and
    starts with one of the four Mach-O magic numbers as they lie in the
    file. *)
Theorem IsMachOFormattedBinary_iff (filename : string) (w : World) :
  exists result,
    fst (IsMachOFormattedBinary filename w) = Returns result
    /\ (result = true <->
        exists node,
          fs w !! filename = Some node
          /\ n_type node = kIsFile
          /\ (4 <= length (n_bytes node))%nat
          /\ take 4 (n_bytes node) ∈ mach_o_signatures).
Proof.
  unfold IsMachOFormattedBinary.
  rewrite (bind_returns _ _ _ _ _ (Open_read_eq filename w)).
  destruct (fs w !! filename) as [node |] eqn:Hnode.
  2: { exists false. split; [reflexivity |]. split; [discriminate |].
       intros (node & [=] & _). }
  destruct (bool_decide_reflect (n_type node = kIsFile)) as [Hfile | Hother].
  2: { exists false. split; [reflexivity |]. split; [discriminate |].
       intros (node' & [= <-] & Hfile & _). contradiction. }
  rewrite (bind_returns _ _ _ _ _ (Length_eq _ _)).
  cbn [fs record_event f_path]. rewrite (file_bytes_lookup _ _ _ Hnode).
  destruct (Z.ltb_spec (Z.of_nat (length (n_bytes node))) 4) as [Hshort | Hlong].
  { exists false. split; [reflexivity |]. split; [discriminate |].
    intros (node' & [= <-] & _ & Hlen & _). lia. }
  rewrite SetPosition_ok by lia. cbn [f_path].
  erewrite bind_returns; cycle 1.
  { apply (read_magic _ (n_bytes node)); [| reflexivity | lia].
    cbn [f_path fs record_event]. now rewrite (file_bytes_lookup _ _ _ Hnode). }
  cbv beta iota. rewrite load_uint32_take.
  eexists. split; [reflexivity |].
  fold (is_mach_o_magic (load_uint32 (n_bytes node))).
  rewrite is_mach_o_magic_signature by lia. split.
  - intros Hsig. exists node. repeat split; try assumption. lia.
  - intros (node' & [= <-] & _ & _ & Hsig). exact Hsig.
Qed.

(** ** The ELF loader strategy *)

Lemma TryReadAppSnapshotElf_direct_run (build : Build) (host : Host)
    (script_name : string) (file_offset : Z) (w : World) :
  DART_HOST_OS_FUCHSIA build = false ->
  let answer := Dart_LoadELF host script_name file_offset in
  TryReadAppSnapshotElf build host (Some script_name) file_offset false w
  = (Returns (loader_result answer),
     {| fs := fs w;
        trace := loader_events (EvLoadELF script_name file_offset) answer
                   ++ trace w;
        faults := faults w; torn := torn w |}).
Proof.
  intros Hfuchsia answer. subst answer.
  unfold TryReadAppSnapshotElf. rewrite Hfuchsia. cbn [orb].
  unfold bind, emit, PrintErr, ret. cbn.
  destruct (Dart_LoadELF host script_name file_offset); reflexivity.
Qed.

(** X3: On a build that is neither for macOS nor for Fuchsia, a regular
    container of at least 16 bytes whose last 8 bytes are the magic number
    and whose offset word before them is not zero is handed to the ELF
    loader by its path, with that offset: the probe returns what the loader
    gives (null, with the message printed, when the loader fails), and all
    it reads of the container are the 16 bytes of the trailer. *)
Theorem TryReadAppendedAppSnapshotElf_delegates (build : Build) (host : Host)
    (headers : Headers) (container_path : string) (node : Node) (w : World) :
  DART_TARGET_OS_MACOS build = false ->
  DART_HOST_OS_FUCHSIA build = false ->
  magic_length (appjit_magic_number headers) = 8 ->
  length (magic_bytes (appjit_magic_number headers)) = 8%nat ->
  fs w !! container_path = Some node ->
  n_type node = kIsFile ->
  let bytes := n_bytes node in
  let file_length := Z.of_nat (length bytes) in
  sizeof_appended_header <= file_length < 2 ^ 62 ->
  drop 8 (trailer bytes) = magic_bytes (appjit_magic_number headers) ->
  appended_offset bytes <> 0 ->
  let run := TryReadAppendedAppSnapshotElf build host headers container_path w in
  let answer := Dart_LoadELF host container_path (appended_offset bytes) in
  fst run = Returns (loader_result answer)
  /\ trace (snd run)
     = loader_events (EvLoadELF container_path (appended_offset bytes)) answer
         ++ [EvRead container_path (file_length - sizeof_appended_header)
               sizeof_appended_header;
             EvOpen container_path kRead] ++ trace w.
Proof.
  intros Hmac Hfuchsia Hmagic Hmlen Hnode Hfile bytes file_length Hlen Htrailer
    Hoffset run answer.
  assert (Hrun : run
    = (Returns (loader_result answer),
       {| fs := fs w;
          trace := loader_events
                     (EvLoadELF container_path (appended_offset bytes)) answer
                     ++ [EvRead container_path
                           (file_length - sizeof_appended_header)
                           sizeof_appended_header;
                         EvOpen container_path kRead] ++ trace w;
          faults := faults w; torn := torn w |})); [| now rewrite Hrun].
  subst run answer. unfold TryReadAppendedAppSnapshotElf. rewrite Hmac.
  unfold bind at 1. unfold ret at 1.
  rewrite (bind_returns _ _ _ _ _ (Open_read_eq container_path w)).
  rewrite Hnode, bool_decide_eq_true_2 by exact Hfile.
  rewrite (bind_returns _ _ _ _ _ (Length_eq _ _)).
  cbn [f_path fs record_event]. unfold file_bytes at 1. rewrite Hnode.
  fold bytes. fold file_length.
  rewrite int64_uint64.
  rewrite int64_small by (unfold sizeof_appended_header, kInt64Size in *; lia).
  unfold SetPosition.
  destruct (Z.ltb_spec (file_length - sizeof_appended_header) 0) as [Hshort | _];
    [lia |].
  rewrite (bind_returns _ _ _ _ _ (ReadFully_eq _ _ _)).
  cbn [f_path f_position fs record_event]. unfold file_bytes. rewrite Hnode.
  fold bytes. subst file_length. fold (trailer bytes).
  cbv zeta.
  assert (Hgot : Z.of_nat (length (trailer bytes)) = sizeof_appended_header).
  { unfold trailer. apply length_slice;
      unfold sizeof_appended_header, kInt64Size in *; lia. }
  rewrite Hgot. rewrite bool_decide_eq_true_2 by reflexivity. cbn [negb].
  rewrite Hmagic. change (Z.to_nat 8) with 8%nat.
  fold (appended_offset bytes).
  rewrite Htrailer.
  pose proof (memcmp_refl (magic_bytes (appjit_magic_number headers)) [] 8 Hmlen)
    as Hcmp.
  rewrite app_nil_r in Hcmp. rewrite Hcmp. cbn [Z.eqb negb orb].
  assert (Hpos : (appended_offset bytes <=? 0) = false).
  { apply Z.leb_gt. unfold appended_offset, LittleEndianToHost64 in *.
    unfold uint64 in *.
    pose proof (Z.mod_pos_bound (header_word (trailer bytes) 0) (2 ^ 64)). lia. }
  rewrite Hpos.
  rewrite TryReadAppSnapshotElf_direct_run by exact Hfuchsia.
  cbn [fs trace faults record_event]. reflexivity.
Qed.

Lemma TryReadAppendedAppSnapshotElf_delegates_witness :
  let run := TryReadAppendedAppSnapshotElf Samples.aot Samples.host
               Samples.headers "app"
               (Samples.world_with "app" (Samples.regular blob_with_trailer)) in
  fst run = Returns None
  /\ trace (snd run)
     = [EvPrintErr "Loading failed: not an ELF image\n"; EvLoadELF "app" 16;
        EvRead "app" 40 16; EvOpen "app" kRead].
Proof.
  apply (TryReadAppendedAppSnapshotElf_delegates Samples.aot Samples.host
           Samples.headers "app" (Samples.regular blob_with_trailer)
           (Samples.world_with "app" (Samples.regular blob_with_trailer)));
    try reflexivity.
  - vm_compute. split; [intros [=] | reflexivity].
  - vm_compute. intros [=].
Defined.

(** X4: With loading from memory (forced, or on Fuchsia) a file that cannot
    be opened or mapped is a soft miss: the strategy returns null and the
    loader is not called. When the file is mapped and [file_offset] does
    not exceed its length, the loader is handed the bytes from
    [file_offset] to the end of the file, and as their length the length of
    the whole file; its image becomes the handle, and its error is printed,
    with a newline, before null is returned. *)
Theorem TryReadAppSnapshotElf_from_memory (build : Build) (host : Host)
    (script_name : string) (file_offset : Z) (force : bool) (w : World) :
  DART_HOST_OS_FUCHSIA build || force = true ->
  let run := TryReadAppSnapshotElf build host (Some script_name) file_offset
               force w in
  let bytes := file_bytes (fs w) script_name in
  let file_length := Z.of_nat (length bytes) in
  (file_type (fs w) script_name <> kIsFile
   \/ MapGranted host kReadOnly 0 file_length = false ->
   fst run = Returns None /\ loads_nothing w (snd run))
  /\ (file_type (fs w) script_name = kIsFile ->
      MapGranted host kReadOnly 0 file_length = true ->
      0 <= file_offset <= file_length ->
      let snapshot := drop (Z.to_nat file_offset) bytes in
      let answer := Dart_LoadELF_Memory host snapshot file_length in
      fst run = Returns (loader_result answer)
      /\ trace (snd run)
         = loader_events (EvLoadELF_Memory snapshot file_length) answer
             ++ [EvMap script_name kReadOnly 0 file_length;
                 EvOpen script_name kRead] ++ trace w).
Proof.
  intros Hmode run bytes file_length. subst run bytes file_length.
  unfold TryReadAppSnapshotElf. rewrite Hmode.
  unfold file_type, loads_nothing.
  unfold bind. rewrite Open_read_eq.
  unfold file_bytes.
  destruct (fs w !! script_name) as [node |] eqn:Hnode.
  - destruct (bool_decide_reflect (n_type node = kIsFile)) as [Hfile | Hother].
    + unfold Length, Map, bind, emit, get_fs, PrintErr, ret.
      cbn [fs record_event f_path f_position fst snd].
      unfold file_bytes. rewrite Hnode.
      destruct (MapGranted host kReadOnly 0 (Z.of_nat (length (n_bytes node))))
        eqn:Hmap.
      * split; [intros [H | H]; [contradiction | discriminate] |].
        intros _ _ Hoffset. cbv zeta.
        destruct (Z.ltb_spec file_offset 0); [lia |].
        destruct (Z.ltb_spec (Z.of_nat (length (n_bytes node))) file_offset);
          [lia |].
        cbn [orb address].
        rewrite mapping_bytes_present
          by (unfold slice; rewrite Nat2Z.id, firstn_all; cbn [Z.to_nat drop];
              reflexivity).
        unfold slice. cbn [Z.to_nat drop]. rewrite Nat2Z.id, firstn_all.
        destruct (Dart_LoadELF_Memory host _ _); cbn; split; reflexivity.
      * split; [| intros _ [=]]. intros _. cbn. split; [reflexivity |].
        eapply adds_only_trans; apply adds_only_event; exact I.
    + cbn. split; [| intros Hfile; contradiction].
      intros _. split; [reflexivity |]. apply adds_only_event. exact I.
  - cbn. split; [| intros [=]].
    intros _. split; [reflexivity |]. apply adds_only_event. exact I.
Qed.

Lemma TryReadAppSnapshotElf_from_memory_witness :
  trace (snd (TryReadAppSnapshotElf Samples.aot Samples.host
                (Some "app"%string) 4 true
                (Samples.world_with "app" (Samples.regular elf_bytes))))
  = [EvPrintErr "Loading failed: not an ELF image\n";
     EvLoadELF_Memory [x02; x01; x01; x00] 8;
     EvMap "app" kReadOnly 0 8; EvOpen "app" kRead].
Proof.
  destruct (TryReadAppSnapshotElf_from_memory Samples.aot Samples.host "app" 4
              true (Samples.world_with "app" (Samples.regular elf_bytes))
              eq_refl)
    as [_ H].
  apply H; [reflexivity | reflexivity | vm_compute; split; discriminate].
Defined.

(** ** The outcome of the writer *)

Lemma Open_refused (path : string) (w : World) :
  ~ writable (fs w) path ->
  Open path kWriteTruncate w
  = (Returns None, record_event (EvOpen path kWriteTruncate) w).
Proof.
  intros H. unfold writable in H. unfold Open, bind, emit, get_fs. cbn.
  destruct (fs w !! path) as [n |]; [| now destruct H].
  now rewrite bool_decide_eq_false_2.
Qed.

(** One write of at least one byte meets the next fate, whatever the world
    is: refused, it leaves the cursor behind what the device had taken. *)
Lemma WriteFully_fate (file : File) (buffer : list byte) (n : Z) (w : World) :
  0 < n <= Z.of_nat (length buffer) ->
  WriteFully file buffer n w
  = (Returns (negb (hd false (faults w)),
              advance file (if hd false (faults w) then taken n w else n)),
     snd (WriteFully file buffer n w))
  /\ faults (snd (WriteFully file buffer n w)) = tl (faults w).
Proof.
  intros Hn. unfold WriteFully.
  destruct (Z.leb_spec n 0); [lia |].
  destruct (Z.ltb_spec (Z.of_nat (length buffer)) n); [lia |].
  unfold bind, next_fault, next_torn, get_fs, put_node, ret, taken.
  destruct (faults w) as [| [] rest] eqn:Hfaults; cbn [fst snd hd tl negb];
    rewrite ?Hfaults; cbn [fs trace faults torn];
    try destruct (0 <? _); split; reflexivity.
Qed.

Lemma WriteInt64_fate (file : File) (size : Z) (w : World) :
  WriteInt64 file size w
  = (Returns (negb (hd false (faults w)),
              advance file (if hd false (faults w) then taken 8 w else 8)),
     snd (WriteInt64 file size w))
  /\ faults (snd (WriteInt64 file size w)) = tl (faults w).
Proof.
  unfold WriteInt64. apply WriteFully_fate.
  unfold store_int64. rewrite length_le_encode. unfold kInt64Size. lia.
Qed.

(** A checked section write: an empty section passes without a word to the
    device, any other one ends the run when its write is refused. *)
Lemma write_section_fate (filename : string) (file : File)
    (buffer : list byte) (w : World) :
  let refused := match buffer with
                 | [] => false
                 | _ :: _ => hd false (faults w)
                 end in
  let run := write_section filename file buffer (Z.of_nat (length buffer)) w in
  run = ((if refused
          then Aborts (ErrorExit kErrorExitCode
                         "Unable to write snapshot file '%s'\n" filename)
          else Returns (advance file (Z.of_nat (length buffer)))),
         snd run)
  /\ faults (snd run) = match buffer with
                        | [] => faults w
                        | _ :: _ => tl (faults w)
                        end.
Proof.
  intros refused run. subst refused run. unfold write_section.
  destruct buffer as [| b buffer].
  - unfold WriteFully, bind, ret, advance. cbn.
    rewrite Z.add_0_r. destruct file. split; reflexivity.
  - destruct (WriteFully_fate file (b :: buffer)
                (Z.of_nat (length (b :: buffer))) w) as [Hrun Hfaults].
    { cbn [length]. lia. }
    set (size := Z.of_nat (length (b :: buffer))) in *.
    assert (E : write_section filename file (b :: buffer) size w
                = ((if hd false (faults w)
                    then Aborts (ErrorExit kErrorExitCode
                                   "Unable to write snapshot file '%s'\n" filename)
                    else Returns (advance file size)),
                   snd (WriteFully file (b :: buffer) size w))).
    { unfold write_section, bind. rewrite Hrun. cbn [snd].
      destruct (hd false (faults w)); reflexivity. }
    unfold write_section in *. rewrite E. cbn [snd].
    split; [reflexivity | exact Hfaults].
Qed.

Lemma instructions_section_fate (filename : string) (file : File)
    (buffer : list byte) (w : World) :
  let size := Z.of_nat (length buffer) in
  let refused := match buffer with
                 | [] => false
                 | _ :: _ => hd false (faults w)
                 end in
  let run := (if negb (size =? 0)
              then write_section filename (align file) buffer size
              else ret file) w in
  run = ((if refused
          then Aborts (ErrorExit kErrorExitCode
                         "Unable to write snapshot file '%s'\n" filename)
          else Returns match buffer with
                       | [] => file
                       | _ :: _ => advance (align file) size
                       end),
         snd run)
  /\ faults (snd run) = match buffer with
                        | [] => faults w
                        | _ :: _ => tl (faults w)
                        end.
Proof.
  intros size refused run. subst size refused run.
  destruct buffer as [| b buffer]; [split; reflexivity |].
  destruct (Z.eqb_spec (Z.of_nat (length (b :: buffer))) 0) as [H | _];
    [cbn [length] in H; lia |].
  cbn [negb]. apply (write_section_fate filename (align file) (b :: buffer) w).
Qed.

Lemma write_refused_cons (buffer : list byte) (rest : list (list byte))
    (fates : list bool) :
  write_refused (buffer :: rest) fates
  = match buffer with
    | [] => false
    | _ :: _ => hd false fates
    end
    || write_refused rest match buffer with
                            | [] => fates
                            | _ :: _ => tl fates
                            end.
Proof. destruct buffer; reflexivity. Qed.

(** X5: [WriteAppSnapshot] ends the run with exit code 255 when the file
    cannot be opened, and the file system is then as it was. Once the file
    is open, whether it returns is decided by the fates of its writes alone:
    a refused header write is noticed only by the assertion on the cursor,
    that is in a debug build; otherwise the run ends with exit code 255
    exactly when the write of a section that is not empty is refused. *)
Theorem WriteAppSnapshot_outcome (build : Build) (headers : Headers)
    (filename : string) (b1 b2 b3 b4 : list byte) (w : World) :
  magic_length (appjit_magic_number headers) = 8 ->
  length (magic_bytes (appjit_magic_number headers)) = 8%nat ->
  let run := WriteAppSnapshot build headers filename
               b1 (Z.of_nat (length b1)) b2 (Z.of_nat (length b2))
               b3 (Z.of_nat (length b3)) b4 (Z.of_nat (length b4)) w in
  (~ writable (fs w) filename ->
   fst run = Aborts (ErrorExit kErrorExitCode
                       "Unable to write snapshot file '%s'\n" filename)
   /\ fs (snd run) = fs w)
  /\ (writable (fs w) filename ->
      fst run
      = if DEBUG build && header_refused (faults w)
        then Aborts (AssertionFailed "file->Position() == kAppSnapshotHeaderSize")
        else if write_refused [b1; b2; b3; b4] (drop 5 (faults w))
             then Aborts (ErrorExit kErrorExitCode
                            "Unable to write snapshot file '%s'\n" filename)
             else Returns tt).
Proof.
  intros Hmagic Hmlen run. subst run. split; intros Hw.
  { unfold WriteAppSnapshot.
    rewrite (bind_returns _ _ _ _ _ (Open_refused filename w Hw)).
    split; reflexivity. }
  unfold WriteAppSnapshot.
  rewrite (bind_returns _ _ _ _ _ (Open_for_writing filename w Hw)).
  set (w0 := put filename [] (record_event (EvOpen filename kWriteTruncate) w)).
  change (faults w) with (faults w0).
  cbv beta iota. rewrite Hmagic.
  destruct (WriteFully_fate {| f_path := filename; f_position := 0 |}
              (magic_bytes (appjit_magic_number headers)) 8 w0) as [E1 F1];
    [rewrite Hmlen; lia |].
  rewrite (bind_returns _ _ _ _ _ E1). clear E1.
  set (w1 := snd (WriteFully _ _ _ w0)) in *.
  set (h1 := hd false (faults w0)). cbv beta iota.
  set (file1 := advance _ (if h1 then _ else _)).
  destruct (WriteInt64_fate file1 (Z.of_nat (length b1)) w1) as [E2 F2].
  rewrite (bind_returns _ _ _ _ _ E2). clear E2.
  set (w2 := snd (WriteInt64 _ _ w1)) in *.
  set (h2 := hd false (faults w1)). cbv beta iota.
  set (file2 := advance _ (if h2 then _ else _)).
  destruct (WriteInt64_fate file2 (Z.of_nat (length b2)) w2) as [E3 F3].
  rewrite (bind_returns _ _ _ _ _ E3). clear E3.
  set (w3 := snd (WriteInt64 _ _ w2)) in *.
  set (h3 := hd false (faults w2)). cbv beta iota.
  set (file3 := advance _ (if h3 then _ else _)).
  destruct (WriteInt64_fate file3 (Z.of_nat (length b3)) w3) as [E4 F4].
  rewrite (bind_returns _ _ _ _ _ E4). clear E4.
  set (w4 := snd (WriteInt64 _ _ w3)) in *.
  set (h4 := hd false (faults w3)). cbv beta iota.
  set (file4 := advance _ (if h4 then _ else _)).
  destruct (WriteInt64_fate file4 (Z.of_nat (length b4)) w4) as [E5 F5].
  rewrite (bind_returns _ _ _ _ _ E5). clear E5.
  set (w5 := snd (WriteInt64 _ _ w4)) in *.
  set (h5 := hd false (faults w4)). cbv beta iota.
  set (file5 := advance _ (if h5 then _ else _)).
  assert (Hpos : (Position file5 =? kAppSnapshotHeaderSize)
                 = negb (h1 || h2 || h3 || h4 || h5)).
  { subst file5 file4 file3 file2 file1. unfold Position.
    cbn [advance f_position].
    pose proof (taken_bounds 8 w0 ltac:(lia)).
    pose proof (taken_bounds 8 w1 ltac:(lia)).
    pose proof (taken_bounds 8 w2 ltac:(lia)).
    pose proof (taken_bounds 8 w3 ltac:(lia)).
    pose proof (taken_bounds 8 w4 ltac:(lia)).
    unfold kAppSnapshotHeaderSize, kInt64Size.
    destruct h1, h2, h3, h4, h5; cbn [orb negb];
      first [apply Z.eqb_eq; lia | apply Z.eqb_neq; lia]. }
  rewrite F1 in F2. rewrite F2 in F3. rewrite F3 in F4. rewrite F4 in F5.
  assert (Hheader : header_refused (faults w0) = h1 || h2 || h3 || h4 || h5).
  { subst h1 h2 h3 h4 h5. rewrite F4, F3, F2, F1. unfold header_refused.
    generalize (faults w0).
    intros [| [] [| [] [| [] [| [] [| [] rest]]]]]; reflexivity. }
  assert (Hrest : faults w5 = drop 5 (faults w0)).
  { rewrite F5. generalize (faults w0).
    intros [| x1 [| x2 [| x3 [| x4 [| x5 rest]]]]]; reflexivity. }
  rewrite Hheader, <- Hrest. rewrite Hpos.
  clearbody w5 file5. clear.
  unfold ASSERT, bind at 1.
  destruct (DEBUG build && negb (negb (h1 || h2 || h3 || h4 || h5))) eqn:Hassert.
  - rewrite negb_involutive in Hassert. rewrite Hassert. reflexivity.
  - rewrite negb_involutive in Hassert. rewrite Hassert.
    unfold ret at 1. cbv beta iota.
    destruct (write_section_fate filename (align file5) b1 w5) as [E1 F1].
    unfold bind at 1. rewrite E1. clear E1.
    set (w6 := snd (write_section _ _ b1 _ w5)) in *.
    rewrite write_refused_cons, <- F1.
    destruct (match b1 with [] => false | _ :: _ => hd false (faults w5) end);
      [reflexivity |].
    cbn [orb]. cbv beta iota.
    set (file6 := advance _ _). clearbody w6 file6. clear.
    destruct (instructions_section_fate filename file6 b2 w6) as [E2 F2].
    cbv zeta in E2, F2.
    unfold bind at 1. rewrite E2. clear E2.
    set (w7 := snd _) in *.
    rewrite write_refused_cons, <- F2.
    destruct (match b2 with [] => false | _ :: _ => hd false (faults w6) end);
      [reflexivity |].
    cbn [orb]. cbv beta iota.
    set (file7 := match b2 with [] => _ | _ :: _ => _ end).
    clearbody w7 file7. clear.
    destruct (write_section_fate filename (align file7) b3 w7) as [E3 F3].
    unfold bind at 1. rewrite E3. clear E3.
    set (w8 := snd (write_section _ _ b3 _ w7)) in *.
    rewrite write_refused_cons, <- F3.
    destruct (match b3 with [] => false | _ :: _ => hd false (faults w7) end);
      [reflexivity |].
    cbn [orb]. cbv beta iota.
    set (file8 := advance _ _). clearbody w8 file8. clear.
    destruct (instructions_section_fate filename file8 b4 w8) as [E4 F4].
    cbv zeta in E4, F4.
    unfold bind at 1. rewrite E4. clear E4.
    set (w9 := snd _) in *.
    rewrite write_refused_cons, <- F4.
    destruct (match b4 with [] => false | _ :: _ => hd false (faults w8) end);
      reflexivity.
Qed.


Lemma WriteAppSnapshot_outcome_witness :
  fst (WriteAppSnapshot Samples.jit_debug Samples.headers "app.snapshot"
         [] 0 [] 0 [xab] 1 [] 0
         {| fs := ∅; trace := [];
            faults := [false; false; false; false; false; true]; torn := [] |})
  = Aborts (ErrorExit 255 "Unable to write snapshot file '%s'\n" "app.snapshot").
Proof.
  destruct (WriteAppSnapshot_outcome Samples.jit_debug Samples.headers
              "app.snapshot" [] [] [xab] []
              {| fs := ∅; trace := [];
                 faults := [false; false; false; false; false; true]; torn := [] |}
              eq_refl eq_refl) as [_ H].
  apply H. exact I.
Defined.

(** ** The generators *)

(** What an accepted write of at least one byte does to the file system. *)
Lemma WriteFully_fs (file : File) (buffer : list byte) (n : Z) (w : World) :
  0 < n <= Z.of_nat (length buffer) ->
  hd false (faults w) = false ->
  fs (snd (WriteFully file buffer n w))
  = <[f_path file :=
        {| n_type := kIsFile;
           n_bytes := write_at (f_position file) (take (Z.to_nat n) buffer)
                        (file_bytes (fs w) (f_path file)) |}]> (fs w).
Proof.
  intros Hn Hfate. unfold WriteFully.
  destruct (Z.leb_spec n 0); [lia |].
  destruct (Z.ltb_spec (Z.of_nat (length buffer)) n); [lia |].
  unfold bind, next_fault, get_fs, put_node, ret.
  destruct (faults w) as [| [] rest] eqn:Hfaults;
    [reflexivity | discriminate | reflexivity].
Qed.

Lemma WriteSnapshotFile_opened (filename : string) (buffer : list byte)
    (size : Z) (w : World) :
  0 <= size <= Z.of_nat (length buffer) ->
  writable (fs w) filename ->
  let run := WriteSnapshotFile filename buffer size w in
  let refused := (0 <? size) && hd false (faults w) in
  fst run = (if refused
             then Aborts (ErrorExit kErrorExitCode
                            "Unable to write file %s for writing snapshot\n"
                            filename)
             else Returns tt)
  /\ (refused = false ->
      fs (snd run) !! filename
      = Some {| n_type := kIsFile; n_bytes := take (Z.to_nat size) buffer |}).
Proof.
  intros Hsize Hw run refused. subst run refused. unfold WriteSnapshotFile.
  rewrite (bind_returns _ _ _ _ _ (Open_for_writing filename w Hw)).
  set (w0 := put filename [] (record_event (EvOpen filename kWriteTruncate) w)).
  change (faults w) with (faults w0).
  destruct (Z.ltb_spec 0 size) as [Hpos | Hzero].
  - destruct (WriteFully_fate {| f_path := filename; f_position := 0 |}
                buffer size w0) as [Hrun Hfaults]; [lia |].
    unfold bind. rewrite Hrun. cbn [fst snd f_path f_position andb] in *.
    destruct (hd false (faults w0)) eqn:Hfate; cbn [negb fst snd abort ret].
    + split; [reflexivity | discriminate].
    + split; [reflexivity |]. intros _.
      rewrite (WriteFully_fs _ buffer size w0 (conj Hpos (proj2 Hsize)) Hfate).
      cbn [f_path f_position]. rewrite lookup_insert_eq.
      unfold w0. rewrite file_bytes_put. unfold write_at.
      rewrite take_nil, drop_nil. cbn. now rewrite app_nil_r.
  - assert (size = 0) as -> by lia. cbn. split; [reflexivity |]. intros _.
    apply lookup_insert_eq.
Qed.

(** X6: [WriteSnapshotFile] ends the run with exit code 255 when the file
    cannot be opened, which leaves the file system as it was, and when the
    device refuses the write. Otherwise it returns, and the file holds the
    first [size] bytes of the buffer and nothing of what it held before. *)
Theorem WriteSnapshotFile_outcome (filename : string) (buffer : list byte)
    (size : Z) (w : World) :
  0 <= size <= Z.of_nat (length buffer) ->
  let run := WriteSnapshotFile filename buffer size w in
  let refused := (0 <? size) && hd false (faults w) in
  (~ writable (fs w) filename ->
   fst run = Aborts (ErrorExit kErrorExitCode
                       "Unable to open file %s for writing snapshot\n" filename)
   /\ fs (snd run) = fs w)
  /\ (writable (fs w) filename ->
      fst run = (if refused
                 then Aborts (ErrorExit kErrorExitCode
                                "Unable to write file %s for writing snapshot\n"
                                filename)
                 else Returns tt)
      /\ (refused = false ->
          fs (snd run) !! filename
          = Some {| n_type := kIsFile;
                    n_bytes := take (Z.to_nat size) buffer |})).
Proof.
  intros Hsize run refused. subst run refused. split.
  - intros Hw. unfold WriteSnapshotFile.
    rewrite (bind_returns _ _ _ _ _ (Open_refused filename w Hw)).
    split; reflexivity.
  - intros Hw. now apply WriteSnapshotFile_opened.
Qed.

Lemma WriteSnapshotFile_outcome_witness :
  fs (snd (WriteSnapshotFile "app.dill" [x90; xab; xcd; xef] 3
             (Samples.world_with "app.dill" (Samples.regular [x01; x02]))))
    !! "app.dill"%string
  = Some {| n_type := kIsFile; n_bytes := [x90; xab; xcd] |}.
Proof.
  destruct (WriteSnapshotFile_outcome "app.dill" [x90; xab; xcd; xef] 3
              (Samples.world_with "app.dill" (Samples.regular [x01; x02])))
    as [_ H]; [cbn; lia |].
  apply H; [vm_compute |]; reflexivity.
Defined.

(** X7: What [GenerateAppJIT] writes, the resolver finds again: when the
    engine hands out an isolate snapshot, the device accepts the writes and
    the platform grants the mappings, [TryReadAppSnapshot] on the name of
    the file (or on a URI that decodes to it) returns, in every build, a
    handle whose isolate sections hold the bytes of the engine and whose VM
    sections are null. On IA32 the instructions section is null as well. *)
Theorem GenerateAppJIT_round_trip (build : Build) (tooling : Tooling)
    (engine : Engine) (host : Host) (headers : Headers)
    (snapshot_filename script_uri : string) (data instructions : list byte)
    (force_load_elf_from_memory decode_uri : bool) (w : World) :
  jit_sections tooling engine data instructions ->
  magic_length (appjit_magic_number headers) = 8 ->
  length (magic_bytes (appjit_magic_number headers)) = 8%nat ->
  writable (fs w) snapshot_filename ->
  faults w = [] ->
  (forall t p l, 0 < l -> MapGranted host t p l = true) ->
  Z.of_nat (length data) + Z.of_nat (length instructions) < 2 ^ 61 ->
  script_path host script_uri decode_uri = Some snapshot_filename ->
  exists w1 snapshot w2,
    GenerateAppJIT build tooling engine headers snapshot_filename w
    = (Returns tt, w1)
    /\ TryReadAppSnapshot build host headers script_uri
         force_load_elf_from_memory decode_uri w1
       = (Returns (Some snapshot), w2)
    /\ SetBuffers snapshot null_buffers
       = sections_read_back [] [] data instructions.
Proof.
  intros Hengine Hmagic Hmlen Hw Hfaults Hhost Hfit Hpath.
  destruct (round_trip build host headers snapshot_filename [] [] data
              instructions w Hmagic Hmlen Hw Hfaults Hhost)
    as (w1 & snapshot & w2 & Hwrite & Hread & Hset); [cbn [length]; lia |].
  destruct (WriteAppSnapshot_writes_image build headers snapshot_filename [] []
              data instructions w Hw Hfaults Hmagic Hmlen)
    as (w1' & Hwrite' & Hlook); [cbn [length]; lia |].
  rewrite Hwrite in Hwrite'. injection Hwrite' as <-.
  exists w1, snapshot, w2. split; [| split; [| exact Hset]].
  - unfold GenerateAppJIT.
    destruct Hengine as [[Harch Hengine] | (Harch & Hengine & ->)];
      rewrite Harch, Hengine; exact Hwrite.
  - rewrite TryReadAppSnapshot_resolves. unfold resolve_with.
    rewrite Hpath. unfold file_type. rewrite Hlook.
    rewrite bool_decide_eq_true_2 by reflexivity.
    unfold strategies, claimed_strategies.
    destruct (DART_PRECOMPILED_RUNTIME build); cbn [app first_non_null];
      now rewrite (bind_returns _ _ _ _ _ Hread).
Qed.

Lemma GenerateAppJIT_round_trip_witness :
  exists w1 snapshot w2,
    GenerateAppJIT Samples.jit
      {| EXCLUDE_CFE_AND_KERNEL_PLATFORM := false; TESTING := false;
         TARGET_ARCH_IA32 := false |}
      jit_engine Samples.headers "app.snapshot"
      {| fs := ∅; trace := []; faults := []; torn := [] |}
    = (Returns tt, w1)
    /\ TryReadAppSnapshot Samples.jit Samples.host Samples.headers
         "app.snapshot" false false w1
       = (Returns (Some snapshot), w2)
    /\ SetBuffers snapshot null_buffers
       = sections_read_back [] [] [x01; x02] [x03].
Proof.
  apply (GenerateAppJIT_round_trip Samples.jit _ jit_engine Samples.host
           Samples.headers "app.snapshot" "app.snapshot" [x01; x02] [x03]
           false false {| fs := ∅; trace := []; faults := []; torn := [] |});
    try reflexivity.
  left. split; reflexivity.
Defined.

(** The engine's chunks on their way into the file: the run goes on until
    a write is refused; when none is, the file has grown by the chunks. *)
Lemma stream_run (chunks : list (list byte * Z)) :
  forall (file : File) (w : World) (written : list byte),
    chunks_sized chunks ->
    fs w !! f_path file = Some {| n_type := kIsFile; n_bytes := written |} ->
    f_position file = Z.of_nat (length written) ->
    let run := stream chunks file w in
    if write_refused (map fst chunks) (faults w)
    then fst run
         = Aborts (ErrorExit kErrorExitCode "Unable to write snapshot file\n" "")
    else (exists file', fst run = Returns file')
         /\ fs (snd run) !! f_path file
            = Some {| n_type := kIsFile;
                      n_bytes := written ++ concat (map fst chunks) |}.
Proof.
  induction chunks as [| [buffer size] chunks IH];
    intros file w written Hsized Hlook Hposition run; subst run.
  - cbn. rewrite app_nil_r. split; [now exists file | exact Hlook].
  - apply Forall_cons in Hsized as [Hsize Hsized]. cbn [fst snd] in Hsize.
    subst size. cbn [stream map fst].
    destruct buffer as [| b buffer].
    + cbn [write_refused concat app].
      unfold StreamingWriteCallback, WriteFully. cbn.
      apply (IH file w written Hsized Hlook Hposition).
    + set (data := b :: buffer).
      destruct (WriteFully_fate file data (Z.of_nat (length data)) w)
        as [Hrun Hfaults]; [cbn [data length]; lia |].
      set (w' := snd (WriteFully file data _ w)) in *.
      assert (Hstep :
        stream ((data, Z.of_nat (length data)) :: chunks) file w
        = if hd false (faults w)
          then (Aborts (ErrorExit kErrorExitCode
                          "Unable to write snapshot file\n" ""), w')
          else stream chunks (advance file (Z.of_nat (length data))) w').
      { cbn [stream]. unfold StreamingWriteCallback, bind. rewrite Hrun.
        destruct (hd false (faults w)); reflexivity. }
      cbn [stream] in Hstep. rewrite Hstep. clear Hstep Hrun.
      cbn [write_refused].
      destruct (hd false (faults w)) eqn:Hfate; [reflexivity |].
      cbn [orb]. rewrite <- Hfaults.
      pose proof (WriteFully_fs file data (Z.of_nat (length data)) w
                    ltac:(cbn [data length]; lia) Hfate) as Hfs.
      fold w' in Hfs. clearbody w'. subst data.
      specialize (IH (advance file (Z.of_nat (length (b :: buffer)))) w'
                    (written ++ b :: buffer) Hsized).
      cbn [advance f_path f_position] in IH.
      rewrite Hfs, lookup_insert_eq in IH.
      rewrite (file_bytes_lookup _ _ _ Hlook) in IH. cbn [n_bytes] in IH.
      rewrite Nat2Z.id, firstn_all, Hposition, write_at_end in IH.
      specialize (IH eq_refl).
      rewrite length_app, Nat2Z.inj_add in IH. specialize (IH eq_refl).
      cbn [concat]. rewrite app_assoc. exact IH.
Qed.

(** X8: [GenerateAppAOTAsAssembly], once it has opened the file, truncates
    it before the engine runs. The run ends with exit code 255 when the
    device refuses a chunk, and with the message of the engine when the
    engine reports an error at the end. Whenever no chunk is refused the
    file holds all chunks in order, also when the engine has reported an
    error: the failed run leaves the assembly it got behind. *)
Theorem GenerateAppAOTAsAssembly_outcome (engine : Engine)
    (snapshot_filename : string) (chunks : list (list byte * Z))
    (result : option string) (w : World) :
  Dart_CreateAppAOTSnapshotAsAssembly engine = (chunks, result) ->
  chunks_sized chunks ->
  writable (fs w) snapshot_filename ->
  let run := GenerateAppAOTAsAssembly engine snapshot_filename w in
  fst run
  = (if write_refused (map fst chunks) (faults w)
     then Aborts (ErrorExit kErrorExitCode "Unable to write snapshot file\n" "")
     else match result with
          | Some message => Aborts (ErrorExit kErrorExitCode "%s\n" message)
          | None => Returns tt
          end)
  /\ (write_refused (map fst chunks) (faults w) = false ->
      fs (snd run) !! snapshot_filename
      = Some {| n_type := kIsFile; n_bytes := concat (map fst chunks) |}).
Proof.
  intros Hengine Hsized Hw run. subst run.
  unfold GenerateAppAOTAsAssembly.
  rewrite (bind_returns _ _ _ _ _ (Open_for_writing snapshot_filename w Hw)).
  cbn [RefCntReleaseScope]. rewrite Hengine.
  change ((ret tt ;;;
           (stream chunks {| f_path := snapshot_filename; f_position := 0 |} ;;;
            match result with
            | Some message => abort (ErrorExit kErrorExitCode "%s\n" message)
            | None => ret tt
            end))
            (put snapshot_filename []
               (record_event (EvOpen snapshot_filename kWriteTruncate) w)))
    with ((stream chunks {| f_path := snapshot_filename; f_position := 0 |} ;;;
           match result with
           | Some message => abort (ErrorExit kErrorExitCode "%s\n" message)
           | None => ret tt
           end)
            (put snapshot_filename []
               (record_event (EvOpen snapshot_filename kWriteTruncate) w))).
  set (w0 := put snapshot_filename []
               (record_event (EvOpen snapshot_filename kWriteTruncate) w)).
  change (faults w) with (faults w0).
  pose proof (stream_run chunks
                {| f_path := snapshot_filename; f_position := 0 |}
                w0 [] Hsized (lookup_put _ _ _) eq_refl) as Hrun.
  cbv zeta in Hrun. cbn [f_path app] in Hrun. unfold bind.
  destruct (write_refused (map fst chunks) (faults w0)).
  - destruct (stream chunks _ w0) as [[file' | d |] w1]; cbn [fst] in Hrun;
      try discriminate.
    injection Hrun as ->. split; [reflexivity | discriminate].
  - destruct Hrun as [[file' Hrun] Hfs].
    destruct (stream chunks _ w0) as [[file'' | d |] w1]; cbn [fst snd] in *;
      try discriminate.
    destruct result; split; (reflexivity || (intros _; exact Hfs)).
Qed.

Lemma GenerateAppAOTAsAssembly_outcome_witness :
  let run := GenerateAppAOTAsAssembly aot_engine "app.S"
               (Samples.world_with "app.S" (Samples.regular [x01; x02; x03])) in
  fst run = Aborts (ErrorExit 255 "%s\n" "out of memory")
  /\ fs (snd run) !! "app.S"%string
     = Some {| n_type := kIsFile; n_bytes := [x2e; x74; x0a] |}.
Proof.
  destruct (GenerateAppAOTAsAssembly_outcome aot_engine "app.S"
              [([x2e; x74], 2); ([], 0); ([x0a], 1)]
              (Some "out of memory"%string)
              (Samples.world_with "app.S" (Samples.regular [x01; x02; x03])))
    as [Hrun Hfile].
  - reflexivity.
  - repeat apply Forall_cons_2; try apply Forall_nil_2; reflexivity.
  - vm_compute. reflexivity.
  - split; [exact Hrun | apply Hfile; reflexivity].
Defined.

(** X9: where the file can be opened and the device accepts the write,
    [GenerateKernel] copies a script that is a kernel file already, and
    does not look at what the compiler says of it. Any other script is
    compiled: when that fails the message is printed and the run ends with
    exit code 254 before the file is opened, so that a file of that name is
    left as it was; else the file holds the kernel the compiler made. *)
Theorem GenerateKernel_outcome (build : Build) (tooling : Tooling)
    (engine : Engine) (snapshot_filename script_name package_config : string)
    (w : World) :
  EXCLUDE_CFE_AND_KERNEL_PLATFORM tooling = false ->
  TESTING tooling = false ->
  DEBUG build = false \/ Dart_CurrentIsolate engine = None ->
  writable (fs w) snapshot_filename ->
  hd false (faults w) = false ->
  let run := GenerateKernel build tooling engine snapshot_filename script_name
               package_config w in
  let result :=
    CompileScriptWithGivenNullsafety engine script_name package_config true
      (Dart_DetectNullSafety engine (sanitized_uri engine script_name)
         (sanitized_uri engine package_config)
         (original_working_directory engine)) in
  (forall buffer size,
     ReadScript engine script_name = Some (buffer, size) ->
     0 <= size <= Z.of_nat (length buffer) ->
     fst run = Returns tt
     /\ fs (snd run) !! snapshot_filename
        = Some {| n_type := kIsFile; n_bytes := take (Z.to_nat size) buffer |})
  /\ (ReadScript engine script_name = None ->
      if status_is_ok result
      then 0 <= kernel_size result <= Z.of_nat (length (kernel result)) ->
           fst run = Returns tt
           /\ fs (snd run) !! snapshot_filename
              = Some {| n_type := kIsFile;
                        n_bytes := take (Z.to_nat (kernel_size result))
                                     (kernel result) |}
      else fst run = Aborts (ErrorExit kCompilationErrorExitCode "" "")
           /\ fs (snd run) = fs w
           /\ trace (snd run) = EvPrintErr (error result ++ "\n") :: trace w).
Proof.
  intros Hcfe Htesting Hassert Hw Hfate run result. subst run.
  unfold GenerateKernel. rewrite Hcfe, Htesting. cbn [negb andb].
  assert (Hasserted : forall text,
            ASSERT build (bool_decide (Dart_CurrentIsolate engine = None)) text w
            = (Returns tt, w)).
  { intros text. unfold ASSERT. destruct Hassert as [-> | ->]; [reflexivity |].
    rewrite bool_decide_eq_true_2 by reflexivity.
    now rewrite andb_false_r. }
  rewrite (bind_returns _ _ _ _ _ (Hasserted _)). split.
  - intros buffer size -> Hsize.
    destruct (WriteSnapshotFile_opened snapshot_filename buffer size w Hsize Hw)
      as [Hrun Hfs].
    rewrite Hfate, andb_false_r in Hrun, Hfs. split; [exact Hrun | now apply Hfs].
  - intros ->. fold result. destruct (status_is_ok result).
    + intros Hsize. cbn [negb]. unfold bind at 1, ret at 1.
      destruct (WriteSnapshotFile_opened snapshot_filename (kernel result)
                  (kernel_size result) w Hsize Hw) as [Hrun Hfs].
      rewrite Hfate, andb_false_r in Hrun, Hfs.
      split; [exact Hrun | now apply Hfs].
    + cbn. repeat split.
Qed.

Lemma GenerateKernel_outcome_witness :
  fs (snd (GenerateKernel Samples.jit
             {| EXCLUDE_CFE_AND_KERNEL_PLATFORM := false; TESTING := false;
                TARGET_ARCH_IA32 := false |}
             aot_engine "app.dill" "app.dart" ".packages"
             (Samples.world_with "app.dill" (Samples.regular [x01]))))
    !! "app.dill"%string
  = Some {| n_type := kIsFile; n_bytes := [x90; xab; xcd; xef] |}.
Proof.
  destruct (GenerateKernel_outcome Samples.jit
              {| EXCLUDE_CFE_AND_KERNEL_PLATFORM := false; TESTING := false;
                 TARGET_ARCH_IA32 := false |}
              aot_engine "app.dill" "app.dart" ".packages"
              (Samples.world_with "app.dill" (Samples.regular [x01]))
              eq_refl eq_refl (or_introl eq_refl) eq_refl eq_refl)
    as [H _].
  apply (H [x90; xab; xcd; xef] 4); [reflexivity | cbn; lia].
Defined.

(** ** Mach-O containers on macOS *)

(** X10: On a build for macOS a container that starts with a byte-swapped or
    a 32-bit Mach-O magic number yields null whatever trailer it carries:
    the probe opens it, reads its first four bytes - as the format test and
    the section search do again - prints a diagnostic and reads nothing
    else; no loader is called. *)
Theorem macos_foreign_mach_o_rejected (build : Build) (host : Host)
    (headers : Headers) (container_path : string) (bytes : list byte)
    (w : World) :
  DART_TARGET_OS_MACOS build = true ->
  fs w !! container_path = Some {| n_type := kIsFile; n_bytes := bytes |} ->
  (4 <= length bytes)%nat ->
  load_uint32 bytes = mach_o.MH_CIGAM \/ load_uint32 bytes = mach_o.MH_CIGAM_64
  \/ load_uint32 bytes = mach_o.MH_MAGIC ->
  exists message,
    TryReadAppendedAppSnapshotElf build host headers container_path w
    = (Returns None,
       rejected container_path message
         (record_event (EvRead container_path 0 4)
            (record_event (EvOpen container_path kRead) w))).
Proof.
  intros Hmac Hnode Hlen Hmagic.
  assert (Hsignature : is_mach_o_magic (load_uint32 bytes) = true).
  { unfold is_mach_o_magic. destruct Hmagic as [-> | [-> | ->]]; reflexivity. }
  unfold TryReadAppendedAppSnapshotElf. rewrite Hmac.
  rewrite (bind_returns _ _ _ _ _
             (IsMachOFormattedBinary_eq container_path bytes w Hnode Hlen)).
  rewrite Hsignature.
  set (w1 := record_event _ (record_event _ w)).
  rewrite (macho_probe_after_magic host container_path bytes w1 Hnode Hlen
             Hsignature).
  destruct Hmagic as [-> | [-> | ->]]; cbn [orb negb Z.eqb Pos.eqb];
    eexists; reflexivity.
Qed.

Lemma macos_foreign_mach_o_rejected_witness :
  fst (TryReadAppendedAppSnapshotElf Samples.aot_macos elf_host Samples.headers
         "app"
         (Samples.world_with "app" (Samples.regular swapped_mach_o_with_trailer)))
  = Returns None.
Proof.
  destruct (macos_foreign_mach_o_rejected Samples.aot_macos elf_host
              Samples.headers "app" swapped_mach_o_with_trailer
              (Samples.world_with "app"
                 (Samples.regular swapped_mach_o_with_trailer)))
    as [message Hrun].
  - reflexivity.
  - reflexivity.
  - vm_compute. lia.
  - right. left. reflexivity.
  - now rewrite Hrun.
Defined.
